(** * CodeFuse agent: a shallow embedding of the core and its checked properties

    The development follows the Python sources of [codefuse]:
      - [codefuse/tools/builtin/filesystem_base.py], [read_file.py],
        [write_file.py], [edit_file.py] and [codefuse/core/read_tracker.py]
        (workspace tools and the read-before-edit gate);
      - [codefuse/core/context_engine.py] (message ledger, sanitizer);
      - [codefuse/core/tool_executor.py] (dispatch of one tool call);
      - [codefuse/core/agent_loop.py] (the iteration loop);
      - [codefuse/llm/retry.py] (the retry decorator).

    Conventions.  A Python [str] is the Rocq [string] of its UTF-8 bytes: a
    character is a byte that is no continuation byte (10xxxxxx) together
    with the continuation bytes after it.  Prefix and substring tests on the
    bytes agree with Python's; what Python counts in characters ([len], the
    columns of [expandtabs], the places where the empty string occurs) is
    counted in characters here.  A [bytes] object is the [string] of its
    bytes.  Python [int] is [Z] (or [N]/[nat] where the source value cannot
    be negative).  Mutable objects are passed
    and returned explicitly.  What belongs to the operating system or to a
    library (path resolution, text codecs, the JSON parser, exception texts)
    is a field of a record the definitions are parameterised by. *)

From Stdlib Require Import ZArith QArith Ascii String.
From stdpp Require Import gmap strings list pretty.

Open Scope string_scope.
Open Scope list_scope.
Open Scope Z_scope.

(** ** Python string primitives *)

Module Py.

(** [s.startswith(p)] *)
Definition startswith (s p : string) : bool := String.prefix p s.

(** [sub in s] *)
Fixpoint contains (sub s : string) : bool :=
  String.prefix sub s ||
  match s with
  | EmptyString => false
  | String _ r => contains sub r
  end.

(** [sep.join(l)] *)
Fixpoint join (sep : string) (l : list string) : string :=
  match l with
  | [] => ""
  | [x] => x
  | x :: r => x +:+ sep +:+ join sep r
  end.

Definition concat (l : list string) : string := foldr String.app "" l.

Fixpoint repeat_char (c : ascii) (n : nat) : string :=
  match n with
  | O => ""
  | S k => String c (repeat_char c k)
  end.


Definition newline : ascii := "010"%char.
Definition carriage_return : ascii := "013"%char.
Definition tab : ascii := "009"%char.
Definition nl : string := String newline "".
Definition dquote : string := String "034"%char "".

(** A byte 10xxxxxx, which continues a character in UTF-8. *)
Definition is_continuation (c : ascii) : bool :=
  match c with
  | Ascii _ _ _ _ _ _ b6 b7 => b7 && negb b6
  end.

(** The number of characters of [s]. *)
Fixpoint chars (s : string) : nat :=
  match s with
  | EmptyString => O
  | String c r => (if is_continuation c then 0 else 1)%nat + chars r
  end.

(** A position of a [str]: [s] is what is left of it from a character's
    first byte on, or from the end. *)
Definition at_char (s : string) : bool :=
  match s with
  | EmptyString => true
  | String c _ => negb (is_continuation c)
  end.

(** [s.count(c)] for a one-character [c] *)
Fixpoint count_char (c : ascii) (s : string) : nat :=
  match s with
  | EmptyString => O
  | String d r => (if decide (c = d) then 1 else 0)%nat + count_char c r
  end.

(** [s.count(sub)] for a non-empty [sub]: occurrences scanned left to right,
    without overlap; [skip] characters of the last match are still to pass. *)
Fixpoint count_aux (sub s : string) (skip : nat) : nat :=
  match s with
  | EmptyString => O
  | String _ r =>
      match skip with
      | S k => count_aux sub r k
      | O =>
          if String.prefix sub s
          then S (count_aux sub r (String.length sub - 1))
          else count_aux sub r 0
      end
  end.

(** [s.count(sub)]; the empty string occurs [len(s) + 1] times. *)
Definition count (s sub : string) : nat :=
  match sub with
  | EmptyString => S (chars s)
  | _ => count_aux sub s 0
  end.

Definition limit_open (limit : option nat) : bool :=
  match limit with
  | Some O => false
  | _ => true
  end.

Definition limit_pred (limit : option nat) : option nat :=
  match limit with
  | Some n => Some (Nat.pred n)
  | None => None
  end.

Fixpoint replace_aux (old new s : string) (skip : nat) (limit : option nat)
  : string :=
  match s with
  | EmptyString => ""
  | String c r =>
      match skip with
      | S k => replace_aux old new r k limit
      | O =>
          if limit_open limit && String.prefix old s
          then new +:+ replace_aux old new r (String.length old - 1)
                         (limit_pred limit)
          else String c (replace_aux old new r 0 limit)
      end
  end.

(** Replacing the empty string puts [new] before every character and at the
    end, as long as the limit lasts; the bytes that continue a character
    stay with it. *)
Fixpoint replace_empty (new s : string) (limit : option nat) : string :=
  if limit_open limit then
    match s with
    | EmptyString => new
    | String c r =>
        if is_continuation c then String c (replace_empty new r limit)
        else new +:+ String c (replace_empty new r (limit_pred limit))
    end
  else s.

(** [s.replace(old, new)] ([limit = None]) and [s.replace(old, new, n)] *)
Definition replace (s old new : string) (limit : option nat) : string :=
  match old with
  | EmptyString => replace_empty new s limit
  | _ => replace_aux old new s 0 limit
  end.

Fixpoint before_first (sep s : string) : string :=
  if String.prefix sep s then ""
  else match s with
       | EmptyString => ""
       | String c r => String c (before_first sep r)
       end.

(** [s.split(sep)[0]]; an empty separator raises [ValueError]. *)
Definition split_head (s sep : string) : option string :=
  match sep with
  | EmptyString => None
  | _ => Some (before_first sep s)
  end.

Definition cons_char (c : ascii) (l : list string) : list string :=
  match l with
  | [] => [String c ""]
  | h :: t => String c h :: t
  end.

(** [s.split('\n')] *)
Fixpoint split_lines (s : string) : list string :=
  match s with
  | EmptyString => [""]
  | String c r =>
      if decide (c = newline) then "" :: split_lines r
      else cons_char c (split_lines r)
  end.

(** Length in bytes of the line boundary [str.splitlines] recognises at the
    head of [s], [0] when there is none: CR LF, LF, CR, VT, FF, FS, GS, RS,
    NEL (U+0085), LS (U+2028) and PS (U+2029), the last three in UTF-8. *)
Definition linebreak_len (s : string) : nat :=
  match s with
  | EmptyString => 0
  | String c r =>
      if decide (c = carriage_return) then
        match r with
        | String d _ => if decide (d = newline) then 2 else 1
        | EmptyString => 1
        end
      else if bool_decide (c ∈ [newline; "011"; "012"; "028"; "029"; "030"]%char)
      then 1
      else
        match r with
        | String d r' =>
            if bool_decide (c = "194"%char ∧ d = "133"%char) then 2
            else
              match r' with
              | String e _ =>
                  if bool_decide (c = "226"%char ∧ d = "128"%char ∧
                                  (e = "168"%char ∨ e = "169"%char))
                  then 3 else 0
              | EmptyString => 0
              end
        | EmptyString => 0
        end
  end%nat.

(** [s.splitlines(keepends=True)]; [k] bytes of a boundary already entered
    remain to be taken into the current line. *)
Fixpoint splitlines_aux (s : string) (k : nat) : list string :=
  match s with
  | EmptyString => []
  | String c r =>
      match (match k with O => linebreak_len s | _ => k end) with
      | O => cons_char c (splitlines_aux r 0)
      | 1%nat => String c "" :: splitlines_aux r 0
      | S (S j) => cons_char c (splitlines_aux r (S j))
      end
  end.

Definition splitlines (s : string) : list string := splitlines_aux s 0.

(** [s.expandtabs()] with the default tab size 8; [col] is the column, in
    characters since the last line end, so a continuation byte leaves it
    as it is. *)
Fixpoint expandtabs_aux (s : string) (col : nat) : string :=
  match s with
  | EmptyString => ""
  | String c r =>
      if decide (c = tab) then
        let incr := (8 - col mod 8)%nat in
        repeat_char " " incr +:+ expandtabs_aux r (col + incr)
      else if bool_decide (c = newline ∨ c = carriage_return) then
        String c (expandtabs_aux r 0)
      else if is_continuation c then String c (expandtabs_aux r col)
      else String c (expandtabs_aux r (S col))
  end.

Definition expandtabs (s : string) : string := expandtabs_aux s 0.

(** Text-mode reading translates CR LF and CR to LF. *)
Fixpoint universal_newlines (s : string) : string :=
  match s with
  | EmptyString => ""
  | String c r =>
      if decide (c = carriage_return) then
        String newline
          match r with
          | String d r' =>
              if decide (d = newline) then universal_newlines r'
              else universal_newlines r
          | EmptyString => ""
          end
      else String c (universal_newlines r)
  end.

(** [len(s)] of a [str]: its characters *)
Definition len (s : string) : Z := Z.of_nat (chars s).

(** [len(b)] of a [bytes] object *)
Definition len_bytes (b : string) : Z := Z.of_nat (String.length b).

(** [l[a:b]] for [0 <= a] *)
Definition slice {A} (l : list A) (a b : nat) : list A := take (b - a) (drop a l).

(** [f"{n:Wd}"] padded on the left with [c] *)
Definition pad_left (c : ascii) (w : nat) (s : string) : string :=
  repeat_char c (w - String.length s) +:+ s.

Definition str_int (n : Z) : string := pretty n.

(** [str(x)] of an [Optional[int]] *)
Definition str_opt_int (x : option Z) : string :=
  match x with
  | Some n => pretty n
  | None => "None"
  end.
Definition str_nat (n : nat) : string := pretty n.

(** [f"{n:03d}"] *)
Definition fmt_03d (n : nat) : string := pad_left "0" 3 (str_nat n).
(** [f"{n:6d}"] *)
Definition fmt_6d (n : Z) : string := pad_left " " 6 (str_int n).

Fixpoint group3 (rev_digits : string) (k : nat) : string :=
  match rev_digits with
  | EmptyString => ""
  | String c r =>
      match k with
      | O => String "," (String c (group3 r 2))
      | S j => String c (group3 r j)
      end
  end.

(** [f"{n:,}"] *)
Definition fmt_thousands (n : Z) : string :=
  String.rev (group3 (String.rev (str_int n)) 3).

(** [f"{n / 1024:.1f}"] for an integer [n >= 0]: the quotient is exact in
    binary floating point, and the tenth is rounded half to even. *)
Definition fmt_kb_1f (n : N) : string :=
  let q := (10 * n / 1024)%N in
  let r := (10 * n mod 1024)%N in
  let t := if bool_decide (512 < r ∨ (r = 512 ∧ N.odd q = true))%N
           then (q + 1)%N else q in
  pretty (t / 10)%N +:+ "." +:+ pretty (t mod 10)%N.

End Py.


(** ** Tool results ([codefuse/tools/base.py]) *)

Record ToolResult := { content : string; display : string }.

(** [ToolResult(content, display)]; [__post_init__] lets a missing display
    default to the content. *)
Definition mkToolResult (c : string) (d : option string) : ToolResult :=
  {| content := c; display := default c d |}.

(** ** The file system and what the interpreter raises *)

(** A directory entry: a regular file with its bytes and whether the process
    may read and write it, or a directory. *)
Inductive node :=
  | File (bytes : string) (readable writable : bool)
  | Dir.

(** The exceptions the tools tell apart in their handlers; each carries
    [str(e)]. *)
Inductive exn :=
  | PermissionError (msg : string)
  | UnicodeDecodeError (msg : string)
  | Exception (msg : string).

Definition exn_str (e : exn) : string :=
  match e with
  | PermissionError m | UnicodeDecodeError m | Exception m => m
  end.

(** What the operating system and the codecs decide. *)
Record OS := {
  (** [Path.expanduser] *)
  expanduser : string → string;
  (** [Path.resolve], as the string of the resulting path *)
  resolve : string → string;
  (** [bytes.decode(encoding, errors)]; [None] is a [UnicodeDecodeError] *)
  decode : string → option string → string → option string;
  (** [str.encode(encoding)]; [None] is a [UnicodeEncodeError] *)
  encode : string → string → option string;
  (** the text of an [OSError] of the given kind on the given path *)
  strerror : string → string → string;
}.

Module Fs.

Definition exists_ (fs : gmap string node) (p : string) : bool :=
  bool_decide (is_Some (fs !! p)).

Definition is_file (fs : gmap string node) (p : string) : bool :=
  match fs !! p with
  | Some (File _ _ _) => true
  | _ => false
  end.

(** [p.stat().st_size] of a regular file *)
Definition st_size (fs : gmap string node) (p : string) : Z :=
  match fs !! p with
  | Some (File b _ _) => Py.len_bytes b
  | _ => 0
  end.

(** [open(p, 'rb').read()] *)
Definition read_bytes (os : OS) (fs : gmap string node) (p : string)
  : exn + string :=
  match fs !! p with
  | Some (File b true _) => inr b
  | Some (File _ false _) => inl (PermissionError (strerror os "EACCES" p))
  | Some Dir => inl (Exception (strerror os "EISDIR" p))
  | None => inl (Exception (strerror os "ENOENT" p))
  end.

(** [p.read_text(encoding=..., errors=...)]: text mode decodes and
    translates line ends. *)
Definition read_text (os : OS) (fs : gmap string node) (p : string)
    (encoding : string) (errors : option string) : exn + string :=
  match read_bytes os fs p with
  | inl e => inl e
  | inr b =>
      match decode os encoding errors b with
      | Some t => inr (Py.universal_newlines t)
      | None => inl (UnicodeDecodeError (strerror os "decode" encoding))
      end
  end.

(** [open(p, 'w')]: an existing file is truncated, a missing one created. *)
Definition open_w (os : OS) (fs : gmap string node) (p : string)
  : exn + gmap string node :=
  match fs !! p with
  | Some (File _ r true) => inr (<[p := File "" r true]> fs)
  | Some (File _ _ false) => inl (PermissionError (strerror os "EACCES" p))
  | Some Dir => inl (Exception (strerror os "EISDIR" p))
  | None => inr (<[p := File "" true true]> fs)
  end.

Definition set_bytes (fs : gmap string node) (p : string) (b : string)
  : gmap string node :=
  match fs !! p with
  | Some (File _ r w) => <[p := File b r w]> fs
  | _ => fs
  end.

(** [open(p, 'w', encoding=...)] followed by [f.write(text)]: the exception,
    if any, and the file system as it is left (truncation happens before
    the text is encoded). *)
Definition write_text (os : OS) (fs : gmap string node) (p : string)
    (encoding text : string) : option exn * gmap string node :=
  match open_w os fs p with
  | inl e => (Some e, fs)
  | inr fs1 =>
      match encode os encoding text with
      | Some b => (None, set_bytes fs1 p b)
      | None => (Some (Exception (strerror os "encode" encoding)), fs1)
      end
  end.

Fixpoint dirname_aux (s : string) : option string :=
  match s with
  | EmptyString => None
  | String c r =>
      match dirname_aux r with
      | Some d => Some (String c d)
      | None => if decide (c = "/"%char) then Some "" else None
      end
  end.

(** [Path(p).parent] of an absolute path *)
Definition parent (p : string) : string :=
  match dirname_aux p with
  | Some EmptyString => "/"
  | Some d => d
  | None => p
  end.

(** [d], its parent, ... up to the root, the root first. *)
Fixpoint lineage (fuel : nat) (d : string) (acc : list string) : list string :=
  match fuel with
  | O => d :: acc
  | S k => if decide (parent d = d) then d :: acc else lineage k (parent d) (d :: acc)
  end.

Fixpoint mkdir_chain (os : OS) (fs : gmap string node) (chain : list string)
  : option exn * gmap string node :=
  match chain with
  | [] => (None, fs)
  | d :: rest =>
      match fs !! d with
      | Some Dir => mkdir_chain os fs rest
      | Some (File _ _ _) =>
          (Some (Exception
                   (strerror os (match rest with [] => "EEXIST" | _ => "ENOTDIR" end) d)),
           fs)
      | None => mkdir_chain os (<[d := Dir]> fs) rest
      end
  end.

(** [d.mkdir(parents=True, exist_ok=True)]: the exception, if any, and the
    file system with the directories made so far. *)
Definition mkdir_parents (os : OS) (fs : gmap string node) (d : string)
  : option exn * gmap string node :=
  mkdir_chain os fs (lineage (String.length d) d []).

End Fs.

(** ** The read tracker ([codefuse/core/read_tracker.py]) *)

Module ReadTracker.

(** [self._read_files], a set of resolved paths *)
Definition init : gset string := ∅.

Definition mark_as_read (os : OS) (self : gset string) (file_path : string)
  : gset string :=
  {[ resolve os file_path ]} ∪ self.

Definition is_read (os : OS) (self : gset string) (file_path : string) : bool :=
  bool_decide (resolve os file_path ∈ self).

Definition clear (self : gset string) : gset string := ∅.

End ReadTracker.

(** ** What the file tools share ([filesystem_base.py]) *)

Module FileSystemToolMixin.

Definition MAX_FILE_SIZE_BYTES : Z := 256 * 1024.
Definition MAX_TOKENS : Z := 25000.

(** [Path(path).is_absolute()] on a POSIX path *)
Definition is_absolute (path : string) : bool := Py.startswith path "/".

Definition _check_absolute_path (path : string) : option string :=
  if negb (is_absolute path)
  then Some ("Path must be absolute, but got relative path: " +:+ path)
  else None.

(** [file_path.relative_to(root)] succeeds: the root's components lead the
    path's. *)
Definition relative_to_ok (root file_path : string) : bool :=
  bool_decide (file_path = root)
  || Py.startswith file_path (root +:+ "/")
  || (bool_decide (root = "/") && Py.startswith file_path "/").

Definition _check_within_workspace (workspace_root file_path : string)
  : option string :=
  if relative_to_ok workspace_root file_path then None
  else Some ("Path must be within workspace root (" +:+ workspace_root +:+
             "), but got: " +:+ file_path).

Definition _resolve_path (os : OS) (path : string) : string :=
  resolve os (expanduser os path).

Definition _estimate_tokens (c : string) : Z := Py.len c / 4.

Definition _check_token_limit (c : string) (max_tokens : Z) : option string :=
  let token_count := _estimate_tokens c in
  if bool_decide (token_count > max_tokens)
  then Some ("Content (" +:+ Py.fmt_thousands token_count +:+
             " tokens) exceeds maximum (" +:+ Py.fmt_thousands max_tokens +:+
             " tokens). Please reduce the content size.")
  else None.

Definition _create_error_result (error_msg display_msg : string) : ToolResult :=
  mkToolResult ("Error: " +:+ error_msg) (Some ("❌ " +:+ display_msg)).

(** The three attempts of [_read_with_encoding_fallback]; an exception other
    than [UnicodeDecodeError] leaves the loop at once. *)
Fixpoint read_fallback (os : OS) (fs : gmap string node) (file_path : string)
    (encodings : list (string * option string)) (last : string)
  : exn + (string * string) :=
  match encodings with
  | [] =>
      inl (UnicodeDecodeError
             ("Failed to decode file with all attempted encodings: " +:+ last))
  | (encoding, errors) :: rest =>
      match Fs.read_text os fs file_path encoding errors with
      | inr c => inr (c, encoding)
      | inl (UnicodeDecodeError m) => read_fallback os fs file_path rest m
      | inl e => inl e
      end
  end.

Definition _read_with_encoding_fallback (os : OS) (fs : gmap string node)
    (file_path : string) : exn + (string * string) :=
  read_fallback os fs file_path
    [("utf-8", None); ("latin-1", None); ("utf-8", Some "replace")] "None".

(** Positions where [search] starts, each found from one character after
    the last, as 1-based line numbers. *)
Fixpoint occurrence_lines (search s : string) (line : Z) : list Z :=
  (if Py.at_char s && String.prefix search s then [line] else []) ++
  match s with
  | EmptyString => []
  | String c r =>
      occurrence_lines search r
        (if decide (c = Py.newline) then line + 1 else line)
  end.

Definition _find_occurrence_lines (c search_string : string) : list Z :=
  occurrence_lines search_string c 1.

Fixpoint number_lines (lines : list string) (line_num : Z) : list string :=
  match lines with
  | [] => []
  | l :: r => (Py.fmt_6d line_num +:+ "→" +:+ l) :: number_lines r (line_num + 1)
  end.

Definition _format_with_line_numbers (c : string) (start_line : Z) : string :=
  match c with
  | EmptyString => c
  | _ => Py.join Py.nl (number_lines (Py.split_lines c) start_line)
  end.

(** [str(list_of_ints)] *)
Definition str_int_list (l : list Z) : string :=
  "[" +:+ Py.join ", " (Py.str_int <$> l) +:+ "]".

End FileSystemToolMixin.

(** ** [read_file] ([codefuse/tools/builtin/read_file.py]) *)

Module ReadFileTool.
Import FileSystemToolMixin.

Definition DEFAULT_MAX_LINES : Z := 1000.

Definition _check_file_size (fs : gmap string node) (file_path : string)
    (has_pagination : bool) : option string :=
  let file_size := Fs.st_size fs file_path in
  if bool_decide (file_size > MAX_FILE_SIZE_BYTES) && negb has_pagination
  then Some ("File size (" +:+ Py.fmt_kb_1f (Z.to_N file_size) +:+
             "KB) exceeds maximum (" +:+
             Py.str_int (MAX_FILE_SIZE_BYTES / 1024) +:+
             "KB). Please use start_line and end_line parameters to read specific portions.")
  else None.

Definition marked (os : OS) (read_tracker : option (gset string))
    (file_path : string) : option (gset string) :=
  match read_tracker with
  | Some t => Some (ReadTracker.mark_as_read os t file_path)
  | None => None
  end.

(** [execute(path, start_line, end_line)]: the result and the tracker the
    tool was built with, as the call leaves it. *)
Definition execute (os : OS) (workspace_root : string)
    (read_tracker : option (gset string)) (fs : gmap string node)
    (path : string) (start_line end_line : option Z)
  : ToolResult * option (gset string) :=
  match _check_absolute_path path with
  | Some error =>
      (mkToolResult ("Error: " +:+ error) (Some ("❌ " +:+ error)), read_tracker)
  | None =>
  let file_path := resolve os path in
  match _check_within_workspace workspace_root file_path with
  | Some error =>
      (mkToolResult ("Error: " +:+ error)
         (Some "❌ Access denied: outside workspace"), read_tracker)
  | None =>
  if negb (Fs.exists_ fs file_path) then
    (mkToolResult ("Error: " +:+ ("File not found: " +:+ path))
       (Some "❌ File not found"), read_tracker)
  else if negb (Fs.is_file fs file_path) then
    (mkToolResult ("Error: " +:+ ("Path is not a file: " +:+ path))
       (Some "❌ Not a file"), read_tracker)
  else
  let has_pagination :=
    bool_decide (start_line ≠ None) || bool_decide (end_line ≠ None) in
  match _check_file_size fs file_path has_pagination with
  | Some error =>
      (mkToolResult ("Error: " +:+ error) (Some "❌ File too large (>256KB)"),
       read_tracker)
  | None =>
  match _read_with_encoding_fallback os fs file_path with
  | inl (UnicodeDecodeError _) =>
      (mkToolResult ("Error: " +:+ ("Cannot read file (encoding error): " +:+ path))
         (Some "❌ Encoding error"), read_tracker)
  | inl (PermissionError _) =>
      (mkToolResult ("Error: " +:+ ("Permission denied reading file: " +:+ path))
         (Some "❌ Permission denied"), read_tracker)
  | inl (Exception m) =>
      (mkToolResult
         ("Error: " +:+ ("Unexpected error reading file: " +:+ path) +:+ " - " +:+ m)
         (Some ("❌ Error: " +:+ m)), read_tracker)
  | inr (file_content, _) =>
  let lines := Py.splitlines file_content in
  let n := Z.of_nat (length lines) in
  let start_idx :=
    match start_line with
    | Some sl => if bool_decide (sl = 0) then 0 else sl - 1
    | None => 0
    end in
  let end_idx :=
    Z.min (match end_line with
           | Some el => el
           | None => start_idx + DEFAULT_MAX_LINES
           end) n in
  if bool_decide (start_idx < 0 ∨ start_idx >= n) then
    let error_msg :=
      "Invalid start_line " +:+ Py.str_opt_int start_line +:+
      " (file has " +:+ Py.str_int n +:+ " lines)" in
    (mkToolResult ("Error: " +:+ error_msg) (Some ("❌ " +:+ error_msg)),
     read_tracker)
  else if bool_decide (end_idx < start_idx) then
    let error_msg :=
      "Invalid end_line " +:+ Py.str_opt_int end_line +:+
      " (must be >= start_line)" in
    (mkToolResult ("Error: " +:+ error_msg) (Some ("❌ " +:+ error_msg)),
     read_tracker)
  else
  let selected_lines := Py.slice lines (Z.to_nat start_idx) (Z.to_nat end_idx) in
  let c := Py.concat selected_lines in
  let actual_start_line :=
    match start_line with
    | Some sl => if bool_decide (sl = 0) then 1 else sl
    | None => 1
    end in
  let num_lines := Z.of_nat (length selected_lines) in
  let actual_end_line := actual_start_line + num_lines - 1 in
  let was_truncated := bool_decide (end_idx < n) && bool_decide (end_line = None) in
  match _check_token_limit c MAX_TOKENS with
  | Some error =>
      (mkToolResult ("Error: " +:+ error)
         (Some ("❌ Content too large (>" +:+ Py.fmt_thousands MAX_TOKENS +:+
                " tokens)")), read_tracker)
  | None =>
  let line_range :=
    "lines " +:+ Py.str_int actual_start_line +:+ "-" +:+
    Py.str_int actual_end_line in
  let truncation_note :=
    Py.nl +:+ Py.nl +:+ "<system-reminder>" +:+
    "Note: File has " +:+ Py.str_int n +:+
    " total lines, but only showing lines " +:+
    Py.str_int actual_start_line +:+ "-" +:+ Py.str_int actual_end_line +:+
    " (default limit: " +:+ Py.str_int DEFAULT_MAX_LINES +:+ " lines). " +:+
    "Use start_line and end_line parameters to read other portions of the file." +:+
    "</system-reminder>" in
  let formatted_content :=
    _format_with_line_numbers c actual_start_line +:+
    (if was_truncated then truncation_note else "") in
  let display_msg :=
    if was_truncated
    then "✓ Read " +:+ line_range +:+ " (" +:+ Py.str_int num_lines +:+ "/" +:+
         Py.str_int n +:+ " lines)"
    else "✓ Read " +:+ line_range +:+ " (" +:+ Py.str_int num_lines +:+ " lines)" in
  (mkToolResult formatted_content (Some display_msg),
   marked os read_tracker file_path)
  end end end end end.

End ReadFileTool.

(** ** [write_file] ([codefuse/tools/builtin/write_file.py]) *)

Module WriteFileTool.
Import FileSystemToolMixin.

(** The two handlers that close [execute]. *)
Definition on_exception (path : string) (e : exn) : ToolResult :=
  match e with
  | PermissionError _ =>
      _create_error_result ("Permission denied writing file: " +:+ path)
        ("Permission denied: " +:+ path)
  | _ =>
      _create_error_result
        ("Unexpected error writing file: " +:+ path +:+ " - " +:+ exn_str e)
        ("Error writing " +:+ path +:+ ": " +:+ exn_str e)
  end.

(** [execute(path, content)]: the result and the file system afterwards.
    The tool holds no read tracker. *)
Definition execute (os : OS) (workspace_root : string) (fs : gmap string node)
    (path c : string) : ToolResult * gmap string node :=
  match _check_absolute_path path with
  | Some error => (_create_error_result error "Path must be absolute", fs)
  | None =>
  let file_path := _resolve_path os path in
  match _check_within_workspace workspace_root file_path with
  | Some error =>
      (_create_error_result error "Access denied: outside workspace", fs)
  | None =>
  match _check_token_limit c MAX_TOKENS with
  | Some error =>
      (_create_error_result error
         ("Content too large (>" +:+ Py.fmt_thousands MAX_TOKENS +:+ " tokens)"),
       fs)
  | None =>
  match Fs.mkdir_parents os fs (Fs.parent file_path) with
  | (Some e, fs1) => (on_exception path e, fs1)
  | (None, fs1) =>
  let file_existed := Fs.exists_ fs1 file_path in
  match Fs.write_text os fs1 file_path "utf-8" c with
  | (Some e, fs2) => (on_exception path e, fs2)
  | (None, fs2) =>
  let lines := Z.of_nat (Py.count_char Py.newline c) + 1 in
  let chars := Py.len c in
  let action := if file_existed then "Updated" else "Created" in
  let action_lower := if file_existed then "updated" else "created" in
  (mkToolResult
     ("Successfully " +:+ action_lower +:+ " file: " +:+ path +:+ " (" +:+
      Py.str_int lines +:+ " lines, " +:+ Py.str_int chars +:+ " characters)")
     (Some ("✓ " +:+ action +:+ " " +:+ path +:+ " (" +:+ Py.str_int lines +:+
            " lines)")),
   fs2)
  end end end end end.

End WriteFileTool.

(** ** [edit_file] ([codefuse/tools/builtin/edit_file.py]) *)

Module EditFileTool.
Import FileSystemToolMixin.

Definition CONTEXT_LINES : Z := 4.

Definition _generate_edit_snippet (c : string) (replacement_line : Z)
    (new_content : string) (context_lines : Z) : string * Z :=
  let lines := Py.split_lines c in
  let num_new_lines := Z.of_nat (Py.count_char Py.newline new_content) in
  let start_line := Z.max 0 (replacement_line - context_lines) in
  let end_line :=
    Z.min (Z.of_nat (length lines))
          (replacement_line + num_new_lines + 1 + context_lines) in
  let snippet_lines := Py.slice lines (Z.to_nat start_line) (Z.to_nat end_line) in
  let snippet_content := Py.join Py.nl snippet_lines in
  (_format_with_line_numbers snippet_content (start_line + 1), start_line + 1).

(** [self._read_tracker and not self._read_tracker.is_read(p)]: a tool built
    without a tracker skips the test. *)
Definition unread (os : OS) (read_tracker : option (gset string))
    (resolved_path : string) : bool :=
  match read_tracker with
  | Some t => negb (ReadTracker.is_read os t resolved_path)
  | None => false
  end.

(** [execute(file_path, old_string, new_string, replace_all)]: the result
    and the file system afterwards. *)
Definition execute (os : OS) (workspace_root : string)
    (read_tracker : option (gset string)) (fs : gmap string node)
    (file_path old_string new_string : string) (replace_all : bool)
  : ToolResult * gmap string node :=
  (* Step 1 *)
  match _check_absolute_path file_path with
  | Some error => (_create_error_result error "Path must be absolute", fs)
  | None =>
  (* Step 2 *)
  let resolved_path := _resolve_path os file_path in
  (* Step 3 *)
  match _check_within_workspace workspace_root resolved_path with
  | Some error =>
      (_create_error_result error "Access denied: outside workspace", fs)
  | None =>
  (* Step 4 *)
  if negb (Fs.exists_ fs resolved_path) then
    (_create_error_result ("File not found: " +:+ file_path) "File not found", fs)
  (* Step 5 *)
  else if negb (Fs.is_file fs resolved_path) then
    (_create_error_result ("Path is not a file: " +:+ file_path) "Not a file", fs)
  (* Step 6 *)
  else if unread os read_tracker resolved_path then
    (_create_error_result
       ("File has not been read yet: " +:+ file_path +:+ ". " +:+
        "You must use read_file tool at least once before editing.")
       "Must read file before editing", fs)
  else
  (* Step 7 *)
  match _read_with_encoding_fallback os fs resolved_path with
  | inl (UnicodeDecodeError _) =>
      (_create_error_result ("Cannot read file (encoding error): " +:+ file_path)
         "File encoding error", fs)
  | inl (PermissionError _) =>
      (_create_error_result ("Permission denied editing file: " +:+ file_path)
         "Permission denied", fs)
  | inl (Exception m) =>
      (_create_error_result ("Unexpected error editing file: " +:+ file_path)
         ("Error: " +:+ m), fs)
  | inr (file_content0, encoding) =>
  (* Step 8 *)
  let file_content := Py.expandtabs file_content0 in
  let old_string := Py.expandtabs old_string in
  let new_string := Py.expandtabs new_string in
  (* Step 9 *)
  if bool_decide (old_string = new_string) then
    (_create_error_result
       "old_string is identical to new_string. No replacement needed."
       "No changes to make", fs)
  else
  (* Step 10 *)
  let occurrences := Py.count file_content old_string in
  if bool_decide (occurrences = 0%nat) then
    (_create_error_result
       ("old_string not found in file. The string to replace does not appear " +:+
        "verbatim in " +:+ file_path +:+ ". Make sure to match the exact content including " +:+
        "whitespace and indentation.")
       "String not found", fs)
  else if bool_decide (1 < occurrences)%nat && negb replace_all then
    let occurrence_lines := _find_occurrence_lines file_content old_string in
    (_create_error_result
       ("Multiple occurrences of old_string found in lines " +:+
        str_int_list occurrence_lines +:+ ". " +:+
        "Please ensure it is unique by providing more context, or set replace_all=True " +:+
        "to replace all " +:+ Py.str_nat occurrences +:+ " occurrences.")
       ("Not unique (" +:+ Py.str_nat occurrences +:+ " occurrences)"), fs)
  else
  (* Step 11 *)
  let new_file_content :=
    if replace_all then Py.replace file_content old_string new_string None
    else Py.replace file_content old_string new_string (Some 1%nat) in
  let num_replacements := if replace_all then occurrences else 1%nat in
  (* Step 12 *)
  match _check_token_limit new_file_content MAX_TOKENS with
  | Some error =>
      (_create_error_result error
         ("Content too large (>" +:+ Py.fmt_thousands MAX_TOKENS +:+ " tokens)"),
       fs)
  | None =>
  (* Step 13 *)
  match Fs.write_text os fs resolved_path encoding new_file_content with
  | (Some e, fs1) =>
      (_create_error_result ("Failed to write file: " +:+ file_path)
         ("Write failed: " +:+ exn_str e), fs1)
  | (None, fs1) =>
  (* Step 14; splitting on an empty [old_string] raises [ValueError] after
     the file has been written *)
  match Py.split_head file_content old_string with
  | None =>
      (_create_error_result ("Unexpected error editing file: " +:+ file_path)
         ("Error: " +:+ "empty separator"), fs1)
  | Some before =>
  let replacement_line := Z.of_nat (Py.count_char Py.newline before) in
  let '(snippet, snippet_start_line) :=
    _generate_edit_snippet new_file_content replacement_line new_string
      CONTEXT_LINES in
  (* Step 15 *)
  let action := if replace_all then "all occurrences" else "occurrence" in
  let result_content :=
    "Successfully edited " +:+ file_path +:+ ". " +:+
    "Replaced " +:+ Py.str_nat num_replacements +:+ " " +:+ action +:+
    " of old_string with new_string." +:+ Py.nl +:+ Py.nl +:+
    "Here's a snippet of the edited file showing the changes (lines " +:+
    Py.str_int snippet_start_line +:+ "-" +:+
    Py.str_int (snippet_start_line +
                Z.of_nat (Py.count_char Py.newline snippet)) +:+ "):" +:+ Py.nl +:+
    snippet +:+ Py.nl +:+ Py.nl +:+
    "Review the changes and make sure they are as expected. " +:+
    "Edit the file again if necessary." in
  let result_display :=
    "✓ Edited " +:+ file_path +:+ " (" +:+ Py.str_nat num_replacements +:+
    " replacement" +:+ (if bool_decide (1 < num_replacements)%nat then "s" else "") +:+
    ")" in
  (mkToolResult result_content (Some result_display), fs1)
  end end end end end end.

End EditFileTool.

(** A sample system for closed instances: no home expansion, paths already
    resolved, every encoding the identity. *)
Definition sample_os : OS :=
  {| expanduser := λ p, p;
     resolve := λ p, p;
     decode := λ _ _ b, Some b;
     encode := λ _ t, Some t;
     strerror := λ kind p, kind +:+ ": " +:+ p |}.

Definition sample_fs : gmap string node :=
  {[ "/" := Dir; "/ws" := Dir;
     "/ws/a.txt" := File "hello world" true true;
     "/ws/empty.txt" := File "" true true ]}.

(** ** Messages and responses ([codefuse/llm/base.py]) *)

Inductive MessageRole := SYSTEM | USER | ASSISTANT | TOOL.

Global Instance MessageRole_eq_dec : EqDecision MessageRole.
Proof. solve_decision. Defined.

Record ContentBlock := {
  block_type : string;
  block_text : option string;
  block_image_url : option string;
}.

(** [Message.content]: a [str], a list of content blocks, or [None] (as a
    resumed history may hold). *)
Inductive MessageContent :=
  | Text (s : string)
  | Blocks (l : list ContentBlock)
  | NoContent.

Module ToolCall.
(** [function] is the dict [{"name": ..., "arguments": ...}]. *)
Record t := { id : string; type : string; function : gmap string string }.
End ToolCall.

Module Message.
Record t := {
  role : MessageRole;
  content : MessageContent;
  name : option string;
  tool_calls : option (list ToolCall.t);
  tool_call_id : option string;
}.

(** [to_dict()] copies a [str] content and iterates over any other: the
    [TypeError] it ends in when the content is [None]. *)
Definition to_dict_error (self : t) : option exn :=
  match content self with
  | NoContent => Some (Exception "'NoneType' object is not iterable")
  | Text _ | Blocks _ => None
  end.
End Message.

Record TokenUsage := {
  prompt_tokens : Z;
  completion_tokens : Z;
  total_tokens : Z;
  cache_creation_input_tokens : option Z;
  cache_read_input_tokens : option Z;
}.

Module LLMResponse.
Record t := {
  content : string;
  tool_calls : list ToolCall.t;
  usage : option TokenUsage;
  model : string;
  finish_reason : string;
}.
Definition has_tool_calls (self : t) : bool :=
  bool_decide (0 < length (tool_calls self))%nat.
End LLMResponse.

Inductive LLMChunk :=
  | chunk_content (delta : string)
  | chunk_tool_call (tool_call : ToolCall.t)
  | chunk_done (usage : option TokenUsage) (finish_reason : string)
  | chunk_other.

(** ** The host of the agent: JSON, the outside world, elapsed time *)

Record Host := {
  (** parsed JSON values *)
  J : Type;
  (** [json.loads]; [inl] carries [str(e)] of the [JSONDecodeError] *)
  json_loads : string → string + J;
  (** [json.dumps(x, indent=2)] *)
  json_dumps_indent2 : J → string;
  (** truth value of a parsed value (an empty dict is false) *)
  json_truthy : J → bool;
  (** the world outside the process: files, network, the user *)
  W : Type;
  (** seconds, as [time.time()] differences *)
  D : Type;
  elapsed : W → W → D;
}.

(** ** The context engine ([codefuse/core/context_engine.py]) *)

(** What the trajectory writer is handed (it adds a timestamp). *)
Inductive TrajectoryEvent {h : Host} :=
  | ev_user_message (prompt_id : option string) (c : MessageContent)
  | ev_assistant_response (prompt_id : option string) (iteration : Z)
      (c : string) (tool_calls : list ToolCall.t) (model : option string)
      (token_usage : option TokenUsage)
  | ev_tool_result (prompt_id : option string) (iteration : Z)
      (tool_call_id c : string) (tool_success : bool)
      (tool_name : option string) (arguments : option (J h))
      (duration : option (D h))
  | ev_tool_call_sanitized (prompt_id : option string)
      (before : Message.t) (after : MessageContent).

Module ContextEngine.
Section ContextEngine.
Context (h : Host).

Record t := {
  session_id : string;
  _prompt_counter : nat;
  _current_prompt_id : option string;
  _messages : list Message.t;
  _current_iteration : Z;
  _final_response : option string;
  _trajectory_writer : option (list (@TrajectoryEvent h));
}.

Definition with_messages (self : t) (l : list Message.t) : t :=
  {| session_id := session_id self;
     _prompt_counter := _prompt_counter self;
     _current_prompt_id := _current_prompt_id self;
     _messages := l;
     _current_iteration := _current_iteration self;
     _final_response := _final_response self;
     _trajectory_writer := _trajectory_writer self |}.

(** [self._trajectory_writer.write(ev)] when a writer is set *)
Definition write (self : t) (ev : @TrajectoryEvent h) : t :=
  {| session_id := session_id self;
     _prompt_counter := _prompt_counter self;
     _current_prompt_id := _current_prompt_id self;
     _messages := _messages self;
     _current_iteration := _current_iteration self;
     _final_response := _final_response self;
     _trajectory_writer := (λ l, (l ++ [ev])%list) <$> _trajectory_writer self |}.

Definition prompt_id_of (n : nat) : string := "prompt_" +:+ Py.fmt_03d n.

Definition add_user_message (self : t) (c : MessageContent) : t :=
  let counter := S (_prompt_counter self) in
  let pid := Some (prompt_id_of counter) in
  write
    {| session_id := session_id self;
       _prompt_counter := counter;
       _current_prompt_id := pid;
       _messages :=
         (_messages self ++
         [ {| Message.role := USER; Message.content := c;
              Message.name := None; Message.tool_calls := None;
              Message.tool_call_id := None |} ])%list;
       _current_iteration := 0;
       _final_response := _final_response self;
       _trajectory_writer := _trajectory_writer self |}
    (ev_user_message pid c).

Definition add_assistant_message (self : t) (response : LLMResponse.t)
    (iteration : option Z) : t :=
  let it :=
    match iteration with
    | Some i => i
    | None => _current_iteration self + 1
    end in
  let calls := LLMResponse.tool_calls response in
  let assistant_message :=
    {| Message.role := ASSISTANT;
       Message.content := Text (LLMResponse.content response);
       Message.name := None;
       Message.tool_calls := match calls with [] => None | _ => Some calls end;
       Message.tool_call_id := None |} in
  write
    {| session_id := session_id self;
       _prompt_counter := _prompt_counter self;
       _current_prompt_id := _current_prompt_id self;
       _messages := (_messages self ++ [assistant_message])%list;
       _current_iteration := it;
       _final_response :=
         match calls with
         | [] => Some (LLMResponse.content response)
         | _ => _final_response self
         end;
       _trajectory_writer := _trajectory_writer self |}
    (ev_assistant_response (_current_prompt_id self) it
       (LLMResponse.content response) calls
       (match LLMResponse.model response with
        | EmptyString => None
        | m => Some m
        end)
       (LLMResponse.usage response)).

Definition add_tool_result (self : t) (tool_call_id result : string)
    (tool_name : option string) (arguments : option (J h)) (success : bool)
    (duration : option (D h)) : t :=
  let tool_message :=
    {| Message.role := TOOL; Message.content := Text result;
       Message.name := None; Message.tool_calls := None;
       Message.tool_call_id := Some tool_call_id |} in
  write
    (with_messages self (_messages self ++ [tool_message])%list)
    (ev_tool_result (_current_prompt_id self) (_current_iteration self)
       tool_call_id result success
       (match tool_name with
        | Some EmptyString => None
        | n => n
        end)
       (match arguments with
        | Some a => if json_truthy h a then Some a else None
        | None => None
        end)
       duration).

(** [msg.role == ASSISTANT and msg.tool_calls] holds and some call of the
    message has the id. *)
Definition holds_call (tool_call_id : string) (msg : Message.t) : bool :=
  bool_decide (Message.role msg = ASSISTANT) &&
  match Message.tool_calls msg with
  | Some (tc :: tcs) =>
      existsb (λ c, bool_decide (ToolCall.id c = tool_call_id)) (tc :: tcs)
  | _ => false
  end.

(** The scan from the end of the ledger: the greatest index that holds the
    call, counting from [i]. *)
Fixpoint find_target (tool_call_id : string) (l : list Message.t) (i : nat)
  : option nat :=
  match l with
  | [] => None
  | m :: r =>
      match find_target tool_call_id r (S i) with
      | Some j => Some j
      | None => if holds_call tool_call_id m then Some i else None
      end
  end.

Definition _format_tool_args (tool_call : ToolCall.t) : string :=
  match json_loads h (default "{}" (ToolCall.function tool_call !! "arguments")) with
  | inr args => json_dumps_indent2 h args
  | inl _ => "<Invalid JSON format>"
  end.

Definition tool_call_text (tool_call_id : string) (tc : ToolCall.t) : string :=
  "- Tool: " +:+ default "unknown" (ToolCall.function tc !! "name") +:+ Py.nl +:+
  "  ID: " +:+ ToolCall.id tc +:+ Py.nl +:+
  "  Arguments: " +:+
  (if bool_decide (ToolCall.id tc = tool_call_id)
   then "<Invalid JSON format>" else _format_tool_args tc).

(** The transcription of the calls of the target message. *)
Definition tool_calls_text (tool_call_id : string) (tcs : list ToolCall.t)
  : string :=
  Py.nl +:+ Py.nl +:+ "Tool calls attempted:" +:+ Py.nl +:+
  Py.join Py.nl (tool_call_text tool_call_id <$> tcs).

(** [content or ""] where that is a [str]: a [str] content stands for
    itself, [None] and the empty list for the empty string; a non-empty list
    of blocks stays a list. *)
Definition or_empty (c : MessageContent) : option string :=
  match c with
  | Text s => Some s
  | NoContent | Blocks [] => Some ""
  | Blocks (_ :: _) => None
  end.

(** [(content or "") + text]; a non-empty list of blocks cannot be added
    to a [str]. *)
Definition content_plus (c : MessageContent) (text : string) : option string :=
  (λ s, s +:+ text) <$> or_empty c.

Definition retry_instruction (tool_call_id tool_name error_message : string)
  : string :=
  "Error: The previous tool call had invalid JSON format in the arguments. " +:+
  "Tool '" +:+ tool_name +:+ "' (ID: " +:+ tool_call_id +:+
  ") failed with error: " +:+ error_message +:+ Py.nl +:+ Py.nl +:+
  "Please retry the tool call with VALID JSON format. Ensure that:" +:+ Py.nl +:+
  "- All strings are properly quoted" +:+ Py.nl +:+
  "- All special characters are properly escaped" +:+ Py.nl +:+
  "- The JSON structure is complete and well-formed" +:+ Py.nl +:+
  "- All brackets and braces are properly matched" +:+ Py.nl +:+ Py.nl +:+
  "Continue with the task using correct JSON format.".

(** [sanitize_invalid_tool_call]: the exception that ends the call, if
    any, and the engine as the call leaves it.  There are two [TypeError]s:
    adding a block list and a [str], raised before anything is changed; and,
    when a trajectory writer is set, [to_dict()] of a target whose content is
    [None], raised when the event is built: the message is rewritten by
    then, the retry instruction not yet added. *)
Definition sanitize_invalid_tool_call (self : t)
    (tool_call_id tool_name error_message : string) : option exn * t :=
  match find_target tool_call_id (_messages self) 0 with
  | None => (None, self)
  | Some target_idx =>
      match _messages self !! target_idx with
      | None => (None, self)
      | Some assistant_msg =>
          let text :=
            tool_calls_text tool_call_id
              (default [] (Message.tool_calls assistant_msg)) in
          match content_plus (Message.content assistant_msg) text with
          | None =>
              (Some (Exception
                       ("can only concatenate list (not " +:+ Py.dquote +:+
                        "str" +:+ Py.dquote +:+ ") to list")),
               self)
          | Some new_content =>
              let rewritten :=
                {| Message.role := ASSISTANT;
                   Message.content := Text new_content;
                   Message.name := None;
                   Message.tool_calls := None;
                   Message.tool_call_id := None |} in
              let self1 :=
                with_messages self (<[target_idx := rewritten]> (_messages self)) in
              match _trajectory_writer self1, Message.to_dict_error assistant_msg with
              | Some _, Some e => (Some e, self1)
              | _, _ =>
                  let self2 :=
                    write self1
                      (ev_tool_call_sanitized (_current_prompt_id self1)
                         assistant_msg (Text new_content)) in
                  (None,
                   add_user_message self2
                     (Text (retry_instruction tool_call_id tool_name
                              error_message)))
              end
          end
      end
  end.

(** The assistant message that replaces a target whose [content or ""] is
    [s] and whose calls are [tcs]. *)
Definition rewritten (id s : string) (tcs : list ToolCall.t) : Message.t :=
  {| Message.role := ASSISTANT;
     Message.content := Text (s +:+ tool_calls_text id tcs);
     Message.name := None;
     Message.tool_calls := None;
     Message.tool_call_id := None |}.


Definition get_messages_for_llm (self : t) : list Message.t := _messages self.

End ContextEngine.

Arguments session_id {h} _.
Arguments _prompt_counter {h} _.
Arguments _current_prompt_id {h} _.
Arguments _messages {h} _.
Arguments _current_iteration {h} _.
Arguments _final_response {h} _.
Arguments _trajectory_writer {h} _.

End ContextEngine.

(** ** The tool executor ([codefuse/core/tool_executor.py]) *)

(** What a call of [tool.execute] with the parsed arguments ends in. *)
Inductive tool_outcome :=
  | Returns (r : ToolResult)
  | ReturnsStr (s : string)
  | Raises (msg : string).

(** A registered tool: its confirmation flag and its effect on the world. *)
Record Tool {h : Host} := {
  requires_confirmation : bool;
  tool_execute : J h → W h → tool_outcome * W h;
}.

Inductive ToolExecutionEvent {h : Host} :=
  | tool_confirmation_required (tool_call_id tool_name : string)
      (arguments : J h) (session_id : string)
  | tool_start (tool_call_id tool_name : string) (arguments : J h)
      (session_id : string)
  | tool_done (tool_call_id tool_name result : string)
      (display : option string) (confirmed : bool)
      (arguments : option (J h)) (session_id : string).

(** [ToolCallMetric], without its clock fields *)
Record ToolCallMetric := {
  metric_tool_call_id : string;
  metric_tool_name : string;
  metric_success : bool;
  metric_error : option string;
}.

Module ToolExecutor.
Section ToolExecutor.
Context (h : Host).

Record t := {
  tool_registry : gmap string (@Tool h);
  yolo_mode : bool;
  confirmation_callback : option (string → string → J h → W h → bool * W h);
  (** the tool metrics of the current prompt, when a collector is set *)
  metrics_collector : option (list ToolCallMetric);
  (** [RemoteToolExecutor.execute], which turns every failure into a
      [ToolResult] *)
  remote_executor : option (string → J h → string → W h → ToolResult * W h);
}.

(** [__init__]: the remote executor exists only when the flag, the URL and
    the instance id are all set. *)
Definition init (registry : gmap string (@Tool h)) (yolo : bool)
    (callback : option (string → string → J h → W h → bool * W h))
    (metrics : option (list ToolCallMetric))
    (remote_enabled : bool) (remote_url remote_instance_id : option string)
    (remote : string → string → string → J h → string → W h → ToolResult * W h)
  : t :=
  {| tool_registry := registry;
     yolo_mode := yolo;
     confirmation_callback := callback;
     metrics_collector := metrics;
     remote_executor :=
       match remote_enabled, remote_url, remote_instance_id with
       | true, Some (String c u), Some (String d i) =>
           Some (remote (String c u) (String d i))
       | _, _, _ => None
       end |}.

Definition with_metrics (self : t) (m : option (list ToolCallMetric)) : t :=
  {| tool_registry := tool_registry self;
     yolo_mode := yolo_mode self;
     confirmation_callback := confirmation_callback self;
     metrics_collector := m;
     remote_executor := remote_executor self |}.

(** What one call leaves behind: the events yielded, the context engine,
    the executor (its metrics), the world, and the exception that ended the
    generator, if any. *)
Record run := {
  events : list (@ToolExecutionEvent h);
  engine : ContextEngine.t h;
  executor : t;
  world : W h;
  raised : option exn;
}.

Definition _handle_tool_not_found (self : t) (ctx : ContextEngine.t h)
    (w : W h) (tool_call_id tool_name session_id : string) : run :=
  let error_msg := "Tool not found: " +:+ tool_name in
  let result := "Error: " +:+ error_msg in
  {| events := [tool_done tool_call_id tool_name result None false None session_id];
     engine := ContextEngine.add_tool_result h ctx tool_call_id result None None
                 true None;
     executor := self; world := w; raised := None |}.

Definition _handle_invalid_arguments (self : t) (ctx : ContextEngine.t h)
    (w : W h) (tool_call_id tool_name error session_id : string) : run :=
  let error_msg := "Invalid tool arguments JSON: " +:+ error in
  let result := "Error: " +:+ error_msg in
  match ContextEngine.sanitize_invalid_tool_call h ctx tool_call_id tool_name
          error with
  | (Some e, ctx') =>
      {| events := []; engine := ctx'; executor := self; world := w;
         raised := Some e |}
  | (None, ctx') =>
      {| events := [tool_done tool_call_id tool_name result None false None
                      session_id];
         engine := ctx'; executor := self; world := w; raised := None |}
  end.

Definition _get_user_confirmation (self : t) (w : W h)
    (tool_name tool_call_id : string) (arguments : J h) : bool * W h :=
  match confirmation_callback self with
  | Some cb => cb tool_name tool_call_id arguments w
  | None => (false, w)
  end.

Definition _handle_tool_rejection (self : t) (ctx : ContextEngine.t h)
    (w : W h) (tool_call_id tool_name : string) (arguments : J h)
    (session_id : string) : run :=
  let result := "Tool execution rejected by user: " +:+ tool_name in
  {| events := [tool_done tool_call_id tool_name result None false
                  (Some arguments) session_id];
     engine := ContextEngine.add_tool_result h ctx tool_call_id result
                 (Some tool_name) (Some arguments) false None;
     executor := self; world := w; raised := None |}.

(** The [try] block of [_execute_and_record]: the result, the success flag,
    the error the tracker is given, and the world afterwards. *)
Definition execute_tool (self : t) (tool : @Tool h) (w : W h)
    (tool_name : string) (arguments : J h) (session_id : string)
  : ToolResult * bool * option string * W h :=
  match remote_executor self with
  | Some remote =>
      let '(tool_result, w') := remote tool_name arguments session_id w in
      if Py.contains "Error:" (content tool_result)
         || Py.contains "❌" (display tool_result)
      then (tool_result, false, Some "Tool execution reported failure", w')
      else (tool_result, true, None, w')
  | None =>
      match tool_execute tool arguments w with
      | (Returns tool_result, w') => (tool_result, true, None, w')
      | (ReturnsStr s, w') => (mkToolResult s None, true, None, w')
      | (Raises m, w') =>
          (mkToolResult ("Tool execution error: " +:+ m)
             (Some ("❌ Error: " +:+ m)), false, Some m, w')
      end
  end.

Definition _execute_and_record (self : t) (ctx : ContextEngine.t h) (w : W h)
    (tool : @Tool h) (tool_call_id tool_name : string) (arguments : J h)
    (confirmed : bool) (session_id : string) : run :=
  let '(tool_result, success, error, w') :=
    execute_tool self tool w tool_name arguments session_id in
  let duration := elapsed h w w' in
  {| events :=
       [tool_start tool_call_id tool_name arguments session_id;
        tool_done tool_call_id tool_name (content tool_result)
          (Some (display tool_result)) confirmed (Some arguments) session_id];
     engine :=
       ContextEngine.add_tool_result h ctx tool_call_id (content tool_result)
         (Some tool_name) (Some arguments) success (Some duration);
     executor :=
       with_metrics self
         ((λ l, (l ++ [ {| metric_tool_call_id := tool_call_id;
                           metric_tool_name := tool_name;
                           metric_success := success;
                           metric_error := error |} ])%list)
          <$> metrics_collector self);
     world := w'; raised := None |}.

Definition key_error (self : t) (ctx : ContextEngine.t h) (w : W h)
    (key : string) : run :=
  {| events := []; engine := ctx; executor := self; world := w;
     raised := Some (Exception ("'" +:+ key +:+ "'")) |}.

Definition execute_tool_call (self : t) (ctx : ContextEngine.t h) (w : W h)
    (tool_call : ToolCall.t) (session_id : string) : run :=
  match ToolCall.function tool_call !! "name" with
  | None => key_error self ctx w "name"
  | Some tool_name =>
  (* Step 1 *)
  match tool_registry self !! tool_name with
  | None =>
      _handle_tool_not_found self ctx w (ToolCall.id tool_call) tool_name
        session_id
  | Some tool =>
  (* Step 2 *)
  match ToolCall.function tool_call !! "arguments" with
  | None => key_error self ctx w "arguments"
  | Some raw =>
  match json_loads h raw with
  | inl e =>
      _handle_invalid_arguments self ctx w (ToolCall.id tool_call) tool_name e
        session_id
  | inr arguments =>
  (* Step 3 *)
  let '(asked, (confirmed, w1)) :=
    if requires_confirmation tool && negb (yolo_mode self)
    then ([tool_confirmation_required (ToolCall.id tool_call) tool_name
             arguments session_id],
          _get_user_confirmation self w tool_name (ToolCall.id tool_call)
            arguments)
    else ([], (true, w)) in
  (* Steps 4 and 5 *)
  let r :=
    if negb confirmed
    then _handle_tool_rejection self ctx w1 (ToolCall.id tool_call) tool_name
           arguments session_id
    else _execute_and_record self ctx w1 tool (ToolCall.id tool_call) tool_name
           arguments confirmed session_id in
  {| events := asked ++ events r; engine := engine r; executor := executor r;
     world := world r; raised := raised r |}
  end end end end.

End ToolExecutor.

Arguments events {h} _.
Arguments engine {h} _.
Arguments executor {h} _.
Arguments world {h} _.
Arguments raised {h} _.
Arguments tool_registry {h} _.
Arguments yolo_mode {h} _.
Arguments confirmation_callback {h} _.
Arguments metrics_collector {h} _.
Arguments remote_executor {h} _.

End ToolExecutor.

(** ** The agent loop ([codefuse/core/agent_loop.py]) *)

Module AgentEvent.
Inductive t {h : Host} :=
  | llm_start (iteration : Z) (session_id : string)
  | llm_chunk (delta : string)
  | llm_done (c : string) (has_tool_calls : bool)
      (tool_calls : list ToolCall.t) (session_id : string)
  (** [AgentEvent(type=tool_event.type, data=tool_event.data)] *)
  | of_tool (e : @ToolExecutionEvent h)
  | agent_done (final_response : string) (iterations : Z) (session_id : string)
  | error (msg : string) (iteration : Z).

(** [event.type == "agent_done"] *)
Definition is_agent_done {h : Host} (e : @t h) : bool :=
  match e with
  | agent_done _ _ _ => true
  | _ => false
  end.

End AgentEvent.

(** The model behind the adapter: a call answers or raises ([inl] carries
    [str(e)]); a stream delivers chunks and may raise after them. *)
Record LLM {h : Host} := {
  llm_model : string;
  generate : list Message.t → W h → (string + LLMResponse.t) * W h;
  generate_stream : list Message.t → W h → (list LLMChunk * option string) * W h;
}.

Module AgentLoop.
Section AgentLoop.
Context (h : Host).

Record t := {
  llm : @LLM h;
  max_iterations : Z;
}.

(** What the loop carries from one step to the next: the context engine
    (shared with the executor), the executor and the world. *)
Record state := {
  context_engine : ContextEngine.t h;
  tool_executor : ToolExecutor.t h;
  world : W h;
}.

Definition _build_llm_done_event_data (session_id : string)
    (r : LLMResponse.t) : @AgentEvent.t h :=
  AgentEvent.llm_done (LLMResponse.content r) (LLMResponse.has_tool_calls r)
    (LLMResponse.tool_calls r) session_id.

(** The chunk loop of [_handle_streaming_llm]. *)
Fixpoint consume (chunks : list LLMChunk) (content_parts : list string)
    (tool_calls : list ToolCall.t) (usage : option TokenUsage)
    (finish_reason : string)
  : list (@AgentEvent.t h) * (list string * list ToolCall.t *
                              option TokenUsage * string) :=
  match chunks with
  | [] => ([], (content_parts, tool_calls, usage, finish_reason))
  | chunk_content delta :: rest =>
      let '(evs, r) :=
        consume rest (content_parts ++ [delta]) tool_calls usage finish_reason in
      (AgentEvent.llm_chunk delta :: evs, r)
  | chunk_tool_call tc :: rest =>
      consume rest content_parts (tool_calls ++ [tc]) usage finish_reason
  | chunk_done u f :: rest => consume rest content_parts tool_calls u f
  | chunk_other :: rest =>
      consume rest content_parts tool_calls usage finish_reason
  end.

(** [_handle_streaming_llm]: the events yielded and the response returned,
    or the exception that ended the stream. *)
Definition _handle_streaming_llm (self : t) (messages : list Message.t)
    (session_id : string) (w : W h)
  : list (@AgentEvent.t h) * (string + LLMResponse.t) * W h :=
  let '((chunks, failure), w') := generate_stream (llm self) messages w in
  let '(evs, (content_parts, tool_calls, usage, finish_reason)) :=
    consume chunks [] [] None "" in
  match failure with
  | Some e => (evs, inl e, w')
  | None =>
      let response :=
        {| LLMResponse.content := Py.concat content_parts;
           LLMResponse.tool_calls := tool_calls;
           LLMResponse.usage := usage;
           LLMResponse.model := llm_model (llm self);
           LLMResponse.finish_reason := finish_reason |} in
      (evs ++ [_build_llm_done_event_data session_id response], inr response, w')
  end.

(** The LLM call of one iteration, streamed or not. *)
Definition call_llm (self : t) (stream : bool) (messages : list Message.t)
    (session_id : string) (w : W h)
  : list (@AgentEvent.t h) * (string + LLMResponse.t) * W h :=
  if stream then _handle_streaming_llm self messages session_id w
  else
    match generate (llm self) messages w with
    | (inl e, w') => ([], inl e, w')
    | (inr response, w') =>
        ([_build_llm_done_event_data session_id response], inr response, w')
    end.

(** [for tool_call in llm_response.tool_calls: ...], stopped by the first
    exception that leaves the executor. *)
Fixpoint execute_tool_calls (st : state) (calls : list ToolCall.t)
    (session_id : string) : list (@AgentEvent.t h) * state * option exn :=
  match calls with
  | [] => ([], st, None)
  | tool_call :: rest =>
      let r :=
        ToolExecutor.execute_tool_call h (tool_executor st) (context_engine st)
          (world st) tool_call session_id in
      let st' :=
        {| context_engine := ToolExecutor.engine r;
           tool_executor := ToolExecutor.executor r;
           world := ToolExecutor.world r |} in
      let evs := AgentEvent.of_tool <$> ToolExecutor.events r in
      match ToolExecutor.raised r with
      | Some e => (evs, st', Some e)
      | None =>
          let '(evs', st'', e) := execute_tool_calls st' rest session_id in
          (evs ++ evs', st'', e)
      end
  end.

Record loop_result := {
  iteration : Z;
  final_response : string;
  events : list (@AgentEvent.t h);
  final_state : state;
}.

Definition emit (evs : list (@AgentEvent.t h)) (r : loop_result) : loop_result :=
  {| iteration := iteration r; final_response := final_response r;
     events := evs ++ events r; final_state := final_state r |}.

(** [while iteration < self.max_iterations: ...]; [fuel] bounds the number
    of passes. *)
Fixpoint loop (fuel : nat) (self : t) (stream : bool) (it : Z) (st : state)
  : loop_result :=
  let stop it fr evs st :=
    {| iteration := it; final_response := fr; events := evs;
       final_state := st |} in
  match fuel with
  | O => stop it "" [] st
  | S fuel' =>
      if bool_decide (it < max_iterations self) then
        let it := it + 1 in
        let session_id := ContextEngine.session_id (context_engine st) in
        let messages := ContextEngine.get_messages_for_llm h (context_engine st) in
        let '(llm_events, answer, w1) :=
          call_llm self stream messages session_id (world st) in
        let started := AgentEvent.llm_start it session_id :: llm_events in
        match answer with
        | inl e =>
            stop it "" (started ++ [AgentEvent.error e it])
              {| context_engine := context_engine st;
                 tool_executor := tool_executor st; world := w1 |}
        | inr llm_response =>
            let st1 :=
              {| context_engine :=
                   ContextEngine.add_assistant_message h (context_engine st)
                     llm_response (Some it);
                 tool_executor := tool_executor st; world := w1 |} in
            if negb (LLMResponse.has_tool_calls llm_response) then
              stop it (LLMResponse.content llm_response) started st1
            else
              match execute_tool_calls st1 (LLMResponse.tool_calls llm_response)
                      session_id with
              | (tool_events, st2, Some e) =>
                  stop it ""
                    (started ++ tool_events ++ [AgentEvent.error (exn_str e) it])
                    st2
              | (tool_events, st2, None) =>
                  emit (started ++ tool_events) (loop fuel' self stream it st2)
              end
        end
      else stop it "" [] st
  end.

Definition sentinel : string :=
  "Maximum iterations reached. The task may not be complete.".

(** [run(user_query, stream)]: every event yielded, and the state left. *)
Definition run (self : t) (st : state) (user_query : MessageContent)
    (stream : bool) : list (@AgentEvent.t h) * state :=
  let st0 :=
    {| context_engine :=
         ContextEngine.add_user_message h (context_engine st) user_query;
       tool_executor := tool_executor st; world := world st |} in
  let r := loop (Z.to_nat (max_iterations self)) self stream 0 st0 in
  let final :=
    if bool_decide (iteration r >= max_iterations self)
       && bool_decide (final_response r = "")
    then sentinel else final_response r in
  (events r ++
   [AgentEvent.agent_done final (iteration r)
      (ContextEngine.session_id (context_engine (final_state r)))],
   final_state r).

End AgentLoop.

Arguments llm {h} _.
Arguments max_iterations {h} _.
Arguments context_engine {h} _.
Arguments tool_executor {h} _.
Arguments world {h} _.
Arguments iteration {h} _.
Arguments final_response {h} _.
Arguments events {h} _.
Arguments final_state {h} _.

End AgentLoop.

(** ** Retrying an LLM call ([codefuse/llm/exceptions.py], [retry.py]) *)

Module retry.

(** The exception classes of [exceptions.py], with the builtins the
    wrapper can meet. *)
Inductive exn_class :=
  | BaseExceptionClass
  | ExceptionClass
  | ValueErrorClass
  | ArithmeticErrorClass
  | OverflowErrorClass
  | LLMError
  | RetryableError
  | TimeoutError
  | RateLimitError
  | APIError
  | AuthenticationError
  | ContextLengthExceededError
  | InvalidRequestError
  | ModelNotFoundError.

Global Instance exn_class_eq_dec : EqDecision exn_class.
Proof. solve_decision. Defined.

(** The class a class is derived from. *)
Definition base (c : exn_class) : option exn_class :=
  match c with
  | BaseExceptionClass => None
  | ExceptionClass => Some BaseExceptionClass
  | ValueErrorClass | ArithmeticErrorClass | LLMError => Some ExceptionClass
  | OverflowErrorClass => Some ArithmeticErrorClass
  | RetryableError | APIError | AuthenticationError
  | ContextLengthExceededError | InvalidRequestError | ModelNotFoundError =>
      Some LLMError
  | TimeoutError | RateLimitError => Some RetryableError
  end.

Fixpoint issubclass_upto (depth : nat) (c d : exn_class) : bool :=
  bool_decide (c = d) ||
  match depth, base c with
  | S k, Some b => issubclass_upto k b d
  | _, _ => false
  end.

Definition issubclass (c d : exn_class) : bool := issubclass_upto 4 c d.

(** A Python [float]: a rational (the float arithmetic of the source is
    taken as exact), an infinity, or NaN; [float(header)] can give each of
    them. *)
Inductive float :=
  | Finite (q : Q)
  | Infinity (negative : bool)
  | NaN.

(** The truth value of a [float]: only zero is false. *)
Definition float_truthy (x : float) : bool :=
  match x with
  | Finite q => negb (Qeq_bool q 0)
  | Infinity _ | NaN => true
  end.

(** A raised exception: its class, [str(e)], and the [retry_after]
    attribute a [RateLimitError] carries (seconds; [None] when absent). *)
Record exception := {
  cls : exn_class;
  message : string;
  retry_after : option float;
}.

(** [isinstance(e, classes)] *)
Definition isinstance (e : exception) (classes : list exn_class) : bool :=
  existsb (issubclass (cls e)) classes.

(** The default of [retryable_exceptions] *)
Definition default_retryable : list exn_class :=
  [RetryableError; RateLimitError; TimeoutError].

(** [isinstance(e, RateLimitError) and e.retry_after]: the value when the
    test holds; zero is false like [None]. *)
Definition given_retry_after (e : exception) : option float :=
  if isinstance e [RateLimitError] then
    match retry_after e with
    | Some x => if float_truthy x then Some x else None
    | None => None
    end
  else None.

(** The nanoseconds [time.sleep] makes of its argument, rounded away from
    zero. *)
Definition nanoseconds (q : Q) : Z :=
  let n := Qnum q * 10 ^ 9 in
  let d := Z.pos (Qden q) in
  if bool_decide (0 <= n) then (n + d - 1) / d else - ((- n + d - 1) / d).

Definition overflow_error : exception :=
  {| cls := OverflowErrorClass;
     message := "timestamp too large to convert to C _PyTime_t";
     retry_after := None |}.

(** What [time.sleep(wait_time)] raises instead of sleeping: the
    nanoseconds are held in 64 bits, and a sleep cannot be negative. *)
Definition sleep_raises (wait_time : float) : option exception :=
  match wait_time with
  | NaN =>
      Some {| cls := ValueErrorClass;
              message := "Invalid value NaN (not a number)";
              retry_after := None |}
  | Infinity _ => Some overflow_error
  | Finite q =>
      let ns := nanoseconds q in
      if bool_decide (ns < - 2 ^ 63 ∨ 2 ^ 63 <= ns) then Some overflow_error
      else if bool_decide (ns < 0) then
        Some {| cls := ValueErrorClass;
                message := "sleep length must be non-negative";
                retry_after := None |}
      else None
  end.

Section wrapper.
Context {A W : Type}.
(** the decorated function, called with the same arguments each time *)
Context (func : W → (exception + A) * W).
(** what [time.sleep] does to the world when it returns *)
Context (sleep : float → W → W).
Context (max_retries : Z) (initial_delay exponential_base : Q).
Context (retryable_exceptions : list exn_class).

Inductive outcome :=
  | Returned (v : A)
  | ReturnedNone
  | Raised (e : exception).

(** What the wrapper did, in order. *)
Inductive step :=
  | Called (attempt : Z) (r : exception + A)
  | Slept (wait_time : float).

Definition wait_time_of (e : exception) (attempt : Z) : float :=
  match given_retry_after e with
  | Some x => x
  | None => Finite (initial_delay * exponential_base ^ attempt)
  end.

(** [for attempt in range(max_retries): ...] from [attempt] on, [remaining]
    passes being left. *)
Fixpoint attempts (remaining : nat) (attempt : Z) (last_exception : option exception)
    (w : W) : outcome * list step * W :=
  match remaining with
  | O =>
      (match last_exception with
       | Some e => Raised e
       | None => ReturnedNone
       end, [], w)
  | S k =>
      match func w with
      | (inr v, w1) => (Returned v, [Called attempt (inr v)], w1)
      | (inl e, w1) =>
          if isinstance e retryable_exceptions then
            if bool_decide (attempt = max_retries - 1) then
              (Raised e, [Called attempt (inl e)], w1)
            else
              let wait_time := wait_time_of e attempt in
              match sleep_raises wait_time with
              | None =>
                  let '(o, steps, w2) :=
                    attempts k (attempt + 1) (Some e) (sleep wait_time w1) in
                  (o, Called attempt (inl e) :: Slept wait_time :: steps, w2)
              | Some x =>
                  (Raised x, [Called attempt (inl e); Slept wait_time], w1)
              end
          else (Raised e, [Called attempt (inl e)], w1)
      end
  end.

Definition wrapper (w : W) : outcome * list step * W :=
  attempts (Z.to_nat max_retries) 0 None w.

(** The calls of [func] in what the wrapper did: attempt and result. *)
Fixpoint calls (steps : list step) : list (Z * (exception + A)) :=
  match steps with
  | [] => []
  | Called attempt r :: rest => (attempt, r) :: calls rest
  | Slept _ :: rest => calls rest
  end.

(** The arguments of [time.sleep] in what the wrapper did. *)
Fixpoint sleeps (steps : list step) : list float :=
  match steps with
  | [] => []
  | Called _ _ :: rest => sleeps rest
  | Slept wait_time :: rest => wait_time :: sleeps rest
  end.

End wrapper.

(** [should_retry] *)
Definition should_retry (e : exception) : bool := isinstance e default_retryable.

(** [get_retry_delay] *)
Definition get_retry_delay (attempt : Z) (e : option exception)
    (initial_delay exponential_base : Q) : float :=
  match e with
  | Some e => wait_time_of initial_delay exponential_base e attempt
  | None => Finite (initial_delay * exponential_base ^ attempt)
  end.

(** [@retry_on_failure(max_retries=3)], as [generate] is decorated in
    [providers/openai_compatible.py] *)
Definition retry_on_failure_3 {A W : Type}
    (func : W → (exception + A) * W) (sleep : float → W → W) (w : W)
  : outcome * list step * W :=
  wrapper func sleep 3 1 2 default_retryable w.

End retry.

(** ** One session's file tools ([create_default_registry]) *)

Module Session.

(** The registry builds [read_file] and [edit_file] around one tracker (or
    around none) and [write_file] around none; all three act on one file
    system. *)
Record t := {
  fs : gmap string node;
  read_tracker : option (gset string);
}.

Inductive call :=
  | read_file (path : string) (start_line end_line : option Z)
  | write_file (path c : string)
  | edit_file (file_path old_string new_string : string) (replace_all : bool).

Definition step (os : OS) (workspace_root : string) (s : t) (c : call)
  : ToolResult * t :=
  match c with
  | read_file path start_line end_line =>
      let '(r, tracker) :=
        ReadFileTool.execute os workspace_root (read_tracker s) (fs s) path
          start_line end_line in
      (r, {| fs := fs s; read_tracker := tracker |})
  | write_file path c =>
      let '(r, fs') := WriteFileTool.execute os workspace_root (fs s) path c in
      (r, {| fs := fs'; read_tracker := read_tracker s |})
  | edit_file file_path old_string new_string replace_all =>
      let '(r, fs') :=
        EditFileTool.execute os workspace_root (read_tracker s) (fs s)
          file_path old_string new_string replace_all in
      (r, {| fs := fs'; read_tracker := read_tracker s |})
  end.

End Session.

(** A session over the sample file system in which nothing was read yet. *)
Definition sample_session : Session.t :=
  {| Session.fs := sample_fs; Session.read_tracker := Some ∅ |}.

(** A sample host for closed instances: a parsed JSON value is kept as its
    text, only the empty object parses, the world is a clock. *)
Definition sample_host : Host :=
  {| J := string;
     json_loads := λ s,
       if String.eqb s "{}" then inr s
       else inl "Expecting property name enclosed in double quotes: line 1 column 2 (char 1)";
     json_dumps_indent2 := λ j, j;
     json_truthy := λ j, negb (String.eqb j "{}");
     W := nat;
     D := nat;
     elapsed := λ a b, (b - a)%nat |}.

(** A call of [read_file] whose arguments are cut short. *)
Definition sample_call : ToolCall.t :=
  {| ToolCall.id := "tc_1"; ToolCall.type := "function";
     ToolCall.function :=
       {[ "name" := "read_file"; "arguments" := "{path: /ws/a.txt" ]} |}.

Definition sample_message (r : MessageRole) (c : string)
    (calls : option (list ToolCall.t)) : Message.t :=
  {| Message.role := r; Message.content := Text c; Message.name := None;
     Message.tool_calls := calls; Message.tool_call_id := None |}.

(** A context engine in the first prompt of a session, whose last message
    is the assistant's with [sample_call]. *)
Definition sample_engine : ContextEngine.t sample_host :=
  {| ContextEngine.session_id := "session_1";
     ContextEngine._prompt_counter := 1;
     ContextEngine._current_prompt_id := Some "prompt_001";
     ContextEngine._messages :=
       [ sample_message SYSTEM "You are a coding agent." None;
         sample_message USER "Show me a.txt" None;
         sample_message ASSISTANT "Reading it." (Some [sample_call]) ];
     ContextEngine._current_iteration := 1;
     ContextEngine._final_response := None;
     ContextEngine._trajectory_writer := Some [] |}.

(** [edit_file] as a registered tool of the sample host, bound to the
    sample file system and an empty tracker; it edits a file that does not
    exist, whatever the arguments. *)
Definition sample_edit_tool : @Tool sample_host :=
  {| requires_confirmation := true;
     tool_execute := λ (_ : J sample_host) (w : nat),
       (Returns (EditFileTool.execute sample_os "/ws" (Some ∅) sample_fs
                   "/ws/missing.txt" "hello" "bye" false).1, S w) |}.

(** [read_file] of [/ws/a.txt] as a registered tool, in the same way. *)
Definition sample_read_tool : @Tool sample_host :=
  {| requires_confirmation := false;
     tool_execute := λ (_ : J sample_host) (w : nat),
       (Returns (ReadFileTool.execute sample_os "/ws" (Some ∅) sample_fs
                   "/ws/a.txt" None None).1, S w) |}.

(** A local executor in YOLO mode with these tools. *)
Definition sample_executor : ToolExecutor.t sample_host :=
  {| ToolExecutor.tool_registry :=
       {[ "edit_file" := sample_edit_tool; "read_file" := sample_read_tool ]};
     ToolExecutor.yolo_mode := true;
     ToolExecutor.confirmation_callback := None;
     ToolExecutor.metrics_collector := Some [];
     ToolExecutor.remote_executor := None |}.

Definition sample_tool_call (id name arguments : string) : ToolCall.t :=
  {| ToolCall.id := id; ToolCall.type := "function";
     ToolCall.function := {[ "name" := name; "arguments" := arguments ]} |}.

(** A model that asks for [read_file] at every call and says nothing. *)
Definition sample_llm : @LLM sample_host :=
  {| llm_model := "sample-model";
     generate := λ (_ : list Message.t) (w : W sample_host),
       (inr {| LLMResponse.content := "";
               LLMResponse.tool_calls :=
                 [sample_tool_call "tc_2" "read_file" "{}"];
               LLMResponse.usage := None;
               LLMResponse.model := "sample-model";
               LLMResponse.finish_reason := "tool_calls" |}, S w);
     generate_stream := λ (_ : list Message.t) (w : W sample_host),
       (([chunk_tool_call (sample_tool_call "tc_2" "read_file" "{}");
          chunk_done None "tool_calls"], None), S w) |}.

(** An agent loop of at most two iterations around that model. *)
Definition sample_loop : AgentLoop.t sample_host :=
  {| AgentLoop.llm := sample_llm; AgentLoop.max_iterations := 2 |}.

Definition sample_state : AgentLoop.state sample_host :=
  {| AgentLoop.context_engine :=
       {| ContextEngine.session_id := "session_1";
          ContextEngine._prompt_counter := 0;
          ContextEngine._current_prompt_id := None;
          ContextEngine._messages :=
            [sample_message SYSTEM "You are a coding agent." None];
          ContextEngine._current_iteration := 0;
          ContextEngine._final_response := None;
          ContextEngine._trajectory_writer := None |};
     AgentLoop.tool_executor := sample_executor;
     AgentLoop.world := 0%nat |}.

(** A rate-limit error with a [Retry-After] of [q] seconds. *)
Definition sample_rate_limit (q : Q) : retry.exception :=
  {| retry.cls := retry.RateLimitError;
     retry.message := "Rate limit exceeded";
     retry.retry_after := Some (retry.Finite q) |}.

(** A call that fails with [e] the first time and answers afterwards; the
    world counts the calls. *)
Definition sample_func (e : retry.exception) (w : nat)
  : (retry.exception + string) * nat :=
  match w with
  | O => (inl e, 1%nat)
  | S _ => (inr "ok", S w)
  end.

(** A [time.sleep] that leaves the call count alone. *)
Definition sample_sleep (wait_time : retry.float) (w : nat) : nat := w.

(** A result of the error kind: [content] begins with "Error:" and
    [display] with the cross mark. *)
Definition is_error (r : ToolResult) : bool :=
  Py.startswith (content r) "Error:" && Py.startswith (display r) "❌".

(** The result of step 6 of [edit_file], for a path not read before. *)
Definition must_read_first (file_path : string) : ToolResult :=
  FileSystemToolMixin._create_error_result
    ("File has not been read yet: " +:+ file_path +:+ ". " +:+
     "You must use read_file tool at least once before editing.")
    "Must read file before editing".

(** The result of step 9 of [edit_file], for equal strings. *)
Definition identical_strings : ToolResult :=
  FileSystemToolMixin._create_error_result
    "old_string is identical to new_string. No replacement needed."
    "No changes to make".

(** The pre-flight checks of [edit_file] (steps 1 to 5) pass. *)
Definition preflight (os : OS) (workspace_root : string)
    (fs : gmap string node) (file_path : string) : Prop :=
  FileSystemToolMixin.is_absolute file_path = true ∧
  FileSystemToolMixin.relative_to_ok workspace_root
    (FileSystemToolMixin._resolve_path os file_path) = true ∧
  Fs.is_file fs (FileSystemToolMixin._resolve_path os file_path) = true.


(** ** Further definitions for the properties below *)

(** The path a call of a file tool acts on, as the tool resolves it. *)
Definition call_target (os : OS) (c : Session.call) : string :=
  match c with
  | Session.read_file path _ _ => resolve os path
  | Session.write_file path _ => FileSystemToolMixin._resolve_path os path
  | Session.edit_file file_path _ _ _ =>
      FileSystemToolMixin._resolve_path os file_path
  end.

(** 263000 bytes, more than [read_file] takes without a range. *)
Definition sample_big_bytes : string := Py.repeat_char "a" (263 * 1000).

(** 100400 characters, more than [write_file] takes. *)
Definition sample_big_text : string := Py.repeat_char "a" (251 * 400).

(** A file system with a file of 1001 lines. *)
Definition sample_long_fs : gmap string node :=
  {[ "/" := Dir; "/ws" := Dir;
     "/ws/long.txt" := File (Py.repeat_char Py.newline 1001) true true ]}.

(** The sample file system with a file of 263000 bytes besides. *)
Definition sample_big_fs : gmap string node :=
  <[ "/ws/big.bin" := File sample_big_bytes true true ]> sample_fs.

(** The message [add_tool_result] appends for a call. *)
Definition tool_message (tool_call_id result : string) : Message.t :=
  {| Message.role := TOOL; Message.content := Text result;
     Message.name := None; Message.tool_calls := None;
     Message.tool_call_id := Some tool_call_id |}.





(** The sample engine after a resumed history: the assistant message with
    [sample_call] has the content [c]. *)
Definition sample_engine_with (c : MessageContent)
  : ContextEngine.t sample_host :=
  {| ContextEngine.session_id := "session_1";
     ContextEngine._prompt_counter := 1;
     ContextEngine._current_prompt_id := Some "prompt_001";
     ContextEngine._messages :=
       [ sample_message SYSTEM "You are a coding agent." None;
         sample_message USER "Show me a.txt" None;
         {| Message.role := ASSISTANT; Message.content := c;
            Message.name := None; Message.tool_calls := Some [sample_call];
            Message.tool_call_id := None |} ];
     ContextEngine._current_iteration := 1;
     ContextEngine._final_response := None;
     ContextEngine._trajectory_writer := Some [] |}.

(** The content is [None]. *)
Definition sample_resumed_engine : ContextEngine.t sample_host :=
  sample_engine_with NoContent.


(** The current prompt id is the one of the prompt counter ([None] before
    the first prompt). *)
Definition prompt_id_matches_counter {h : Host} (e : ContextEngine.t h) : Prop :=
  ContextEngine._current_prompt_id e
  = match ContextEngine._prompt_counter e with
    | O => None
    | S _ => Some (ContextEngine.prompt_id_of (ContextEngine._prompt_counter e))
    end.

(** The iteration numbers of the [llm_start] events, in order. *)
Definition llm_starts {h : Host} (evs : list (@AgentEvent.t h)) : list Z :=
  omap (λ e, match e with
             | AgentEvent.llm_start it _ => Some it
             | _ => None
             end) evs.

(** The deltas of the content chunks of a stream, in order. *)
Definition chunk_deltas (chunks : list LLMChunk) : list string :=
  omap (λ c, match c with chunk_content delta => Some delta | _ => None end)
    chunks.

(** The tool calls of the tool-call chunks of a stream, in order. *)
Definition chunk_tool_calls (chunks : list LLMChunk) : list ToolCall.t :=
  omap (λ c, match c with chunk_tool_call tc => Some tc | _ => None end) chunks.

(** The sample executor outside YOLO mode, without confirmation callback. *)
Definition sample_careful_executor : ToolExecutor.t sample_host :=
  {| ToolExecutor.tool_registry :=
       {[ "edit_file" := sample_edit_tool; "read_file" := sample_read_tool ]};
     ToolExecutor.yolo_mode := false;
     ToolExecutor.confirmation_callback := None;
     ToolExecutor.metrics_collector := Some [];
     ToolExecutor.remote_executor := None |}.

(** A model whose calls time out. *)
Definition sample_failing_llm : @LLM sample_host :=
  {| llm_model := "sample-model";
     generate := λ (_ : list Message.t) (w : W sample_host),
       (inl "Request timed out", S w);
     generate_stream := λ (_ : list Message.t) (w : W sample_host),
       (([], Some "Request timed out"), S w) |}.

(** A model that answers at once, in two chunks when streamed. *)
Definition sample_answering_llm : @LLM sample_host :=
  {| llm_model := "sample-model";
     generate := λ (_ : list Message.t) (w : W sample_host),
       (inr {| LLMResponse.content := "Hello";
               LLMResponse.tool_calls := [];
               LLMResponse.usage := None;
               LLMResponse.model := "sample-model";
               LLMResponse.finish_reason := "stop" |}, S w);
     generate_stream := λ (_ : list Message.t) (w : W sample_host),
       (([chunk_content "Hel"; chunk_content "lo"; chunk_done None "stop"],
         None), S w) |}.

Definition sample_loop_of (llm : @LLM sample_host) (cap : Z)
  : AgentLoop.t sample_host :=
  {| AgentLoop.llm := llm; AgentLoop.max_iterations := cap |}.

(** A timeout, as the provider raises it. *)
Definition sample_timeout : retry.exception :=
  {| retry.cls := retry.TimeoutError;
     retry.message := "Request timed out";
     retry.retry_after := None |}.

(** A call that always times out; the world counts the calls. *)
Definition sample_timeout_func (w : nat) : (retry.exception + string) * nat :=
  (inl sample_timeout, S w).

(** A remote executor whose result mentions an error in passing. *)
Definition sample_remote (tool_name : string) (arguments : J sample_host)
    (session_id : string) (w : W sample_host) : ToolResult * W sample_host :=
  (mkToolResult "3 lines read; the log says Error: disk full" (Some "✓ Read"),
   S w).

Definition sample_remote_executor : ToolExecutor.t sample_host :=
  {| ToolExecutor.tool_registry :=
       {[ "edit_file" := sample_edit_tool; "read_file" := sample_read_tool ]};
     ToolExecutor.yolo_mode := true;
     ToolExecutor.confirmation_callback := None;
     ToolExecutor.metrics_collector := Some [];
     ToolExecutor.remote_executor := Some sample_remote |}.

(** A tool that raises. *)
Definition sample_raising_tool : @Tool sample_host :=
  {| requires_confirmation := false;
     tool_execute := λ (_ : J sample_host) (w : nat),
       (Raises "division by zero", S w) |}.

(** The shape of UTF-8: a byte below 128, or a lead byte with its one, two
    or three continuation bytes ([k] are still to come). *)
Fixpoint sample_utf8_shape (b : string) (k : nat) : bool :=
  match b with
  | EmptyString => bool_decide (k = 0%nat)
  | String c r =>
      match k with
      | S j => Py.is_continuation c && sample_utf8_shape r j
      | O =>
          let n := N_of_ascii c in
          if (n <? 128)%N then sample_utf8_shape r 0
          else if (194 <=? n)%N && (n <? 224)%N then sample_utf8_shape r 1
          else if (224 <=? n)%N && (n <? 240)%N then sample_utf8_shape r 2
          else if (240 <=? n)%N && (n <? 245)%N then sample_utf8_shape r 3
          else false
      end
  end.

(** [bytes.decode('latin-1')]: every byte is the character of its number. *)
Fixpoint sample_latin1_decode (b : string) : string :=
  match b with
  | EmptyString => ""
  | String c r =>
      let n := N_of_ascii c in
      if (n <? 128)%N then String c (sample_latin1_decode r)
      else String (ascii_of_N (192 + n / 64))
             (String (ascii_of_N (128 + n mod 64)) (sample_latin1_decode r))
  end.

(** [str.encode('latin-1')]: the characters up to U+00FF, one byte each. *)
Fixpoint sample_latin1_encode (t : string) : option string :=
  match t with
  | EmptyString => Some ""
  | String c r =>
      let n := N_of_ascii c in
      if (n <? 128)%N then String c <$> sample_latin1_encode r
      else if bool_decide (n = 194 ∨ n = 195)%N then
        match r with
        | String d r' =>
            String (ascii_of_N ((n - 192) * 64 + (N_of_ascii d - 128)))
              <$> sample_latin1_encode r'
        | EmptyString => None
        end
      else None
  end.

(** A system with the codecs UTF-8 and Latin-1.  The UTF-8 decoder goes by
    the shape of the bytes (the sample files hold no over-long form and no
    surrogate); with [errors='replace'], which the fallback never reaches
    here, it gives bytes of another shape up as one replacement
    character. *)
Definition sample_latin_os : OS :=
  {| expanduser := λ p, p;
     resolve := λ p, p;
     decode := λ encoding errors b,
       if String.eqb encoding "latin-1" then Some (sample_latin1_decode b)
       else if sample_utf8_shape b 0 then Some b
       else match errors with
            | Some _ => Some "�"
            | None => None
            end;
     encode := λ encoding t,
       if String.eqb encoding "latin-1" then sample_latin1_encode t
       else Some t;
     strerror := λ kind p, kind +:+ ": " +:+ p |}.

(** Two UTF-8 files of the workspace: "é", a tab and "b"; and "é" alone. *)
Definition sample_tab_fs : gmap string node :=
  {[ "/" := Dir; "/ws" := Dir;
     "/ws/tab.txt" := File ("é" +:+ String Py.tab "b") true true;
     "/ws/e.txt" := File "é" true true ]}.

(** A Latin-1 file of the workspace: the bytes E9 ("é"), tab and "x". *)
Definition sample_latin_fs : gmap string node :=
  {[ "/" := Dir; "/ws" := Dir;
     "/ws/latin.txt" := File (String "233" (String Py.tab "x")) true true ]}.

(** * Properties *)

(** ** File tools *)

Section FileTools.
Context (os : OS) (workspace_root : string).
Import FileSystemToolMixin.

Lemma create_error_result_is_error (e d : string) :
  is_error (_create_error_result e d) = true.
Proof. reflexivity. Qed.

Lemma create_error_result_content (e d : string) :
  content (_create_error_result e d) = "Error: " +:+ e.
Proof. reflexivity. Qed.

Lemma is_file_exists (fs : gmap string node) (p : string) :
  Fs.is_file fs p = true → Fs.exists_ fs p = true.
Proof.
  unfold Fs.is_file, Fs.exists_. destruct (fs !! p) as [[]|] eqn:E; try done.
Qed.

(** Steps 1 to 5 passed: [edit_file] continues with the read test. *)
Lemma edit_after_preflight (tracker : option (gset string))
    (fs : gmap string node) (p old new : string) (all : bool) :
  preflight os workspace_root fs p →
  EditFileTool.unread os tracker (_resolve_path os p) = true →
  EditFileTool.execute os workspace_root tracker fs p old new all
  = (must_read_first p, fs).
Proof.
  intros (Ha & Hw & Hf) Hu. unfold EditFileTool.execute.
  unfold _check_absolute_path. rewrite Ha. simpl.
  unfold _check_within_workspace. rewrite Hw.
  rewrite (is_file_exists _ _ Hf), Hf. simpl. rewrite Hu. reflexivity.
Qed.

(** Whatever stops [edit_file] before step 6 is an error that leaves the
    file system alone. *)
Lemma edit_unread_error (tracker : option (gset string))
    (fs : gmap string node) (p old new : string) (all : bool) :
  EditFileTool.unread os tracker (_resolve_path os p) = true →
  let r := EditFileTool.execute os workspace_root tracker fs p old new all in
  is_error r.1 = true ∧ r.2 = fs.
Proof.
  intros Hu. unfold EditFileTool.execute.
  destruct (_check_absolute_path p); [done|].
  destruct (_check_within_workspace _ _); [done|].
  destruct (negb (Fs.exists_ _ _)); [done|].
  destruct (negb (Fs.is_file _ _)); [done|].
  rewrite Hu. done.
Qed.

End FileTools.

Section FileToolClaims.
Context (os : OS) (workspace_root : string).
Import FileSystemToolMixin.

(** C1 (amended).  When [edit_file] holds the session's read tracker and
    the resolved path is not marked read in it, the call returns an error
    result and leaves the file system as it was, so it never reports
    success on such a path; when in addition the path is absolute, lies in
    the workspace and names an existing regular file, the error is the one
    saying that read_file must come before editing. *)
Theorem C1_edit_unread_is_rejected (tracker : gset string)
    (fs : gmap string node) (p old new : string) (all : bool) :
  ReadTracker.is_read os tracker (_resolve_path os p) = false →
  let r := EditFileTool.execute os workspace_root (Some tracker) fs p old new all in
  is_error r.1 = true ∧ r.2 = fs ∧
  (preflight os workspace_root fs p → r.1 = must_read_first p).
Proof.
  intros Hr r.
  assert (Hu : EditFileTool.unread os (Some tracker) (_resolve_path os p) = true)
    by (simpl; rewrite Hr; reflexivity).
  destruct (edit_unread_error os workspace_root _ fs p old new all Hu) as [He Hf].
  repeat split; [exact He | exact Hf |].
  intros Hp. subst r. rewrite (edit_after_preflight os workspace_root _ fs p old new all Hp Hu).
  reflexivity.
Qed.

(** C7 (amended).  A call of [edit_file] whose old and new strings are equal
    after tab expansion returns an error result and never writes; when the
    checks before the comparison pass (absolute path, inside the workspace,
    existing regular file, read before, readable text), the error is the
    "identical ... No replacement needed" one. *)
Theorem C7_edit_identical_is_rejected (tracker : option (gset string))
    (fs : gmap string node) (p old new : string) (all : bool) :
  Py.expandtabs old = Py.expandtabs new →
  let r := EditFileTool.execute os workspace_root tracker fs p old new all in
  is_error r.1 = true ∧ r.2 = fs ∧
  (preflight os workspace_root fs p →
   EditFileTool.unread os tracker (_resolve_path os p) = false →
   is_Some (match _read_with_encoding_fallback os fs (_resolve_path os p) with
            | inr x => Some x | inl _ => None end) →
   r.1 = identical_strings).
Proof.
  intros Heq. unfold EditFileTool.execute, preflight.
  unfold _check_absolute_path, _check_within_workspace.
  destruct (is_absolute p); simpl; [|by split; [|split; [|intros (? & _)]]].
  destruct (relative_to_ok _ _); simpl; [|by split; [|split; [|intros (_ & ? & _)]]].
  destruct (Fs.exists_ _ _) eqn:Hex; simpl.
  2:{ split; [done|split; [done|]]. intros (_ & _ & Hf).
      apply is_file_exists in Hf. congruence. }
  destruct (Fs.is_file _ _); simpl; [|by split; [|split; [|intros (_ & _ & ?)]]].
  destruct (EditFileTool.unread _ _ _); simpl; [by split; [|split]|].
  destruct (_read_with_encoding_fallback _ _ _) as [[]|[c enc]]; simpl;
    try (split; [done|split; [done|]]; intros _ _ [? ?]; done).
  rewrite bool_decide_eq_true_2 by exact Heq. done.
Qed.

(** A [write_file] that did not fail was given an absolute path inside the
    workspace and left a regular file there. *)
Lemma write_success_preflight (fs : gmap string node) (p c : string) :
  let r := WriteFileTool.execute os workspace_root fs p c in
  Py.startswith (content r.1) "Error:" = false →
  preflight os workspace_root r.2 p.
Proof.
  unfold WriteFileTool.execute, preflight.
  unfold _check_absolute_path, _check_within_workspace.
  destruct (is_absolute p); simpl; [|done].
  destruct (relative_to_ok _ _); simpl; [|done].
  destruct (_check_token_limit _ _); [done|].
  destruct (Fs.mkdir_parents _ _ _) as [[e|] fs1]; [by destruct e|].
  unfold Fs.write_text, Fs.open_w.
  set (q := _resolve_path os p).
  destruct (fs1 !! q) as [[b r [|]|]|] eqn:E; simpl; try done.
  - destruct (encode _ _ _); simpl; [|done]. intros _.
    split; [done|split; [done|]].
    unfold Fs.is_file, Fs.set_bytes. rewrite lookup_insert_eq.
    by rewrite lookup_insert_eq.
  - destruct (encode _ _ _); simpl; [|done]. intros _.
    split; [done|split; [done|]].
    unfold Fs.is_file, Fs.set_bytes. rewrite lookup_insert_eq.
    by rewrite lookup_insert_eq.
Qed.

(** [read_file] changes the tracker only when it succeeds, and then by
    marking the path it read. *)
Lemma read_tracker_after (tracker : option (gset string))
    (fs : gmap string node) (p : string) (a b : option Z) :
  let r := ReadFileTool.execute os workspace_root tracker fs p a b in
  r.2 = tracker ∨
  (is_error r.1 = false ∧
   r.2 = ReadFileTool.marked os tracker (resolve os p)).
Proof.
  unfold ReadFileTool.execute.
  repeat (case_match; simpl; try (left; reflexivity)).
  all: right; split; [|reflexivity].
  all: unfold is_error; simpl; apply andb_false_r.
Qed.

(** C8.  [write_file] never changes the read tracker: after any
    [write_file(p, content)] the tracker is what it was, so when [p] was not
    read before and the write succeeded, an [edit_file] on [p] that follows
    is still rejected with the must-read-first error (and changes nothing);
    a call of the session changes the tracker only if it is a [read_file]
    that succeeded, which marks the path it read. *)
Theorem C8_write_file_keeps_read_tracker (s : Session.t) (tracker : gset string)
    (p c old new : string) (all : bool) :
  Session.read_tracker s = Some tracker →
  ReadTracker.is_read os tracker (_resolve_path os p) = false →
  let w := Session.step os workspace_root s (Session.write_file p c) in
  Session.read_tracker w.2 = Session.read_tracker s ∧
  (Py.startswith (content w.1) "Error:" = false →
   Session.step os workspace_root w.2 (Session.edit_file p old new all)
   = (must_read_first p, w.2)) ∧
  (∀ call, let r := Session.step os workspace_root s call in
     Session.read_tracker r.2 ≠ Session.read_tracker s →
     ∃ path a b, call = Session.read_file path a b ∧ is_error r.1 = false ∧
       Session.read_tracker r.2
       = Some (ReadTracker.mark_as_read os tracker (resolve os path))).
Proof.
  intros Ht Hr. simpl.
  destruct (WriteFileTool.execute os workspace_root (Session.fs s) p c)
    as [r fs'] eqn:Hw. simpl.
  split; [reflexivity|]. split.
  - intros Hok. rewrite Ht.
    pose proof (write_success_preflight (Session.fs s) p c) as Hp.
    rewrite Hw in Hp. simpl in Hp. specialize (Hp Hok).
    rewrite edit_after_preflight; [reflexivity|exact Hp|].
    simpl. rewrite Hr. reflexivity.
  - intros [path a b|path c'|fp o n ra]; simpl.
    + pose proof (read_tracker_after (Session.read_tracker s) (Session.fs s)
                    path a b) as Hrd.
      destruct (ReadFileTool.execute _ _ _ _ _ _ _) as [r' t'] eqn:Hx.
      simpl in *. intros Hne. destruct Hrd as [Heq|[He Heq]]; [congruence|].
      exists path, a, b. rewrite Heq, Ht. simpl. repeat split. exact He.
    + destruct (WriteFileTool.execute os workspace_root (Session.fs s) path c');
        simpl.
      intros Hne. exfalso. apply Hne. reflexivity.
    + destruct (EditFileTool.execute os workspace_root (Session.read_tracker s)
                  (Session.fs s) fp o n ra); simpl.
      intros Hne. exfalso. apply Hne. reflexivity.
Qed.

(** C9.  Reading an existing, readable regular file of the workspace whose
    content is the empty string, with no [start_line] and no [end_line],
    returns the error "Invalid start_line None (file has 0 lines)" and
    leaves the read tracker as it was: the path is not marked. *)
Theorem C9_read_empty_file_is_an_error (tracker : option (gset string))
    (fs : gmap string node) (p : string) (writable : bool) :
  decode os "utf-8" None "" = Some "" →
  is_absolute p = true →
  relative_to_ok workspace_root (resolve os p) = true →
  fs !! resolve os p = Some (File "" true writable) →
  ReadFileTool.execute os workspace_root tracker fs p None None
  = (mkToolResult "Error: Invalid start_line None (file has 0 lines)"
       (Some "❌ Invalid start_line None (file has 0 lines)"), tracker).
Proof.
  intros Hd Ha Hw Hf. unfold ReadFileTool.execute.
  unfold _check_absolute_path, _check_within_workspace. rewrite Ha, Hw. simpl.
  unfold Fs.exists_, Fs.is_file. rewrite Hf. simpl.
  unfold ReadFileTool._check_file_size, Fs.st_size. rewrite Hf. simpl.
  unfold _read_with_encoding_fallback. simpl.
  unfold Fs.read_text, Fs.read_bytes. rewrite Hf, Hd. simpl.
  reflexivity.
Qed.

End FileToolClaims.

(** *** Closed instances of the file-tool claims *)

Import FileSystemToolMixin.

(** C1 at work: nothing was read, [/ws/a.txt] exists, and the edit is turned
    down with the must-read-first error. *)
Lemma C1_edit_unread_is_rejected_witness :
  ReadTracker.is_read sample_os ∅ (_resolve_path sample_os "/ws/a.txt") = false ∧
  preflight sample_os "/ws" sample_fs "/ws/a.txt" ∧
  EditFileTool.execute sample_os "/ws" (Some ∅) sample_fs "/ws/a.txt"
    "hello" "bye" false
  = (must_read_first "/ws/a.txt", sample_fs).
Proof.
  assert (Hr : ReadTracker.is_read sample_os ∅
                 (_resolve_path sample_os "/ws/a.txt") = false)
    by (vm_compute; reflexivity).
  assert (Hp : preflight sample_os "/ws" sample_fs "/ws/a.txt")
    by (repeat split; vm_compute; reflexivity).
  destruct (C1_edit_unread_is_rejected sample_os "/ws" ∅ sample_fs
              "/ws/a.txt" "hello" "bye" false Hr) as (_ & Hfs & Hmsg).
  split; [exact Hr|]. split; [exact Hp|].
  apply injective_projections; [exact (Hmsg Hp) | exact Hfs].
Defined.

(** C1 as first worded fails on a path that does not exist: the path is not
    marked read, yet the error is "File not found", which says nothing of
    [read_file]. *)
Lemma C1_counterexample_missing_file :
  ReadTracker.is_read sample_os ∅ (_resolve_path sample_os "/ws/missing.txt")
  = false ∧
  (EditFileTool.execute sample_os "/ws" (Some ∅) sample_fs "/ws/missing.txt"
     "hello" "bye" false).1
  = _create_error_result "File not found: /ws/missing.txt" "File not found" ∧
  Py.contains "read_file"
    (content (EditFileTool.execute sample_os "/ws" (Some ∅) sample_fs
                "/ws/missing.txt" "hello" "bye" false).1) = false.
Proof. repeat split; vm_compute; reflexivity. Qed.

(** Without a tracker (the HTTP server builds its tools so) the read test is
    skipped and an edit of a file never read succeeds. *)
Lemma edit_without_tracker_succeeds :
  let r := EditFileTool.execute sample_os "/ws" None sample_fs "/ws/a.txt"
             "hello" "bye" false in
  is_error r.1 = false ∧
  r.2 !! "/ws/a.txt" = Some (File "bye world" true true).
Proof. split; vm_compute; reflexivity. Qed.

(** C7 at work: [/ws/a.txt] was read; the old string is "é", a tab and "x",
    the new one has seven spaces for the tab, which is what the tab expands
    to after one character.  The edit is turned down with the
    identical-strings error; nothing is written. *)
Lemma C7_edit_identical_is_rejected_witness :
  Py.expandtabs ("é" +:+ String Py.tab "x") = Py.expandtabs "é       x" ∧
  EditFileTool.execute sample_os "/ws" (Some {["/ws/a.txt"]}) sample_fs
    "/ws/a.txt" ("é" +:+ String Py.tab "x") "é       x" false
  = (identical_strings, sample_fs).
Proof.
  split; [reflexivity|].
  destruct (C7_edit_identical_is_rejected sample_os "/ws"
              (Some {["/ws/a.txt"]}) sample_fs "/ws/a.txt"
              ("é" +:+ String Py.tab "x") "é       x"
              false eq_refl) as (_ & Hfs & Hmsg).
  apply injective_projections; [|exact Hfs].
  apply Hmsg.
  - repeat split; vm_compute; reflexivity.
  - vm_compute; reflexivity.
  - vm_compute. eexists. reflexivity.
Defined.

(** C7 as first worded fails on a path that does not exist: old and new
    strings are equal, yet the error is "File not found", not the
    identical-strings one. *)
Lemma C7_counterexample_missing_file :
  (EditFileTool.execute sample_os "/ws" (Some ∅) sample_fs "/ws/missing.txt"
     "hello" "hello" false).1
  = _create_error_result "File not found: /ws/missing.txt" "File not found" ∧
  Py.contains "identical"
    (content (EditFileTool.execute sample_os "/ws" (Some ∅) sample_fs
                "/ws/missing.txt" "hello" "hello" false).1) = false ∧
  Py.contains "No replacement needed"
    (content (EditFileTool.execute sample_os "/ws" (Some ∅) sample_fs
                "/ws/missing.txt" "hello" "hello" false).1) = false.
Proof. repeat split; vm_compute; reflexivity. Qed.

(** C8 at work: [/ws/new.txt] is written in a session that read nothing; the
    write succeeds, the tracker is still empty, and the edit that follows is
    turned down with the must-read-first error. *)
Lemma C8_write_file_keeps_read_tracker_witness :
  let w := Session.step sample_os "/ws" sample_session
             (Session.write_file "/ws/new.txt" "x") in
  Session.read_tracker sample_session = Some ∅ ∧
  ReadTracker.is_read sample_os ∅ (_resolve_path sample_os "/ws/new.txt")
  = false ∧
  Py.startswith (content w.1) "Error:" = false ∧
  Session.read_tracker w.2 = Some ∅ ∧
  Session.step sample_os "/ws" w.2 (Session.edit_file "/ws/new.txt" "x" "y" false)
  = (must_read_first "/ws/new.txt", w.2).
Proof.
  intros w.
  assert (Hr : ReadTracker.is_read sample_os ∅
                 (_resolve_path sample_os "/ws/new.txt") = false)
    by (vm_compute; reflexivity).
  assert (Hok : Py.startswith (content w.1) "Error:" = false)
    by (vm_compute; reflexivity).
  destruct (C8_write_file_keeps_read_tracker sample_os "/ws" sample_session ∅
              "/ws/new.txt" "x" "x" "y" false eq_refl Hr) as (Ht & He & _).
  split; [reflexivity|]. split; [exact Hr|]. split; [exact Hok|].
  split; [exact Ht|]. exact (He Hok).
Defined.

(** C9 at work on the empty file of the sample file system. *)
Lemma C9_read_empty_file_is_an_error_witness :
  decode sample_os "utf-8" None "" = Some "" ∧
  is_absolute "/ws/empty.txt" = true ∧
  relative_to_ok "/ws" (resolve sample_os "/ws/empty.txt") = true ∧
  sample_fs !! resolve sample_os "/ws/empty.txt" = Some (File "" true true) ∧
  ReadFileTool.execute sample_os "/ws" (Some ∅) sample_fs "/ws/empty.txt"
    None None
  = (mkToolResult "Error: Invalid start_line None (file has 0 lines)"
       (Some "❌ Invalid start_line None (file has 0 lines)"), Some ∅).
Proof.
  assert (Ha : is_absolute "/ws/empty.txt" = true) by reflexivity.
  assert (Hw : relative_to_ok "/ws" (resolve sample_os "/ws/empty.txt") = true)
    by (vm_compute; reflexivity).
  assert (Hf : sample_fs !! resolve sample_os "/ws/empty.txt"
               = Some (File "" true true)) by (vm_compute; reflexivity).
  split; [reflexivity|]. split; [exact Ha|]. split; [exact Hw|].
  split; [exact Hf|].
  exact (C9_read_empty_file_is_an_error sample_os "/ws" (Some ∅) sample_fs
           "/ws/empty.txt" true eq_refl Ha Hw Hf).
Defined.

(** ** Zero-padded decimals *)






(** ** The context engine *)

Section ContextEngineProperties.
Context (h : Host).
Import ContextEngine.

Lemma find_target_ge (id : string) (l : list Message.t) (i j : nat) :
  find_target id l i = Some j → (i ≤ j)%nat.
Proof.
  revert i j. induction l as [|m l IH]; intros i j; simpl; [done|].
  destruct (find_target id l (S i)) as [k|] eqn:E.
  - intros [= <-]. apply IH in E. lia.
  - destruct (holds_call id m); [|done]. intros [= <-]. lia.
Qed.

(** No message holds the call: the scan finds nothing. *)
Lemma find_target_none (id : string) (l : list Message.t) (i : nat) :
  Forall (λ m, holds_call id m = false) l → find_target id l i = None.
Proof.
  intros H. revert i. induction H as [|m l Hm _ IH]; intros i; simpl; [done|].
  by rewrite IH, Hm.
Qed.

(** The scan from the end stops at the last message that holds the call. *)
Lemma find_target_split (id : string) (pre post : list Message.t)
    (m : Message.t) (i : nat) :
  holds_call id m = true →
  Forall (λ m', holds_call id m' = false) post →
  find_target id (pre ++ m :: post) i = Some (i + length pre)%nat.
Proof.
  intros Hm Hpost. revert i. induction pre as [|x pre IH]; intros i; simpl.
  - rewrite (find_target_none id post (S i) Hpost), Hm. f_equal. lia.
  - rewrite IH. f_equal. lia.
Qed.



(** The same ledger with a trajectory writer and a target without content:
    the message is rewritten and the call ends in the [TypeError] of
    [to_dict()]. *)
Lemma sanitize_found_no_content (self : t h) (id name err : string)
    (pre post : list Message.t) (m : Message.t)
    (events : list (@TrajectoryEvent h)) :
  _messages self = pre ++ m :: post →
  holds_call id m = true →
  Forall (λ m', holds_call id m' = false) post →
  Message.content m = NoContent →
  _trajectory_writer self = Some events →
  sanitize_invalid_tool_call h self id name err
  = (Some (Exception "'NoneType' object is not iterable"),
     with_messages h self
       (pre ++ rewritten h id "" (default [] (Message.tool_calls m)) :: post)).
Proof.
  intros Hl Hm Hpost Hc Hw. unfold sanitize_invalid_tool_call.
  rewrite Hl, (find_target_split id pre post m 0 Hm Hpost). simpl.
  rewrite list_lookup_middle by done.
  unfold content_plus, Message.to_dict_error. rewrite Hc, Hw. simpl.
  rewrite insert_app_r_alt by lia. rewrite Nat.sub_diag. reflexivity.
Qed.





End ContextEngineProperties.

(** *** Closed instances of the context-engine claims *)





(** ** The tool executor *)

Section ToolExecutorProperties.
Context (h : Host).
Import ContextEngine ToolExecutor.




(** When the sanitizer raises, so does [execute_tool_call]: it yields no
    event and leaves the engine as the sanitizer left it. *)
Lemma invalid_arguments_sanitizer_raises (self : ToolExecutor.t h)
    (ctx ctx' : ContextEngine.t h) (w : W h) (tool_call : ToolCall.t)
    (session_id tool_name raw err : string) (tool : @Tool h) (x : exn) :
  ToolCall.function tool_call !! "name" = Some tool_name →
  tool_registry self !! tool_name = Some tool →
  ToolCall.function tool_call !! "arguments" = Some raw →
  json_loads h raw = inl err →
  sanitize_invalid_tool_call h ctx (ToolCall.id tool_call) tool_name err
  = (Some x, ctx') →
  let r := execute_tool_call h self ctx w tool_call session_id in
  raised r = Some x ∧ events r = [] ∧ engine r = ctx'.
Proof.
  intros Hn Ht Ha Hj Hs. unfold execute_tool_call.
  rewrite Hn, Ht, Ha, Hj. unfold _handle_invalid_arguments. by rewrite Hs.
Qed.

(** The tool is looked up before the arguments are parsed: a call of a tool
    that is not registered gets a tool-role message with the error, whatever
    its arguments, and the sanitizer is not run. *)
Lemma unknown_tool_gets_tool_message (self : ToolExecutor.t h)
    (ctx : ContextEngine.t h) (w : W h) (tool_call : ToolCall.t)
    (session_id tool_name : string) :
  ToolCall.function tool_call !! "name" = Some tool_name →
  tool_registry self !! tool_name = None →
  let r := execute_tool_call h self ctx w tool_call session_id in
  _messages (engine r)
  = _messages ctx ++
    [ {| Message.role := TOOL;
         Message.content := Text ("Error: Tool not found: " +:+ tool_name);
         Message.name := None; Message.tool_calls := None;
         Message.tool_call_id := Some (ToolCall.id tool_call) |} ].
Proof.
  intros Hn Ht. unfold execute_tool_call. rewrite Hn, Ht. simpl.
  by destruct (_trajectory_writer ctx).
Qed.

(** Remote execution: the success flag recorded with the tool result is
    false exactly when "Error:" occurs in the content or the cross mark in
    the display. *)
Lemma remote_success_flag (self : ToolExecutor.t h) (ctx : ContextEngine.t h)
    (w w' : W h) (tool : @Tool h) (tool_call_id tool_name session_id : string)
    (arguments : J h) (confirmed : bool)
    (remote : string → J h → string → W h → ToolResult * W h)
    (tool_result : ToolResult) :
  remote_executor self = Some remote →
  remote tool_name arguments session_id w = (tool_result, w') →
  engine (_execute_and_record h self ctx w tool tool_call_id tool_name
            arguments confirmed session_id)
  = add_tool_result h ctx tool_call_id (content tool_result) (Some tool_name)
      (Some arguments)
      (negb (Py.contains "Error:" (content tool_result)
             || Py.contains "❌" (display tool_result)))
      (Some (elapsed h w w')).
Proof.
  intros Hr He. unfold _execute_and_record, execute_tool. rewrite Hr, He.
  by destruct (_ || _).
Qed.

(** C2, the local branch.  When no remote executor is set and the tool
    returns a [ToolResult], the tool result is recorded with the success
    flag true, and so is the metric, whatever the result says: also when its
    content begins with "Error:" and its display with the cross mark. *)
Theorem C2_local_result_is_recorded_as_success (self : ToolExecutor.t h)
    (ctx : ContextEngine.t h) (w w' : W h) (tool : @Tool h)
    (tool_call_id tool_name session_id : string) (arguments : J h)
    (confirmed : bool) (tool_result : ToolResult) :
  remote_executor self = None →
  tool_execute tool arguments w = (Returns tool_result, w') →
  let r := _execute_and_record h self ctx w tool tool_call_id tool_name
             arguments confirmed session_id in
  engine r
  = add_tool_result h ctx tool_call_id (content tool_result) (Some tool_name)
      (Some arguments) true (Some (elapsed h w w')) ∧
  metrics_collector (executor r)
  = (λ l, l ++ [ {| metric_tool_call_id := tool_call_id;
                    metric_tool_name := tool_name;
                    metric_success := true;
                    metric_error := None |} ]) <$> metrics_collector self.
Proof.
  intros Hr He. unfold _execute_and_record, execute_tool. rewrite Hr, He.
  done.
Qed.

End ToolExecutorProperties.

(** *** Closed instances of the tool-executor claims *)

(** C2 at work, against the claim: the local [edit_file] of a missing file
    returns an error result ("Error:" prefix, cross mark), and the
    trajectory and the metrics record the call as a success. *)
Lemma C2_local_result_is_recorded_as_success_witness :
  let result :=
    (EditFileTool.execute sample_os "/ws" (Some ∅) sample_fs
       "/ws/missing.txt" "hello" "bye" false).1 in
  let r :=
    ToolExecutor._execute_and_record sample_host sample_executor sample_engine
      0%nat sample_edit_tool "tc_2" "edit_file" "{}" true "session_1" in
  is_error result = true ∧
  ContextEngine._trajectory_writer (ToolExecutor.engine r)
  = Some [@ev_tool_result sample_host (Some "prompt_001") 1 "tc_2"
            "Error: File not found: /ws/missing.txt" true (Some "edit_file")
            None (Some 1%nat)] ∧
  ToolExecutor.metrics_collector (ToolExecutor.executor r)
  = Some [ {| metric_tool_call_id := "tc_2"; metric_tool_name := "edit_file";
              metric_success := true; metric_error := None |} ].
Proof.
  intros result r.
  destruct (C2_local_result_is_recorded_as_success sample_host sample_executor
              sample_engine 0%nat 1%nat sample_edit_tool "tc_2" "edit_file"
              "session_1" "{}" true result eq_refl eq_refl) as [He Hm].
  split; [vm_compute; reflexivity|]. split.
  - subst r. rewrite He. vm_compute. reflexivity.
  - subst r. rewrite Hm. reflexivity.
Defined.



(** With a trajectory writer and an assistant message without content, the
    call [tc_1] with arguments that do not parse ends in the [TypeError] of
    the sanitizer: no event is yielded, the message is rewritten, and
    neither a tool message nor a retry instruction is appended. *)
Lemma invalid_arguments_raise_on_content_none :
  let r :=
    ToolExecutor.execute_tool_call sample_host sample_executor
      sample_resumed_engine 0%nat sample_call "session_1" in
  ToolExecutor.raised r = Some (Exception "'NoneType' object is not iterable") ∧
  ToolExecutor.events r = [] ∧
  ContextEngine._messages (ToolExecutor.engine r)
  = [ sample_message SYSTEM "You are a coding agent." None;
      sample_message USER "Show me a.txt" None;
      sample_message ASSISTANT
        (Py.nl +:+ Py.nl +:+ "Tool calls attempted:" +:+
         Py.nl +:+ "- Tool: read_file" +:+ Py.nl +:+ "  ID: tc_1" +:+
         Py.nl +:+ "  Arguments: <Invalid JSON format>") None ].
Proof. intros r. repeat split; vm_compute; reflexivity. Qed.

(** ** The agent loop *)

Section AgentLoopProperties.
Context (h : Host).
Import AgentLoop.

Local Notation "'not_done'" :=
  (λ e : @AgentEvent.t h, AgentEvent.is_agent_done e = false) (only parsing).

Lemma consume_not_done (chunks : list LLMChunk) (parts : list string)
    (calls : list ToolCall.t) (usage : option TokenUsage) (reason : string) :
  Forall not_done (consume h chunks parts calls usage reason).1.
Proof.
  revert parts calls usage reason.
  induction chunks as [|c chunks IH]; intros parts calls usage reason; simpl;
    [constructor|].
  destruct c; simpl; try apply IH.
  specialize (IH (parts ++ [delta]) calls usage reason).
  destruct (consume h chunks _ _ _ _) as [evs r]. simpl in *.
  by constructor.
Qed.

Lemma call_llm_not_done (self : t h) (stream : bool)
    (messages : list Message.t) (session_id : string) (w : W h) :
  Forall not_done (call_llm h self stream messages session_id w).1.1.
Proof.
  unfold call_llm, _handle_streaming_llm. destruct stream.
  - destruct (generate_stream _ _ _) as [[chunks failure] w'].
    pose proof (consume_not_done chunks [] [] None "") as Hc.
    destruct (consume h chunks _ _ _ _) as [evs [[[parts calls] usage] reason]].
    simpl in Hc. destruct failure; simpl; [done|].
    apply Forall_app. split; [done|]. by repeat constructor.
  - destruct (generate _ _ _) as [[e|r] w']; simpl; by repeat constructor.
Qed.

Lemma execute_tool_calls_not_done (st : state h) (calls : list ToolCall.t)
    (session_id : string) :
  Forall not_done (execute_tool_calls h st calls session_id).1.1.
Proof.
  revert st. induction calls as [|c calls IH]; intros st; simpl; [constructor|].
  set (r := ToolExecutor.execute_tool_call h _ _ _ _ _).
  assert (Forall not_done (AgentEvent.of_tool <$> ToolExecutor.events r)) as He.
  { apply Forall_fmap. by apply Forall_true. }
  destruct (ToolExecutor.raised r); simpl; [done|].
  specialize (IH {| context_engine := ToolExecutor.engine r;
                    tool_executor := ToolExecutor.executor r;
                    world := ToolExecutor.world r |}).
  destruct (execute_tool_calls h _ calls session_id) as [[evs st'] e].
  simpl in *. apply Forall_app. done.
Qed.

(** The loop counts up to the cap at most, and yields no [agent_done]. *)
Lemma loop_bound (fuel : nat) (self : t h) (stream : bool) (it : Z)
    (st : state h) :
  it <= max_iterations self →
  let r := loop h fuel self stream it st in
  it <= iteration r <= max_iterations self ∧ Forall not_done (events r).
Proof.
  revert it st. induction fuel as [|fuel IH]; intros it st Hit; simpl.
  { split; [lia|constructor]. }
  destruct (bool_decide (it < max_iterations self)) eqn:Hlt; simpl;
    [|split; [lia|constructor]].
  apply bool_decide_eq_true in Hlt.
  pose proof (call_llm_not_done self stream
                (ContextEngine.get_messages_for_llm h (context_engine st))
                (ContextEngine.session_id (context_engine st)) (world st)) as Hl.
  destruct (call_llm h self stream _ _ _) as [[llm_events answer] w1].
  simpl in Hl.
  destruct answer as [e|llm_response]; simpl.
  { split; [lia|]. constructor; [done|]. apply Forall_app. split; [done|].
    by repeat constructor. }
  destruct (negb (LLMResponse.has_tool_calls llm_response)); simpl.
  { split; [lia|]. by constructor. }
  set (st1 := {| context_engine := _ |}).
  pose proof (execute_tool_calls_not_done st1
                (LLMResponse.tool_calls llm_response)
                (ContextEngine.session_id (context_engine st))) as Ht.
  destruct (execute_tool_calls h st1 _ _) as [[tool_events st2] [e|]];
    simpl in *.
  { split; [lia|]. constructor; [done|]. apply Forall_app. split; [done|].
    apply Forall_app. split; [done|]. by repeat constructor. }
  destruct (IH (it + 1) st2) as [Hb He]; [lia|].
  split; [lia|]. constructor; [done|].
  apply Forall_app. split; [|done]. apply Forall_app. done.
Qed.

(** Fuel for the distance to the cap is enough: more gives the same run. *)
Lemma loop_fuel (f1 f2 : nat) (self : t h) (stream : bool) (it : Z)
    (st : state h) :
  (Z.to_nat (max_iterations self - it) ≤ f1)%nat →
  (Z.to_nat (max_iterations self - it) ≤ f2)%nat →
  loop h f1 self stream it st = loop h f2 self stream it st.
Proof.
  revert f2 it st. induction f1 as [|f1 IH]; intros [|f2] it st H1 H2; simpl;
    try reflexivity.
  - rewrite bool_decide_eq_false_2 by lia. reflexivity.
  - rewrite bool_decide_eq_false_2 by lia. reflexivity.
  - destruct (bool_decide (it < max_iterations self)) eqn:Hlt; [|reflexivity].
    apply bool_decide_eq_true in Hlt.
    destruct (call_llm h self stream _ _ _) as [[llm_events answer] w1].
    destruct answer as [e|llm_response]; [reflexivity|].
    destruct (negb _); [reflexivity|].
    destruct (execute_tool_calls h _ _ _) as [[tool_events st2] [e|]];
      [reflexivity|].
    f_equal. apply IH; lia.
Qed.

(** C5.  With a cap that is not negative, [run] yields its events and then
    one [agent_done], the only one; its [iterations] is the count the loop
    ended with, at most [max_iterations]; when that count is the cap and the
    response gathered by the loop is empty, its [final_response] is the
    sentinel, and otherwise the gathered response; so at the cap it is not
    empty.  The loop is run with fuel [max_iterations], and any greater fuel
    gives the same run. *)
Theorem C5_agent_done_within_cap (self : t h) (st : state h)
    (user_query : MessageContent) (stream : bool) :
  0 <= max_iterations self →
  let st0 :=
    {| context_engine :=
         ContextEngine.add_user_message h (context_engine st) user_query;
       tool_executor := tool_executor st; world := world st |} in
  let r := loop h (Z.to_nat (max_iterations self)) self stream 0 st0 in
  ∃ final,
    (run h self st user_query stream).1
    = events r ++
      [AgentEvent.agent_done final (iteration r)
         (ContextEngine.session_id (context_engine (final_state r)))] ∧
    Forall (λ e, AgentEvent.is_agent_done e = false) (events r) ∧
    iteration r <= max_iterations self ∧
    (iteration r = max_iterations self → final_response r = "" →
     final = sentinel) ∧
    (iteration r < max_iterations self ∨ final_response r ≠ "" →
     final = final_response r) ∧
    (iteration r = max_iterations self → final ≠ "") ∧
    (∀ fuel, (Z.to_nat (max_iterations self) ≤ fuel)%nat →
             loop h fuel self stream 0 st0 = r).
Proof.
  intros Hmax st0 r.
  destruct (loop_bound (Z.to_nat (max_iterations self)) self stream 0 st0 Hmax)
    as [Hb He]. fold r in Hb, He.
  eexists. split; [reflexivity|]. fold st0. fold r.
  split; [exact He|]. split; [lia|].
  split; [|split; [|split]].
  - intros Hi Hf. rewrite Hf.
    rewrite !bool_decide_eq_true_2 by (done || lia). reflexivity.
  - intros [Hi|Hf].
    + rewrite (bool_decide_eq_false_2 (iteration r >= _)) by lia. reflexivity.
    + rewrite (bool_decide_eq_false_2 (final_response r = "")) by done.
      by rewrite andb_false_r.
  - intros Hi. rewrite (bool_decide_eq_true_2 (iteration r >= _)) by lia.
    simpl. destruct (bool_decide (final_response r = "")) eqn:Hf; [done|].
    by apply bool_decide_eq_false in Hf.
  - intros fuel Hfuel. apply loop_fuel; rewrite Z.sub_0_r; [done|lia].
Qed.

End AgentLoopProperties.

(** *** A closed instance of the agent-loop claim *)

(** C5 at work: the sample model asks for a tool at every call, the loop
    stops at its cap of two iterations with nothing gathered, and
    [agent_done] carries the sentinel. *)
Lemma C5_agent_done_within_cap_witness :
  0 <= AgentLoop.max_iterations sample_loop ∧
  last (AgentLoop.run sample_host sample_loop sample_state
          (Text "Show me a.txt") false).1
  = Some (AgentEvent.agent_done AgentLoop.sentinel 2 "session_1").
Proof.
  assert (H0 : 0 <= AgentLoop.max_iterations sample_loop) by (simpl; lia).
  destruct (C5_agent_done_within_cap sample_host sample_loop sample_state
              (Text "Show me a.txt") false H0)
    as (final & Hrun & _ & _ & Hs & _).
  split; [exact H0|]. rewrite Hrun, last_snoc.
  rewrite Hs by (vm_compute; reflexivity).
  vm_compute. reflexivity.
Defined.

(** ** The retry wrapper *)

Section RetryProperties.
Context {A W : Type}.
Context (func : W → (retry.exception + A) * W) (sleep : retry.float → W → W).
Context (max_retries : Z) (initial_delay exponential_base : Q).
Context (retryable : list retry.exn_class).
Import retry.

Local Notation "'run_from'" :=
  (attempts func sleep max_retries initial_delay exponential_base retryable)
  (only parsing).
Local Notation "'wait'" := (wait_time_of initial_delay exponential_base)
  (only parsing).




End RetryProperties.




(** *** Closed instances of the retry claim *)


(** A [Retry-After] of a tenth of a second is slept as it is: two calls,
    one sleep, and the answer reaches the caller. *)
Lemma retry_after_is_slept :
  retry.retry_on_failure_3 (sample_func (sample_rate_limit (1 # 10)))
    sample_sleep 0%nat
  = (retry.Returned "ok",
     [retry.Called 0 (inl (sample_rate_limit (1 # 10)));
      retry.Slept (retry.Finite (1 # 10));
      retry.Called 1 (inr "ok")], 2%nat).
Proof. vm_compute. reflexivity. Qed.

(** A [Retry-After] of ten thousand million seconds is no time to sleep:
    [time.sleep] raises [OverflowError], which ends the wrapper after one
    call.  So does a [Retry-After] that reads as NaN, with [ValueError]. *)
Lemma retry_after_too_long_raises :
  retry.retry_on_failure_3 (sample_func (sample_rate_limit (10 ^ 10)))
    sample_sleep 0%nat
  = (retry.Raised retry.overflow_error,
     [retry.Called 0 (inl (sample_rate_limit (10 ^ 10)));
      retry.Slept (retry.Finite (10 ^ 10))], 1%nat) ∧
  retry.retry_on_failure_3
    (sample_func {| retry.cls := retry.RateLimitError;
                    retry.message := "Rate limit exceeded";
                    retry.retry_after := Some retry.NaN |})
    sample_sleep 0%nat
  = (retry.Raised {| retry.cls := retry.ValueErrorClass;
                     retry.message := "Invalid value NaN (not a number)";
                     retry.retry_after := None |},
     [retry.Called 0 (inl {| retry.cls := retry.RateLimitError;
                             retry.message := "Rate limit exceeded";
                             retry.retry_after := Some retry.NaN |});
      retry.Slept retry.NaN], 1%nat).
Proof. split; vm_compute; reflexivity. Qed.

(** * Further properties of the file tools *)

Section FileToolExtras.
Context (os : OS) (workspace_root : string).
Import FileSystemToolMixin.

(** X1.  The read tracker keys its marks by resolved path: after
    [mark_as_read(p)], [is_read(q)] holds exactly when [q] resolves to the
    path [p] resolves to or [q] was read before; a new tracker and a
    cleared one hold nothing. *)
Theorem X1_read_tracker_marks_by_resolved_path (t : gset string)
    (p q : string) :
  (ReadTracker.is_read os (ReadTracker.mark_as_read os t p) q = true ↔
   resolve os q = resolve os p ∨ ReadTracker.is_read os t q = true) ∧
  ReadTracker.is_read os ReadTracker.init q = false ∧
  ReadTracker.is_read os (ReadTracker.clear t) q = false.
Proof.
  unfold ReadTracker.is_read, ReadTracker.mark_as_read, ReadTracker.init,
    ReadTracker.clear.
  split; [|split; apply bool_decide_eq_false_2; set_solver].
  rewrite !bool_decide_eq_true. set_solver.
Qed.

(** X2.  [read_file] marks the path exactly when it succeeds: a call that
    returns an error result leaves the tracker as it was, one that returns
    no error adds the resolved path (when the tool holds a tracker). *)
Theorem X2_read_file_marks_exactly_on_success
    (tracker : option (gset string)) (fs : gmap string node) (p : string)
    (a b : option Z) :
  let r := ReadFileTool.execute os workspace_root tracker fs p a b in
  (is_error r.1 = true ∧ r.2 = tracker) ∨
  (is_error r.1 = false ∧
   r.2 = ReadFileTool.marked os tracker (resolve os p)).
Proof.
  unfold ReadFileTool.execute.
  repeat (case_match; simpl; try (left; split; reflexivity)).
  all: right; split; [|reflexivity].
  all: unfold is_error; simpl; apply andb_false_r.
Qed.

(** Once the path is marked, [edit_file] goes on as a tool without tracker
    does. *)
Lemma edit_read_test_passed (tracker : option (gset string))
    (fs : gmap string node) (p old new : string) (all : bool) :
  EditFileTool.unread os tracker (_resolve_path os p) = false →
  EditFileTool.execute os workspace_root tracker fs p old new all
  = EditFileTool.execute os workspace_root None fs p old new all.
Proof.
  intros H. unfold EditFileTool.execute. cbv zeta. rewrite H. reflexivity.
Qed.

(** X3.  After a [read_file] of [p] that returned no error, an
    [edit_file] of [p] passes the read test: it does what an [edit_file]
    without tracker does.  ([p] is absolute then, so that [expanduser]
    leaves it alone.) *)
Theorem X3_edit_after_successful_read (s : Session.t) (p : string)
    (a b : option Z) (old new : string) (all : bool) :
  expanduser os p = p →
  is_error (Session.step os workspace_root s (Session.read_file p a b)).1
  = false →
  let s' := (Session.step os workspace_root s (Session.read_file p a b)).2 in
  EditFileTool.execute os workspace_root (Session.read_tracker s')
    (Session.fs s') p old new all
  = EditFileTool.execute os workspace_root None (Session.fs s) p old new all.
Proof.
  intros He Hok s'. subst s'. simpl in *.
  destruct (ReadFileTool.execute os workspace_root (Session.read_tracker s)
              (Session.fs s) p a b) as [r t] eqn:E.
  simpl in *. apply edit_read_test_passed.
  assert (t = ReadFileTool.marked os (Session.read_tracker s) (resolve os p))
    as ->.
  { revert E Hok. unfold ReadFileTool.execute.
    repeat (case_match; simpl; try (intros [= <- <-]; discriminate)).
    all: by intros [= <- <-]. }
  unfold EditFileTool.unread, ReadFileTool.marked, _resolve_path.
  destruct (Session.read_tracker s) as [t0|]; [|done].
  unfold ReadTracker.is_read, ReadTracker.mark_as_read. rewrite He.
  rewrite bool_decide_eq_true_2 by set_solver. done.
Qed.

(** [mkdir(parents=True)] keeps what exists and adds directories only. *)
Lemma mkdir_chain_lookup (fs : gmap string node) (chain : list string)
    (q : string) :
  (Fs.mkdir_chain os fs chain).2 !! q = fs !! q ∨
  (fs !! q = None ∧ (Fs.mkdir_chain os fs chain).2 !! q = Some Dir).
Proof.
  revert fs. induction chain as [|d chain IH]; intros fs; simpl; [by left|].
  destruct (fs !! d) as [[]|] eqn:E; simpl; [by left|apply IH|].
  destruct (IH (<[d := Dir]> fs)) as [H|[H1 H2]].
  - rewrite H. destruct (decide (d = q)) as [->|Hne].
    + rewrite lookup_insert_eq. by right.
    + rewrite lookup_insert_ne by done. by left.
  - destruct (decide (d = q)) as [->|Hne].
    + by rewrite lookup_insert_eq in H1.
    + rewrite lookup_insert_ne in H1 by done. by right.
Qed.

(** Writing a file changes the entry of that file only. *)
Lemma write_text_lookup (fs : gmap string node) (p encoding text q : string) :
  q ≠ p → (Fs.write_text os fs p encoding text).2 !! q = fs !! q.
Proof.
  intros Hq. unfold Fs.write_text, Fs.open_w, Fs.set_bytes.
  destruct (fs !! p) as [[b r [|]|]|] eqn:E; simpl; try done.
  - destruct (encode os encoding text); simpl.
    + rewrite lookup_insert_eq. by rewrite !lookup_insert_ne.
    + by rewrite lookup_insert_ne.
  - destruct (encode os encoding text); simpl.
    + rewrite lookup_insert_eq. by rewrite !lookup_insert_ne.
    + by rewrite lookup_insert_ne.
Qed.

(** X4.  Whatever it returns, [write_file] leaves every entry of the file
    system other than its resolved target as it is, or makes it a directory
    where nothing was (the missing parents): it deletes nothing and writes
    no other file. *)
Theorem X4_write_file_touches_only_its_target (fs : gmap string node)
    (p c q : string) :
  let fs' := (WriteFileTool.execute os workspace_root fs p c).2 in
  q = _resolve_path os p ∨ fs' !! q = fs !! q ∨
  (fs !! q = None ∧ fs' !! q = Some Dir).
Proof.
  destruct (decide (q = _resolve_path os p)) as [|Hq]; [by left|right].
  unfold WriteFileTool.execute.
  destruct (_check_absolute_path p); [by left|].
  destruct (_check_within_workspace _ _); [by left|].
  destruct (_check_token_limit _ _); [by left|].
  pose proof (mkdir_chain_lookup fs
                (Fs.lineage (String.length (Fs.parent (_resolve_path os p)))
                   (Fs.parent (_resolve_path os p)) []) q) as Hm.
  unfold Fs.mkdir_parents.
  destruct (Fs.mkdir_chain os fs _) as [[e|] fs1]; simpl in *; [done|].
  pose proof (write_text_lookup fs1 (_resolve_path os p) "utf-8" c q Hq) as Hw.
  destruct (Fs.write_text os fs1 _ _ _) as [[e|] fs2]; simpl in *;
    by rewrite Hw.
Qed.

(** X5.  A [write_file] that returns no error has stored the UTF-8 encoding
    of the content at the resolved path; when that file may be read and the
    bytes decode to the content, reading it back gives the content with its
    line ends translated to LF. *)
Theorem X5_write_file_stores_the_content (fs : gmap string node)
    (p c : string) :
  is_error (WriteFileTool.execute os workspace_root fs p c).1 = false →
  let fs' := (WriteFileTool.execute os workspace_root fs p c).2 in
  ∃ b readable,
    encode os "utf-8" c = Some b ∧
    fs' !! _resolve_path os p = Some (File b readable true) ∧
    (readable = true → decode os "utf-8" None b = Some c →
     _read_with_encoding_fallback os fs' (_resolve_path os p)
     = inr (Py.universal_newlines c, "utf-8")).
Proof.
  unfold WriteFileTool.execute.
  destruct (_check_absolute_path p); [done|].
  destruct (_check_within_workspace _ _); [done|].
  destruct (_check_token_limit _ _); [done|].
  destruct (Fs.mkdir_parents _ _ _) as [[e|] fs1]; [by destruct e|].
  unfold Fs.write_text, Fs.open_w.
  set (q := _resolve_path os p).
  destruct (fs1 !! q) as [[b0 r [|]|]|] eqn:E; simpl; try done.
  - destruct (encode os "utf-8" c) as [b|]; simpl; [|done]. intros _.
    exists b, r. split; [done|].
    unfold Fs.set_bytes. rewrite lookup_insert_eq.
    split; [by rewrite lookup_insert_eq|].
    intros -> Hd. unfold _read_with_encoding_fallback. simpl.
    unfold Fs.read_text, Fs.read_bytes. rewrite lookup_insert_eq.
    by rewrite Hd.
  - destruct (encode os "utf-8" c) as [b|]; simpl; [|done]. intros _.
    exists b, true. split; [done|].
    unfold Fs.set_bytes. rewrite lookup_insert_eq.
    split; [by rewrite lookup_insert_eq|].
    intros _ Hd. unfold _read_with_encoding_fallback. simpl.
    unfold Fs.read_text, Fs.read_bytes. rewrite lookup_insert_eq.
    by rewrite Hd.
Qed.

(** X6.  Content of more than [MAX_TOKENS] estimated tokens (a quarter of
    its length) is refused by [write_file] before anything is done to the
    file system. *)
Theorem X6_write_file_refuses_oversize_content (fs : gmap string node)
    (p c : string) :
  _estimate_tokens c > MAX_TOKENS →
  let r := WriteFileTool.execute os workspace_root fs p c in
  is_error r.1 = true ∧ r.2 = fs.
Proof.
  intros Hc. unfold WriteFileTool.execute.
  destruct (_check_absolute_path p); [done|].
  destruct (_check_within_workspace _ _); [done|].
  unfold _check_token_limit. rewrite bool_decide_eq_true_2 by done. done.
Qed.

(** X7.  No file tool acts on a path that resolves outside the workspace:
    [read_file], [write_file] and [edit_file] return an error result and
    leave the file system and the read tracker as they were. *)
Theorem X7_outside_workspace_is_refused (s : Session.t) (c : Session.call) :
  relative_to_ok workspace_root (call_target os c) = false →
  let r := Session.step os workspace_root s c in
  is_error r.1 = true ∧ r.2 = s.
Proof.
  intros Hout. destruct s as [fs tracker].
  destruct c as [p a b|p c|p old new all]; simpl in *.
  - unfold ReadFileTool.execute.
    destruct (_check_absolute_path p); [done|].
    unfold _check_within_workspace. by rewrite Hout.
  - unfold WriteFileTool.execute.
    destruct (_check_absolute_path p); [done|].
    unfold _check_within_workspace. by rewrite Hout.
  - unfold EditFileTool.execute.
    destruct (_check_absolute_path p); [done|].
    unfold _check_within_workspace. by rewrite Hout.
Qed.

End FileToolExtras.

(** * Characters outside ASCII *)

(** What Python counts in characters is counted in characters: "é" is one
    character of two bytes, a tab after it expands to seven spaces,
    replacing the empty string puts the new text around the character, and
    the empty string occurs once more than there are characters. *)
Lemma characters_are_not_bytes :
  Py.len "é" = 1 ∧ Py.len_bytes "é" = 2 ∧
  Py.expandtabs ("é" +:+ String Py.tab "x") = "é       x" ∧
  Py.replace "é" "" "X" None = "XéX" ∧
  Py.replace "é→" "" "X" (Some 2%nat) = "XéX→" ∧
  Py.count "é→" "" = 3%nat ∧
  FileSystemToolMixin._find_occurrence_lines "é" "" = [1; 1].
Proof. repeat split; vm_compute; reflexivity. Qed.

(** A content of 33400 arrows has 100200 bytes and is estimated at 8350
    tokens, which [write_file] and [edit_file] accept. *)
Lemma chars_concat_replicate (s : string) (n : nat) :
  Py.chars (Py.concat (replicate n s)) = (n * Py.chars s)%nat.
Proof.
  assert (∀ a b, Py.chars (a +:+ b) = (Py.chars a + Py.chars b)%nat) as Happ.
  { intros a b. induction a as [|c a IH]; simpl; [done|].
    change (String.app a b) with (a +:+ b). rewrite IH. lia. }
  induction n as [|n IH]; simpl; [done|].
  unfold Py.concat in *. simpl. rewrite Happ, IH. done.
Qed.

Lemma estimate_tokens_of_arrows :
  FileSystemToolMixin._estimate_tokens (Py.concat (replicate (334 * 100) "→")) = 8350 ∧
  FileSystemToolMixin._check_token_limit (Py.concat (replicate (334 * 100) "→"))
    FileSystemToolMixin.MAX_TOKENS = None.
Proof.
  assert (FileSystemToolMixin._estimate_tokens
            (Py.concat (replicate (334 * 100) "→")) = 8350) as H.
  { unfold FileSystemToolMixin._estimate_tokens, Py.len.
    rewrite chars_concat_replicate. reflexivity. }
  split; [exact H|].
  unfold FileSystemToolMixin._check_token_limit. rewrite H. reflexivity.
Qed.

(** * Further properties of [edit_file] *)

Section EditFileExtras.
Context (os : OS) (workspace_root : string).
Import FileSystemToolMixin.

Lemma count_char_app (c : ascii) (s1 s2 : string) :
  Py.count_char c (s1 +:+ s2) = (Py.count_char c s1 + Py.count_char c s2)%nat.
Proof.
  induction s1 as [|d s1 IH]; simpl; [done|].
  change (String.app s1 s2) with (s1 +:+ s2). rewrite IH. lia.
Qed.

Lemma count_char_repeat_other (c d : ascii) (n : nat) :
  c ≠ d → Py.count_char c (Py.repeat_char d n) = 0%nat.
Proof.
  intros Hcd. induction n as [|n IH]; simpl; [done|].
  by destruct (decide (c = d)).
Qed.

(** [expandtabs] leaves no tab. *)
Lemma expandtabs_aux_no_tab (s : string) (col : nat) :
  Py.count_char Py.tab (Py.expandtabs_aux s col) = 0%nat.
Proof.
  revert col. induction s as [|c s IH]; intros col; simpl; [done|].
  destruct (decide (c = Py.tab)) as [->|Hc].
  - rewrite count_char_app, IH, count_char_repeat_other; done.
  - destruct (bool_decide _); [|destruct (Py.is_continuation c)]; simpl;
      (destruct (decide (Py.tab = c)); [congruence|]); by rewrite IH.
Qed.

Lemma replace_aux_no_tab (old new s : string) (skip : nat)
    (limit : option nat) :
  Py.count_char Py.tab new = 0%nat →
  Py.count_char Py.tab s = 0%nat →
  Py.count_char Py.tab (Py.replace_aux old new s skip limit) = 0%nat.
Proof.
  intros Hn. revert skip limit.
  induction s as [|c s IH]; intros skip limit Hs; simpl in *; [done|].
  destruct (decide (Py.tab = c)) as [|Hc]; [done|]. simpl in Hs.
  destruct skip; [|by apply IH].
  destruct (_ && _).
  - rewrite count_char_app, Hn. by apply IH.
  - simpl. destruct (decide (Py.tab = c)); [done|]. by apply IH.
Qed.

Lemma replace_empty_no_tab (new s : string) (limit : option nat) :
  Py.count_char Py.tab new = 0%nat →
  Py.count_char Py.tab s = 0%nat →
  Py.count_char Py.tab (Py.replace_empty new s limit) = 0%nat.
Proof.
  intros Hn. revert limit.
  induction s as [|c s IH]; intros limit Hs; simpl in *.
  - by destruct (Py.limit_open limit).
  - destruct (decide (Py.tab = c)) as [|Hc]; [done|]. simpl in Hs.
    destruct (Py.limit_open limit); [destruct (Py.is_continuation c)|]; simpl.
    + destruct (decide (Py.tab = c)); [done|]. by apply IH.
    + rewrite count_char_app, Hn. simpl.
      destruct (decide (Py.tab = c)); [done|]. by apply IH.
    + destruct (decide (Py.tab = c)); [done|]. done.
Qed.

Lemma replace_no_tab (s old new : string) (limit : option nat) :
  Py.count_char Py.tab new = 0%nat →
  Py.count_char Py.tab s = 0%nat →
  Py.count_char Py.tab (Py.replace s old new limit) = 0%nat.
Proof.
  intros Hn Hs. unfold Py.replace.
  destruct old; [by apply replace_empty_no_tab|by apply replace_aux_no_tab].
Qed.

(** X8.  A successful [edit_file] rewrites the whole file without tabs: the
    text it has stored (in the encoding the file was read with) contains no
    tab character, since the file content and both strings go through
    [expandtabs] before the replacement. *)
Theorem X8_edit_file_leaves_no_tab (tracker : option (gset string))
    (fs : gmap string node) (p old new : string) (all : bool) :
  is_error (EditFileTool.execute os workspace_root tracker fs p old new all).1
  = false →
  let fs' := (EditFileTool.execute os workspace_root tracker fs p old new all).2 in
  ∃ text encoding b readable,
    encode os encoding text = Some b ∧
    fs' !! _resolve_path os p = Some (File b readable true) ∧
    Py.count_char Py.tab text = 0%nat.
Proof.
  unfold EditFileTool.execute.
  destruct (_check_absolute_path p); [done|].
  destruct (_check_within_workspace _ _); [done|].
  destruct (negb (Fs.exists_ _ _)); [done|].
  destruct (negb (Fs.is_file _ _)); [done|].
  destruct (EditFileTool.unread _ _ _); [done|].
  destruct (_read_with_encoding_fallback _ _ _) as [[]|[c0 enc]]; try done.
  destruct (bool_decide (Py.expandtabs old = Py.expandtabs new)); [done|].
  destruct (bool_decide (Py.count _ _ = 0%nat)); [done|].
  destruct (_ && negb all); [done|].
  set (text := if all then _ else _).
  assert (Py.count_char Py.tab text = 0%nat) as Htab.
  { subst text. destruct all; apply replace_no_tab;
      apply expandtabs_aux_no_tab. }
  destruct (_check_token_limit text MAX_TOKENS); [done|].
  unfold Fs.write_text, Fs.open_w.
  set (q := _resolve_path os p).
  destruct (fs !! q) as [[b0 r [|]|]|] eqn:E; simpl; try done.
  - destruct (encode os enc text) as [b|] eqn:Hb; simpl; [|done].
    intros _. exists text, enc, b, r. split; [done|]. split; [|done].
    repeat case_match; simpl; unfold Fs.set_bytes; rewrite lookup_insert_eq;
      by rewrite lookup_insert_eq.
  - destruct (encode os enc text) as [b|] eqn:Hb; simpl; [|done].
    intros _. exists text, enc, b, true. split; [done|]. split; [|done].
    repeat case_match; simpl; unfold Fs.set_bytes; rewrite lookup_insert_eq;
      by rewrite lookup_insert_eq.
Qed.

(** X9.  An error result of [edit_file] does not always mean that nothing
    was written.  With an empty [old_string], a [new_string] that is not
    empty and [replace_all], on a file that passes the checks and may be
    written, the new text ([new_string] before every character and at the
    end) is stored, and then the search for the place of the replacement
    splits on the empty string: the call returns the error
    "empty separator". *)
Theorem X9_edit_file_empty_old_string_writes_then_fails
    (tracker : option (gset string)) (fs : gmap string node)
    (p new b0 c0 encoding b : string) (readable : bool) :
  is_absolute p = true →
  relative_to_ok workspace_root (_resolve_path os p) = true →
  fs !! _resolve_path os p = Some (File b0 readable true) →
  EditFileTool.unread os tracker (_resolve_path os p) = false →
  _read_with_encoding_fallback os fs (_resolve_path os p)
  = inr (c0, encoding) →
  Py.expandtabs new ≠ "" →
  _check_token_limit
    (Py.replace (Py.expandtabs c0) "" (Py.expandtabs new) None) MAX_TOKENS
  = None →
  encode os encoding
    (Py.replace (Py.expandtabs c0) "" (Py.expandtabs new) None) = Some b →
  EditFileTool.execute os workspace_root tracker fs p "" new true
  = (_create_error_result ("Unexpected error editing file: " +:+ p)
       "Error: empty separator",
     <[_resolve_path os p := File b readable true]> fs).
Proof.
  intros Ha Hw Hf Hu Hr Hn Ht He. unfold EditFileTool.execute.
  unfold _check_absolute_path, _check_within_workspace. rewrite Ha, Hw. simpl.
  unfold Fs.exists_, Fs.is_file. rewrite Hf. simpl.
  rewrite Hu, Hr.
  change (Py.expandtabs "") with "".
  rewrite (bool_decide_eq_false_2 ("" = Py.expandtabs new)) by done.
  rewrite andb_false_r. unfold Py.replace in Ht, He. rewrite Ht.
  unfold Fs.write_text, Fs.open_w. rewrite Hf, He. simpl.
  unfold Fs.set_bytes. rewrite lookup_insert_eq.
  by rewrite insert_insert_eq.
Qed.

(** X10.  Whatever it returns, [edit_file] leaves every entry of the file
    system other than its resolved target as it is, and it neither creates
    nor removes an entry. *)
Theorem X10_edit_file_touches_only_its_target
    (tracker : option (gset string)) (fs : gmap string node)
    (p old new q : string) (all : bool) :
  let fs' := (EditFileTool.execute os workspace_root tracker fs p old new all).2 in
  (q = _resolve_path os p ∨ fs' !! q = fs !! q) ∧
  (is_Some (fs' !! q) ↔ is_Some (fs !! q)).
Proof.
  unfold EditFileTool.execute.
  destruct (_check_absolute_path p); [by split; [right|]|].
  destruct (_check_within_workspace _ _); [by split; [right|]|].
  destruct (negb (Fs.exists_ _ _)); [by split; [right|]|].
  destruct (Fs.is_file fs (_resolve_path os p)) eqn:Hf;
    [|by split; [right|]]. simpl.
  destruct (EditFileTool.unread _ _ _); [by split; [right|]|].
  destruct (_read_with_encoding_fallback _ _ _) as [[]|[c0 enc]];
    try by split; [right|].
  destruct (bool_decide (Py.expandtabs old = Py.expandtabs new));
    [by split; [right|]|].
  destruct (bool_decide (Py.count _ _ = 0%nat)); [by split; [right|]|].
  destruct (_ && negb all); [by split; [right|]|].
  set (text := if all then _ else _).
  destruct (_check_token_limit text MAX_TOKENS); [by split; [right|]|].
  assert (∀ fs1, fs1 = (Fs.write_text os fs (_resolve_path os p) enc text).2 →
            (q = _resolve_path os p ∨ fs1 !! q = fs !! q) ∧
            (is_Some (fs1 !! q) ↔ is_Some (fs !! q))) as Hw.
  { intros fs1 ->. destruct (decide (q = _resolve_path os p)) as [->|Hq].
    - split; [by left|]. unfold Fs.is_file in Hf.
      unfold Fs.write_text, Fs.open_w, Fs.set_bytes.
      destruct (fs !! _resolve_path os p) as [[b0 r [|]|]|] eqn:E; try done.
      destruct (encode os enc text); simpl; rewrite ?lookup_insert_eq;
        rewrite ?lookup_insert_eq; done.
    - rewrite write_text_lookup by done. by split; [right|]. }
  destruct (Fs.write_text os fs _ _ _) as [[e|] fs1]; simpl in *;
    [by apply Hw|].
  repeat case_match; simpl; by apply Hw.
Qed.

End EditFileExtras.

(** * Further properties of [read_file] *)

Section ReadFileExtras.
Context (os : OS) (workspace_root : string).
Import FileSystemToolMixin.

(** X11.  [read_file] takes a [start_line] of 0 for line 1: with the same
    [end_line] the two calls return the same result and tracker, except on
    a file without lines, where both are refused and the message names the
    number given. *)
Theorem X11_read_file_start_line_zero_is_one
    (tracker : option (gset string)) (fs : gmap string node) (p : string)
    (e : option Z) :
  let r0 := ReadFileTool.execute os workspace_root tracker fs p (Some 0) e in
  let r1 := ReadFileTool.execute os workspace_root tracker fs p (Some 1) e in
  r0 = r1 ∨
  (r0 = (mkToolResult "Error: Invalid start_line 0 (file has 0 lines)"
           (Some "❌ Invalid start_line 0 (file has 0 lines)"), tracker) ∧
   r1 = (mkToolResult "Error: Invalid start_line 1 (file has 0 lines)"
           (Some "❌ Invalid start_line 1 (file has 0 lines)"), tracker)).
Proof.
  unfold ReadFileTool.execute.
  destruct (_check_absolute_path p); [by left|].
  destruct (_check_within_workspace _ _); [by left|].
  destruct (negb (Fs.exists_ _ _)); [by left|].
  destruct (negb (Fs.is_file _ _)); [by left|].
  simpl.
  destruct (ReadFileTool._check_file_size _ _ _); [by left|].
  destruct (_read_with_encoding_fallback _ _ _) as [[]|[c enc]];
    try by left.
  destruct (length (Py.splitlines c)) as [|n] eqn:Hn.
  - right. simpl. done.
  - left. rewrite bool_decide_eq_false_2 by lia. reflexivity.
Qed.

(** X12.  A [read_file] without range of a file of more than 1000 lines
    shows the first 1000 and says so, and it still marks the path as read:
    the tracker does not tell a partial read from a full one. *)
Theorem X12_truncated_read_marks_the_file (tracker : option (gset string))
    (fs : gmap string node) (p b c encoding : string) (writable : bool) :
  is_absolute p = true →
  relative_to_ok workspace_root (resolve os p) = true →
  fs !! resolve os p = Some (File b true writable) →
  Py.len_bytes b <= MAX_FILE_SIZE_BYTES →
  _read_with_encoding_fallback os fs (resolve os p) = inr (c, encoding) →
  (1000 < length (Py.splitlines c))%nat →
  _check_token_limit (Py.concat (take 1000 (Py.splitlines c))) MAX_TOKENS
  = None →
  let r := ReadFileTool.execute os workspace_root tracker fs p None None in
  is_error r.1 = false ∧
  display r.1
  = "✓ Read lines 1-1000 (1000/" +:+
    Py.str_int (Z.of_nat (length (Py.splitlines c))) +:+ " lines)" ∧
  r.2 = ReadFileTool.marked os tracker (resolve os p).
Proof.
  intros Ha Hw Hf Hsz Hr Hn Ht. unfold ReadFileTool.execute.
  unfold _check_absolute_path, _check_within_workspace. rewrite Ha, Hw. simpl.
  unfold Fs.exists_, Fs.is_file. rewrite Hf. simpl.
  unfold ReadFileTool._check_file_size, Fs.st_size. rewrite Hf.
  rewrite (bool_decide_eq_false_2 (Py.len_bytes b > MAX_FILE_SIZE_BYTES)) by lia.
  simpl. rewrite Hr.
  set (n := Z.of_nat (length (Py.splitlines c))).
  assert (1000 < n) as Hn' by lia.
  unfold ReadFileTool.DEFAULT_MAX_LINES.
  rewrite (Z.min_l (0 + 1000) n) by lia.
  rewrite (bool_decide_eq_false_2 (0 < 0 ∨ 0 >= n)) by lia.
  rewrite (bool_decide_eq_false_2 (0 + 1000 < 0)) by lia.
  rewrite (bool_decide_eq_true_2 (0 + 1000 < n)) by lia.
  assert (Py.slice (Py.splitlines c) (Z.to_nat 0) (Z.to_nat (0 + 1000))
          = take 1000 (Py.splitlines c)) as -> by reflexivity.
  rewrite Ht.
  assert (length (take 1000 (Py.splitlines c)) = 1000%nat) as Hl
    by (rewrite length_take; lia).
  rewrite Hl. simpl. split; [|split; [|done]].
  - unfold is_error. simpl. apply andb_false_r.
  - reflexivity.
Qed.

(** X13.  Without a range, [read_file] refuses a file of more than 256 KB
    and does not mark it; with a [start_line] or an [end_line] the size is
    not looked at. *)
Theorem X13_read_file_refuses_large_files (tracker : option (gset string))
    (fs : gmap string node) (p b : string) (readable writable : bool) :
  is_absolute p = true →
  relative_to_ok workspace_root (resolve os p) = true →
  fs !! resolve os p = Some (File b readable writable) →
  Py.len_bytes b > MAX_FILE_SIZE_BYTES →
  let r := ReadFileTool.execute os workspace_root tracker fs p None None in
  is_error r.1 = true ∧
  display r.1 = "❌ File too large (>256KB)" ∧
  r.2 = tracker ∧
  ReadFileTool._check_file_size fs (resolve os p) true = None.
Proof.
  intros Ha Hw Hf Hsz. unfold ReadFileTool.execute.
  unfold _check_absolute_path, _check_within_workspace. rewrite Ha, Hw. simpl.
  unfold Fs.exists_, Fs.is_file. rewrite Hf. simpl.
  unfold ReadFileTool._check_file_size, Fs.st_size. rewrite Hf.
  rewrite bool_decide_eq_true_2 by done. simpl. done.
Qed.

End ReadFileExtras.

(** *** Closed instances *)

Import FileSystemToolMixin.

(** X3 at work: [/ws/a.txt] is read and then edited. *)
Lemma X3_edit_after_successful_read_witness :
  expanduser sample_os "/ws/a.txt" = "/ws/a.txt" ∧
  is_error (Session.step sample_os "/ws" sample_session
              (Session.read_file "/ws/a.txt" None None)).1 = false ∧
  EditFileTool.execute sample_os "/ws"
    (Session.read_tracker
       (Session.step sample_os "/ws" sample_session
          (Session.read_file "/ws/a.txt" None None)).2)
    sample_fs "/ws/a.txt" "hello" "bye" false
  = EditFileTool.execute sample_os "/ws" None sample_fs "/ws/a.txt"
      "hello" "bye" false.
Proof.
  assert (H1 : expanduser sample_os "/ws/a.txt" = "/ws/a.txt") by reflexivity.
  assert (H2 : is_error (Session.step sample_os "/ws" sample_session
                           (Session.read_file "/ws/a.txt" None None)).1
               = false) by (vm_compute; reflexivity).
  split; [exact H1|]. split; [exact H2|].
  exact (X3_edit_after_successful_read sample_os "/ws" sample_session
           "/ws/a.txt" None None "hello" "bye" false H1 H2).
Defined.

(** X5 at work: a new file is written and read back. *)
Lemma X5_write_file_stores_the_content_witness :
  is_error (WriteFileTool.execute sample_os "/ws" sample_fs "/ws/new.txt"
              "one").1 = false ∧
  ∃ b readable,
    encode sample_os "utf-8" "one" = Some b ∧
    (WriteFileTool.execute sample_os "/ws" sample_fs "/ws/new.txt" "one").2
      !! _resolve_path sample_os "/ws/new.txt"
    = Some (File b readable true) ∧
    (readable = true → decode sample_os "utf-8" None b = Some "one" →
     _read_with_encoding_fallback sample_os
       (WriteFileTool.execute sample_os "/ws" sample_fs "/ws/new.txt" "one").2
       (_resolve_path sample_os "/ws/new.txt")
     = inr (Py.universal_newlines "one", "utf-8")).
Proof.
  assert (H : is_error (WriteFileTool.execute sample_os "/ws" sample_fs
                          "/ws/new.txt" "one").1 = false)
    by (vm_compute; reflexivity).
  split; [exact H|].
  exact (X5_write_file_stores_the_content sample_os "/ws" sample_fs
           "/ws/new.txt" "one" H).
Defined.

Lemma repeat_char_length (c : ascii) (n : nat) :
  String.length (Py.repeat_char c n) = n.
Proof. induction n as [|n IH]; simpl; [done|by rewrite IH]. Qed.

Lemma repeat_char_chars (c : ascii) (n : nat) :
  Py.is_continuation c = false → Py.chars (Py.repeat_char c n) = n.
Proof. intros Hc. induction n as [|n IH]; simpl; [done|by rewrite Hc, IH]. Qed.

(** X6 at work on a content of 100400 characters. *)
Lemma X6_write_file_refuses_oversize_content_witness :
  _estimate_tokens sample_big_text > MAX_TOKENS ∧
  is_error (WriteFileTool.execute sample_os "/ws" sample_fs "/ws/new.txt"
              sample_big_text).1 = true ∧
  (WriteFileTool.execute sample_os "/ws" sample_fs "/ws/new.txt"
     sample_big_text).2 = sample_fs.
Proof.
  assert (H : _estimate_tokens sample_big_text > MAX_TOKENS).
  { unfold _estimate_tokens, Py.len, sample_big_text, MAX_TOKENS.
    rewrite repeat_char_chars by reflexivity. vm_compute. reflexivity. }
  split; [exact H|].
  exact (X6_write_file_refuses_oversize_content sample_os "/ws" sample_fs
           "/ws/new.txt" sample_big_text H).
Defined.

(** X7 at work: a write to [/etc/passwd] from the workspace [/ws]. *)
Lemma X7_outside_workspace_is_refused_witness :
  relative_to_ok "/ws"
    (call_target sample_os (Session.write_file "/etc/passwd" "x")) = false ∧
  is_error (Session.step sample_os "/ws" sample_session
              (Session.write_file "/etc/passwd" "x")).1 = true ∧
  (Session.step sample_os "/ws" sample_session
     (Session.write_file "/etc/passwd" "x")).2 = sample_session.
Proof.
  assert (H : relative_to_ok "/ws"
                (call_target sample_os (Session.write_file "/etc/passwd" "x"))
              = false) by (vm_compute; reflexivity).
  split; [exact H|].
  exact (X7_outside_workspace_is_refused sample_os "/ws" sample_session
           (Session.write_file "/etc/passwd" "x") H).
Defined.

(** X8 at work: [/ws/tab.txt] holds "é", a tab and "b"; a tool without
    tracker replaces the "b" by "c", and the file is stored with seven
    spaces for the tab. *)
Lemma X8_edit_file_leaves_no_tab_witness :
  is_error (EditFileTool.execute sample_os "/ws" None sample_tab_fs
              "/ws/tab.txt" "b" "c" false).1 = false ∧
  (EditFileTool.execute sample_os "/ws" None sample_tab_fs
     "/ws/tab.txt" "b" "c" false).2 !! "/ws/tab.txt"
  = Some (File "é       c" true true) ∧
  ∃ text encoding b readable,
    encode sample_os encoding text = Some b ∧
    (EditFileTool.execute sample_os "/ws" None sample_tab_fs "/ws/tab.txt"
       "b" "c" false).2 !! _resolve_path sample_os "/ws/tab.txt"
    = Some (File b readable true) ∧
    Py.count_char Py.tab text = 0%nat.
Proof.
  assert (H : is_error (EditFileTool.execute sample_os "/ws" None sample_tab_fs
                          "/ws/tab.txt" "b" "c" false).1 = false)
    by (vm_compute; reflexivity).
  split; [exact H|]. split; [vm_compute; reflexivity|].
  exact (X8_edit_file_leaves_no_tab sample_os "/ws" None sample_tab_fs
           "/ws/tab.txt" "b" "c" false H).
Defined.

(** X9 at work: [/ws/tab.txt] holds "é", a tab and "b"; the edit stores
    the text with an X before every character and at the end, the tab
    expanded, and returns the error. *)
Lemma X9_edit_file_empty_old_string_writes_then_fails_witness :
  Py.replace (Py.expandtabs ("é" +:+ String Py.tab "b")) ""
    (Py.expandtabs "X") None
  = "XéX X X X X X X XbX" ∧
  EditFileTool.execute sample_os "/ws" None sample_tab_fs "/ws/tab.txt" "" "X"
    true
  = (_create_error_result "Unexpected error editing file: /ws/tab.txt"
       "Error: empty separator",
     <["/ws/tab.txt" := File "XéX X X X X X X XbX" true true]> sample_tab_fs).
Proof.
  split; [vm_compute; reflexivity|].
  apply (X9_edit_file_empty_old_string_writes_then_fails sample_os "/ws" None
           sample_tab_fs "/ws/tab.txt" "X" ("é" +:+ String Py.tab "b")
           ("é" +:+ String Py.tab "b") "utf-8" "XéX X X X X X X XbX" true).
  all: vm_compute; (reflexivity || discriminate).
Defined.

(** X12 at work on a file of 1001 empty lines. *)
Lemma X12_truncated_read_marks_the_file_witness :
  (1000 < length (Py.splitlines (Py.repeat_char Py.newline 1001)))%nat ∧
  is_error (ReadFileTool.execute sample_os "/ws" (Some ∅) sample_long_fs
              "/ws/long.txt" None None).1 = false ∧
  (ReadFileTool.execute sample_os "/ws" (Some ∅) sample_long_fs
     "/ws/long.txt" None None).2
  = Some {[ "/ws/long.txt" ]}.
Proof.
  assert (Hn : (1000 < length (Py.splitlines
                                 (Py.repeat_char Py.newline 1001)))%nat)
    by (vm_compute; lia).
  split; [exact Hn|].
  destruct (X12_truncated_read_marks_the_file sample_os "/ws" (Some ∅)
              sample_long_fs "/ws/long.txt" (Py.repeat_char Py.newline 1001)
              (Py.repeat_char Py.newline 1001) "utf-8" true)
    as (He & _ & Ht);
    [vm_compute; reflexivity | vm_compute; reflexivity
    |vm_compute; reflexivity | vm_compute; discriminate
    |vm_compute; reflexivity | exact Hn | vm_compute; reflexivity |].
  split; [exact He|]. rewrite Ht. vm_compute. reflexivity.
Defined.

(** X13 at work on a file of 263000 bytes. *)
Lemma X13_read_file_refuses_large_files_witness :
  Py.len_bytes sample_big_bytes > MAX_FILE_SIZE_BYTES ∧
  is_error (ReadFileTool.execute sample_os "/ws" (Some ∅) sample_big_fs
              "/ws/big.bin" None None).1 = true ∧
  (ReadFileTool.execute sample_os "/ws" (Some ∅) sample_big_fs
     "/ws/big.bin" None None).2 = Some ∅.
Proof.
  assert (Hs : Py.len_bytes sample_big_bytes > MAX_FILE_SIZE_BYTES).
  { unfold Py.len_bytes, sample_big_bytes, MAX_FILE_SIZE_BYTES.
    rewrite repeat_char_length. vm_compute. reflexivity. }
  assert (Hf : sample_big_fs !! resolve sample_os "/ws/big.bin"
               = Some (File sample_big_bytes true true))
    by apply lookup_insert_eq.
  split; [exact Hs|].
  destruct (X13_read_file_refuses_large_files sample_os "/ws" (Some ∅)
              sample_big_fs "/ws/big.bin" sample_big_bytes true true
              eq_refl eq_refl Hf Hs) as (He & _ & Ht & _).
  split; [exact He|exact Ht].
Defined.

(** * Further properties of the tool executor *)

Section ToolExecutorExtras.
Context (h : Host).
Import ContextEngine ToolExecutor.

(** The tool message [add_tool_result] appends. *)
Lemma add_tool_result_messages (ctx : ContextEngine.t h)
    (id result : string) (name : option string) (args : option (J h))
    (success : bool) (duration : option (D h)) :
  _messages (add_tool_result h ctx id result name args success duration)
  = _messages ctx ++ [tool_message id result].
Proof. unfold add_tool_result. by destruct (_trajectory_writer ctx). Qed.

Local Ltac msgs :=
  first [ reflexivity
        | apply add_tool_result_messages
        | unfold add_tool_result; simpl;
          match goal with
          | |- context [_trajectory_writer ?c] =>
              by destruct (_trajectory_writer c)
          end ].

(** X14.  A tool call that names an unknown tool, or whose arguments
    parse, is answered by exactly one tool message: whether the tool is
    missing, the user rejects the call, the tool returns or it raises, no
    exception leaves [execute_tool_call], the ledger grows by one tool
    message that carries the id of the call, and the last event is the
    [tool_done] with the same result. *)
Theorem X14_answered_call_gets_one_tool_message (self : ToolExecutor.t h)
    (ctx : ContextEngine.t h) (w : W h) (tool_call : ToolCall.t)
    (session_id tool_name : string) :
  ToolCall.function tool_call !! "name" = Some tool_name →
  tool_registry self !! tool_name = None ∨
  (∃ raw arguments,
     ToolCall.function tool_call !! "arguments" = Some raw ∧
     json_loads h raw = inr arguments) →
  let r := execute_tool_call h self ctx w tool_call session_id in
  raised r = None ∧
  ∃ result display confirmed arguments,
    _messages (engine r)
    = _messages ctx ++ [tool_message (ToolCall.id tool_call) result] ∧
    last (events r)
    = Some (tool_done (ToolCall.id tool_call) tool_name result display
              confirmed arguments session_id).
Proof.
  intros Hn Hcase. unfold execute_tool_call. rewrite Hn.
  destruct (tool_registry self !! tool_name) as [tool|] eqn:Ht.
  2:{ simpl. split; [done|]. eexists _, _, _, _.
      split; [msgs|done]. }
  destruct Hcase as [|(raw & arguments & Hraw & Hargs)]; [done|].
  rewrite Hraw, Hargs.
  destruct (requires_confirmation tool && negb (yolo_mode self)).
  - destruct (_get_user_confirmation h self w tool_name _ arguments)
      as [[|] w1]; simpl.
    + unfold _execute_and_record.
      destruct (execute_tool h self tool w1 tool_name arguments session_id)
        as [[[res ok] err] w2]. simpl. split; [done|].
      eexists _, _, _, _. split; [msgs|done].
    + split; [done|]. eexists _, _, _, _.
      split; [msgs|done].
  - simpl. unfold _execute_and_record.
    destruct (execute_tool h self tool w tool_name arguments session_id)
      as [[[res ok] err] w2]. simpl. split; [done|].
    eexists _, _, _, _. split; [msgs|done].
Qed.

(** X15.  A tool that requires confirmation is not run without it: outside
    YOLO mode, when the confirmation is refused (or no callback is set,
    which counts as a refusal), the call yields the confirmation request and
    a [tool_done] with [confirmed = false], records the rejection as a
    failed tool result, and leaves the world as the callback left it and
    the metrics as they were. *)
Theorem X15_unconfirmed_tool_is_not_run (self : ToolExecutor.t h)
    (ctx : ContextEngine.t h) (w : W h) (tool_call : ToolCall.t)
    (session_id tool_name raw : string) (arguments : J h) (tool : @Tool h) :
  ToolCall.function tool_call !! "name" = Some tool_name →
  tool_registry self !! tool_name = Some tool →
  ToolCall.function tool_call !! "arguments" = Some raw →
  json_loads h raw = inr arguments →
  requires_confirmation tool = true →
  yolo_mode self = false →
  (_get_user_confirmation h self w tool_name (ToolCall.id tool_call)
     arguments).1 = false →
  let r := execute_tool_call h self ctx w tool_call session_id in
  events r
  = [tool_confirmation_required (ToolCall.id tool_call) tool_name arguments
       session_id;
     tool_done (ToolCall.id tool_call) tool_name
       ("Tool execution rejected by user: " +:+ tool_name) None false
       (Some arguments) session_id] ∧
  engine r
  = add_tool_result h ctx (ToolCall.id tool_call)
      ("Tool execution rejected by user: " +:+ tool_name) (Some tool_name)
      (Some arguments) false None ∧
  world r
  = (_get_user_confirmation h self w tool_name (ToolCall.id tool_call)
       arguments).2 ∧
  metrics_collector (executor r) = metrics_collector self ∧
  (confirmation_callback self = None → world r = w).
Proof.
  intros Hn Ht Hraw Hargs Hc Hy Hno. unfold execute_tool_call.
  rewrite Hn, Ht, Hraw, Hargs, Hc, Hy. simpl.
  revert Hno. unfold _get_user_confirmation.
  destruct (confirmation_callback self) as [cb|]; simpl.
  - destruct (cb tool_name (ToolCall.id tool_call) arguments w) as [ok w1].
    simpl. intros ->. simpl. done.
  - done.
Qed.

(** X16.  In YOLO mode, and for a tool that requires no confirmation, the
    callback is not consulted: a call whose arguments parse is run at once,
    and its events are the [tool_start] and the [tool_done] with
    [confirmed = true]. *)
Theorem X16_yolo_runs_without_asking (self : ToolExecutor.t h)
    (ctx : ContextEngine.t h) (w : W h) (tool_call : ToolCall.t)
    (session_id tool_name raw : string) (arguments : J h) (tool : @Tool h) :
  ToolCall.function tool_call !! "name" = Some tool_name →
  tool_registry self !! tool_name = Some tool →
  ToolCall.function tool_call !! "arguments" = Some raw →
  json_loads h raw = inr arguments →
  requires_confirmation tool = false ∨ yolo_mode self = true →
  let r := execute_tool_call h self ctx w tool_call session_id in
  let out := execute_tool h self tool w tool_name arguments session_id in
  events r
  = [tool_start (ToolCall.id tool_call) tool_name arguments session_id;
     tool_done (ToolCall.id tool_call) tool_name (content out.1.1.1)
       (Some (display out.1.1.1)) true (Some arguments) session_id] ∧
  world r = out.2.
Proof.
  intros Hn Ht Hraw Hargs Hor. unfold execute_tool_call.
  rewrite Hn, Ht, Hraw, Hargs.
  assert (requires_confirmation tool && negb (yolo_mode self) = false) as ->.
  { destruct Hor as [->| ->]; [done|]. apply andb_false_r. }
  simpl. unfold _execute_and_record.
  by destruct (execute_tool h self tool w tool_name arguments session_id)
    as [[[res ok] err] w2].
Qed.

End ToolExecutorExtras.

(** * Further properties of the context engine *)

Section ContextEngineExtras.
Context (h : Host).
Import ContextEngine.


Lemma add_user_message_matches (self : t h) (c : MessageContent) :
  prompt_id_matches_counter (add_user_message h self c).
Proof.
  unfold prompt_id_matches_counter, add_user_message.
  by destruct (_trajectory_writer self).
Qed.

Lemma add_assistant_message_matches (self : t h) (r : LLMResponse.t)
    (it : option Z) :
  prompt_id_matches_counter self →
  prompt_id_matches_counter (add_assistant_message h self r it).
Proof.
  unfold prompt_id_matches_counter, add_assistant_message.
  by destruct (_trajectory_writer self).
Qed.

Lemma add_tool_result_matches (self : t h) (id result : string)
    (name : option string) (args : option (J h)) (ok : bool)
    (d : option (D h)) :
  prompt_id_matches_counter self →
  prompt_id_matches_counter (add_tool_result h self id result name args ok d).
Proof.
  unfold prompt_id_matches_counter, add_tool_result.
  by destruct (_trajectory_writer self).
Qed.

Lemma sanitize_matches (self : t h) (id name err : string) :
  prompt_id_matches_counter self →
  prompt_id_matches_counter (sanitize_invalid_tool_call h self id name err).2.
Proof.
  intros Hinv. unfold sanitize_invalid_tool_call.
  repeat case_match; simpl; try done.
  all: unfold prompt_id_matches_counter; simpl;
    by destruct (_trajectory_writer self).
Qed.

End ContextEngineExtras.

(** * Further properties of the agent loop *)

Section AgentLoopExtras.
Context (h : Host).
Import AgentLoop.

Lemma execute_tool_call_matches (self : ToolExecutor.t h)
    (ctx : ContextEngine.t h) (w : W h) (tc : ToolCall.t) (sid : string) :
  prompt_id_matches_counter ctx →
  prompt_id_matches_counter
    (ToolExecutor.engine (ToolExecutor.execute_tool_call h self ctx w tc sid)).
Proof.
  intros Hinv. unfold ToolExecutor.execute_tool_call.
  destruct (ToolCall.function tc !! "name") as [name|]; [|done].
  destruct (ToolExecutor.tool_registry self !! name) as [tool|];
    [|by apply add_tool_result_matches].
  destruct (ToolCall.function tc !! "arguments") as [raw|]; [|done].
  destruct (json_loads h raw) as [e|args].
  { unfold ToolExecutor._handle_invalid_arguments.
    pose proof (sanitize_matches h ctx (ToolCall.id tc) name e Hinv) as Hs.
    by destruct (ContextEngine.sanitize_invalid_tool_call h ctx _ _ _)
      as [[x|] ctx']. }
  destruct (_ && _).
  - destruct (ToolExecutor._get_user_confirmation h self w name _ args)
      as [[|] w1]; simpl.
    + unfold ToolExecutor._execute_and_record.
      destruct (ToolExecutor.execute_tool h self tool w1 name args sid)
        as [[[res ok] err] w2]. simpl. by apply add_tool_result_matches.
    + by apply add_tool_result_matches.
  - simpl. unfold ToolExecutor._execute_and_record.
    destruct (ToolExecutor.execute_tool h self tool w name args sid)
      as [[[res ok] err] w2]. simpl. by apply add_tool_result_matches.
Qed.

Lemma execute_tool_calls_matches (st : state h) (calls : list ToolCall.t)
    (sid : string) :
  prompt_id_matches_counter (context_engine st) →
  prompt_id_matches_counter
    (context_engine (execute_tool_calls h st calls sid).1.2).
Proof.
  revert st. induction calls as [|c calls IH]; intros st Hinv; simpl; [done|].
  pose proof (execute_tool_call_matches (tool_executor st) (context_engine st)
                (world st) c sid Hinv) as H1.
  destruct (ToolExecutor.raised _); simpl; [done|].
  specialize (IH {| context_engine := ToolExecutor.engine
                      (ToolExecutor.execute_tool_call h (tool_executor st)
                         (context_engine st) (world st) c sid);
                    tool_executor := ToolExecutor.executor
                      (ToolExecutor.execute_tool_call h (tool_executor st)
                         (context_engine st) (world st) c sid);
                    world := ToolExecutor.world
                      (ToolExecutor.execute_tool_call h (tool_executor st)
                         (context_engine st) (world st) c sid) |} H1).
  by destruct (execute_tool_calls h _ calls sid) as [[evs st'] e].
Qed.

Lemma loop_matches (fuel : nat) (self : t h) (stream : bool) (it : Z)
    (st : state h) :
  prompt_id_matches_counter (context_engine st) →
  prompt_id_matches_counter
    (context_engine (final_state (loop h fuel self stream it st))).
Proof.
  revert it st. induction fuel as [|fuel IH]; intros it st Hinv; simpl;
    [done|].
  destruct (bool_decide (it < max_iterations self)); [|done].
  destruct (call_llm h self stream _ _ _) as [[llm_events answer] w1].
  destruct answer as [e|llm_response]; simpl; [done|].
  destruct (negb (LLMResponse.has_tool_calls llm_response)); simpl.
  { by apply add_assistant_message_matches. }
  set (st1 := {| context_engine := _ |}).
  pose proof (execute_tool_calls_matches st1
                (LLMResponse.tool_calls llm_response)
                (ContextEngine.session_id (context_engine st))
                (add_assistant_message_matches h _ _ _ Hinv)) as Ht.
  destruct (execute_tool_calls h st1 _ _) as [[tool_events st2] [e|]];
    simpl in *; [done|]. by apply IH.
Qed.

(** X18.  After every [run] the current prompt id of the context engine is
    the id of its prompt counter: [add_user_message] sets both, and nothing
    the loop does (assistant messages, tool results, sanitization) lets
    them drift apart. *)
Theorem X18_prompt_id_follows_counter (self : t h) (st : state h)
    (user_query : MessageContent) (stream : bool) :
  prompt_id_matches_counter
    (context_engine (run h self st user_query stream).2).
Proof.
  unfold run. simpl. apply loop_matches. simpl.
  apply add_user_message_matches.
Qed.

End AgentLoopExtras.

Section AgentLoopEvents.
Context (h : Host).
Import AgentLoop.

Lemma llm_starts_app (l1 l2 : list (@AgentEvent.t h)) :
  llm_starts (l1 ++ l2) = llm_starts l1 ++ llm_starts l2.
Proof. apply omap_app. Qed.

Lemma consume_no_start (chunks : list LLMChunk) (parts : list string)
    (calls : list ToolCall.t) (usage : option TokenUsage) (reason : string) :
  llm_starts (consume h chunks parts calls usage reason).1 = [].
Proof.
  revert parts calls usage reason.
  induction chunks as [|c chunks IH]; intros parts calls usage reason; simpl;
    [done|].
  destruct c; simpl; try apply IH.
  specialize (IH (parts ++ [delta]) calls usage reason).
  by destruct (consume h chunks _ _ _ _) as [evs r].
Qed.

Lemma call_llm_no_start (self : t h) (stream : bool)
    (messages : list Message.t) (session_id : string) (w : W h) :
  llm_starts (call_llm h self stream messages session_id w).1.1 = [].
Proof.
  unfold call_llm, _handle_streaming_llm. destruct stream.
  - destruct (generate_stream _ _ _) as [[chunks failure] w'].
    pose proof (consume_no_start chunks [] [] None "") as Hc.
    destruct (consume h chunks _ _ _ _) as [evs [[[parts calls] usage] reason]].
    simpl in Hc. destruct failure; simpl; [done|].
    by rewrite llm_starts_app, Hc.
  - by destruct (generate _ _ _) as [[e|r] w'].
Qed.

Lemma execute_tool_calls_no_start (st : state h) (calls : list ToolCall.t)
    (session_id : string) :
  llm_starts (execute_tool_calls h st calls session_id).1.1 = [].
Proof.
  revert st. induction calls as [|c calls IH]; intros st; simpl; [done|].
  set (r := ToolExecutor.execute_tool_call h _ _ _ _ _).
  assert (llm_starts (AgentEvent.of_tool <$> ToolExecutor.events r) = [])
    as He by (induction (ToolExecutor.events r); done).
  destruct (ToolExecutor.raised r); simpl; [done|].
  specialize (IH {| context_engine := ToolExecutor.engine r;
                    tool_executor := ToolExecutor.executor r;
                    world := ToolExecutor.world r |}).
  destruct (execute_tool_calls h _ calls session_id) as [[evs st'] e].
  simpl in *. by rewrite llm_starts_app, He, IH.
Qed.

(** The iterations of the loop are announced one by one. *)
Lemma loop_starts (fuel : nat) (self : t h) (stream : bool) (it : Z)
    (st : state h) :
  let r := loop h fuel self stream it st in
  it <= iteration r ∧
  llm_starts (events r) = seqZ (it + 1) (iteration r - it).
Proof.
  revert it st. induction fuel as [|fuel IH]; intros it st; simpl.
  { split; [lia|]. by rewrite Z.sub_diag. }
  destruct (bool_decide (it < max_iterations self)); simpl;
    [|split; [lia|by rewrite Z.sub_diag]].
  pose proof (call_llm_no_start self stream
                (ContextEngine.get_messages_for_llm h (context_engine st))
                (ContextEngine.session_id (context_engine st)) (world st)) as Hl.
  destruct (call_llm h self stream _ _ _) as [[llm_events answer] w1].
  simpl in Hl.
  assert (seqZ (it + 1) (it + 1 - it) = [it + 1]) as Hone
    by (replace (it + 1 - it) with 1 by lia; done).
  destruct answer as [e|llm_response]; simpl.
  { split; [lia|]. rewrite llm_starts_app, Hl, Hone. done. }
  destruct (negb (LLMResponse.has_tool_calls llm_response)); simpl.
  { split; [lia|]. by rewrite Hl, Hone. }
  set (st1 := {| context_engine := _ |}).
  pose proof (execute_tool_calls_no_start st1
                (LLMResponse.tool_calls llm_response)
                (ContextEngine.session_id (context_engine st))) as Ht.
  destruct (execute_tool_calls h st1 _ _) as [[tool_events st2] [e|]];
    simpl in *.
  { split; [lia|]. rewrite !llm_starts_app, Hl, Ht, Hone. done. }
  destruct (IH (it + 1) st2) as [Hb He].
  split; [lia|].
  rewrite !llm_starts_app, Hl, Ht, He. simpl.
  replace (iteration (loop h fuel self stream (it + 1) st2) - it)
    with (1 + (iteration (loop h fuel self stream (it + 1) st2) - (it + 1)))
    by lia.
  rewrite seqZ_app by lia. done.
Qed.

(** X19.  [run] announces every iteration once and in order: its events
    end with the one [agent_done], and the [llm_start] events before it
    carry the iteration numbers 1, 2, ... up to [agent_done.iterations]. *)
Theorem X19_llm_start_per_iteration (self : t h) (st : state h)
    (user_query : MessageContent) (stream : bool) :
  ∃ evs final iterations session_id,
    (run h self st user_query stream).1
    = evs ++ [AgentEvent.agent_done final iterations session_id] ∧
    0 <= iterations ∧
    llm_starts evs = seqZ 1 iterations.
Proof.
  unfold run. simpl. eexists _, _, _, _. split; [reflexivity|].
  match goal with |- context [loop h ?f self stream 0 ?s] =>
    destruct (loop_starts f self stream 0 s) as [Hb He] end.
  split; [exact Hb|]. rewrite He. f_equal. lia.
Qed.

(** X20.  When the model fails at the first call (not streamed), [run]
    yields [llm_start], the [error] event with the text of the exception and
    [agent_done] after one iteration; nothing but the user message is added
    to the context.  The final response is empty, except with a cap of one
    iteration, where it is the sentinel of the iteration cap although the
    run ended on an error. *)
Theorem X20_llm_failure_ends_the_run (self : t h) (st : state h)
    (user_query : MessageContent) (e : string) (w1 : W h) :
  1 <= max_iterations self →
  generate (llm self)
    (ContextEngine.get_messages_for_llm h
       (ContextEngine.add_user_message h (context_engine st) user_query))
    (world st) = (inl e, w1) →
  run h self st user_query false
  = ([AgentEvent.llm_start 1 (ContextEngine.session_id (context_engine st));
      AgentEvent.error e 1;
      AgentEvent.agent_done
        (if bool_decide (max_iterations self = 1) then sentinel else "") 1
        (ContextEngine.session_id (context_engine st))],
     {| context_engine :=
          ContextEngine.add_user_message h (context_engine st) user_query;
        tool_executor := tool_executor st;
        world := w1 |}).
Proof.
  intros Hmax Hg. unfold run.
  destruct (Z.to_nat (max_iterations self)) as [|fuel] eqn:Hf; [lia|].
  simpl. rewrite bool_decide_eq_true_2 by lia.
  unfold call_llm. simpl in Hg. rewrite Hg. simpl.
  do 2 f_equal. f_equal.
  destruct (decide (max_iterations self = 1)) as [H1|H1].
  - rewrite !bool_decide_eq_true_2 by (done || lia). done.
  - rewrite (bool_decide_eq_false_2 (0 + 1 >= _)) by lia.
    by rewrite bool_decide_eq_false_2.
Qed.

(** X21.  When the first answer of the model (not streamed) has no tool
    call, [run] ends after one iteration: it yields [llm_start], [llm_done]
    and [agent_done] with the content of the answer as final response (the
    sentinel instead when the content is empty and the cap is one
    iteration), and the context has gained the user message and the
    assistant message. *)
Theorem X21_answer_without_tool_calls_ends_the_run (self : t h)
    (st : state h) (user_query : MessageContent) (response : LLMResponse.t)
    (w1 : W h) :
  1 <= max_iterations self →
  generate (llm self)
    (ContextEngine.get_messages_for_llm h
       (ContextEngine.add_user_message h (context_engine st) user_query))
    (world st) = (inr response, w1) →
  LLMResponse.tool_calls response = [] →
  run h self st user_query false
  = ([AgentEvent.llm_start 1 (ContextEngine.session_id (context_engine st));
      AgentEvent.llm_done (LLMResponse.content response) false []
        (ContextEngine.session_id (context_engine st));
      AgentEvent.agent_done
        (if bool_decide (max_iterations self = 1)
            && bool_decide (LLMResponse.content response = "")
         then sentinel else LLMResponse.content response) 1
        (ContextEngine.session_id (context_engine st))],
     {| context_engine :=
          ContextEngine.add_assistant_message h
            (ContextEngine.add_user_message h (context_engine st) user_query)
            response (Some 1);
        tool_executor := tool_executor st;
        world := w1 |}).
Proof.
  intros Hmax Hg Hc. unfold run.
  destruct (Z.to_nat (max_iterations self)) as [|fuel] eqn:Hf; [lia|].
  simpl. rewrite bool_decide_eq_true_2 by lia.
  unfold call_llm. simpl in Hg. rewrite Hg. simpl.
  unfold LLMResponse.has_tool_calls, _build_llm_done_event_data.
  rewrite Hc. simpl.
  unfold LLMResponse.has_tool_calls. rewrite Hc. simpl.
  assert (bool_decide (0 + 1 >= max_iterations self)
          = bool_decide (max_iterations self = 1)) as ->; [|reflexivity].
  destruct (decide (max_iterations self = 1)).
  - by rewrite !bool_decide_eq_true_2 by lia.
  - by rewrite !bool_decide_eq_false_2 by lia.
Qed.

(** X22.  With a cap of zero iterations or less the model is never called:
    [run] adds the user message, leaves the world as it is, and yields only
    [agent_done] with the sentinel and 0 iterations. *)
Theorem X22_no_iteration_without_budget (self : t h) (st : state h)
    (user_query : MessageContent) (stream : bool) :
  max_iterations self <= 0 →
  run h self st user_query stream
  = ([AgentEvent.agent_done sentinel 0
        (ContextEngine.session_id (context_engine st))],
     {| context_engine :=
          ContextEngine.add_user_message h (context_engine st) user_query;
        tool_executor := tool_executor st;
        world := world st |}).
Proof.
  intros Hmax. unfold run.
  replace (Z.to_nat (max_iterations self)) with O by lia. simpl.
  rewrite bool_decide_eq_true_2 by lia. simpl.
  unfold ContextEngine.add_user_message.
  by destruct (ContextEngine._trajectory_writer (context_engine st)).
Qed.

Lemma consume_spec (chunks : list LLMChunk) (parts : list string)
    (calls : list ToolCall.t) (usage : option TokenUsage) (reason : string) :
  ∃ usage' reason',
    consume h chunks parts calls usage reason
    = (AgentEvent.llm_chunk <$> chunk_deltas chunks,
       (parts ++ chunk_deltas chunks, calls ++ chunk_tool_calls chunks,
        usage', reason')).
Proof.
  revert parts calls usage reason.
  induction chunks as [|c chunks IH]; intros parts calls usage reason; simpl.
  { exists usage, reason. by rewrite !app_nil_r. }
  destruct c; simpl.
  - destruct (IH (parts ++ [delta]) calls usage reason) as (u & f & ->).
    exists u, f. by rewrite <-app_assoc.
  - destruct (IH parts (calls ++ [tool_call]) usage reason) as (u & f & ->).
    exists u, f. by rewrite <-app_assoc.
  - apply IH.
  - apply IH.
Qed.

(** X23.  A stream that ends without exception is put together in order:
    [_handle_streaming_llm] yields one [llm_chunk] per content chunk and
    then [llm_done]; the content of the response it returns is the
    concatenation of the deltas, its tool calls are those of the tool-call
    chunks, and its model is the adapter's. *)
Theorem X23_stream_is_assembled_in_order (self : t h)
    (messages : list Message.t) (session_id : string) (w w' : W h)
    (chunks : list LLMChunk) :
  generate_stream (llm self) messages w = ((chunks, None), w') →
  ∃ response,
    _handle_streaming_llm h self messages session_id w
    = ((AgentEvent.llm_chunk <$> chunk_deltas chunks) ++
       [AgentEvent.llm_done (LLMResponse.content response)
          (LLMResponse.has_tool_calls response)
          (LLMResponse.tool_calls response) session_id],
       inr response, w') ∧
    LLMResponse.content response = Py.concat (chunk_deltas chunks) ∧
    LLMResponse.tool_calls response = chunk_tool_calls chunks ∧
    LLMResponse.model response = llm_model (llm self).
Proof.
  intros Hg. unfold _handle_streaming_llm. rewrite Hg.
  destruct (consume_spec chunks [] [] None "") as (u & f & ->).
  simpl. eexists. split; [reflexivity|]. done.
Qed.

End AgentLoopEvents.

(** * Further properties of the retry wrapper *)

Section RetryExtras.
Context {A W : Type}.
Context (func : W → (retry.exception + A) * W) (sleep : retry.float → W → W).
Import retry.

(** X24.  With [max_retries] of zero or less the wrapper never calls the
    function: the loop body does not run, nothing was raised, and the
    wrapper returns [None]. *)
Theorem X24_no_attempt_without_retries (max_retries : Z)
    (initial_delay exponential_base : Q) (retryable : list exn_class)
    (w : W) :
  max_retries <= 0 →
  wrapper func sleep max_retries initial_delay exponential_base retryable w
  = (ReturnedNone, [], w).
Proof.
  intros Hm. unfold wrapper.
  replace (Z.to_nat max_retries) with O by lia. reflexivity.
Qed.

(** X25.  When every call fails with a retryable error that gives no
    [retry_after], [@retry_on_failure(max_retries=3)] calls the function
    three times, sleeps one second after the first failure and two after
    the second, and raises the third error. *)
Theorem X25_three_failures_back_off_and_raise (w : W) :
  (∀ w0, ∃ e w1, func w0 = (inl e, w1) ∧ should_retry e = true ∧
                 given_retry_after e = None) →
  ∃ e1 e2 e3 w',
    retry_on_failure_3 func sleep w
    = (Raised e3,
       [Called 0 (inl e1); Slept (Finite (1 * 2 ^ 0)); Called 1 (inl e2);
        Slept (Finite (1 * 2 ^ 1)); Called 2 (inl e3)], w').
Proof.
  intros Hall. unfold retry_on_failure_3, wrapper.
  change (Z.to_nat 3) with 3%nat. cbn [attempts].
  assert (∀ e a, given_retry_after e = None →
            wait_time_of 1 2 e a = Finite (1 * 2 ^ a)) as Hwait
    by (intros e a He; unfold wait_time_of; by rewrite He).
  destruct (Hall w) as (e1 & w1 & -> & Hr1 & Hg1).
  unfold should_retry in Hr1. rewrite Hr1, (Hwait e1 0 Hg1).
  rewrite (bool_decide_eq_false_2 (0 = 3 - 1)) by lia.
  change (sleep_raises (Finite (1 * 2 ^ 0))) with (@None exception).
  cbn iota.
  destruct (Hall (sleep (Finite (1 * 2 ^ 0)) w1)) as (e2 & w2 & -> & Hr2 & Hg2).
  unfold should_retry in Hr2. rewrite Hr2, (Hwait e2 (0 + 1) Hg2).
  rewrite (bool_decide_eq_false_2 (0 + 1 = 3 - 1)) by lia.
  change (sleep_raises (Finite (1 * 2 ^ (0 + 1)))) with (@None exception).
  cbn iota.
  destruct (Hall (sleep (Finite (1 * 2 ^ (0 + 1))) w2))
    as (e3 & w3 & -> & Hr3 & Hg3).
  unfold should_retry in Hr3. rewrite Hr3.
  rewrite (bool_decide_eq_true_2 (0 + 1 + 1 = 3 - 1)) by lia.
  by exists e1, e2, e3, w3.
Qed.

End RetryExtras.

(** X26.  [should_retry] holds exactly for the errors of class
    [RetryableError], [TimeoutError] and [RateLimitError]: an [APIError], an
    [AuthenticationError], a [ContextLengthExceededError], an
    [InvalidRequestError], a [ModelNotFoundError], a plain [LLMError] and
    the builtin exceptions are never retried. *)
Theorem X26_should_retry_classes (e : retry.exception) :
  retry.should_retry e
  = bool_decide (retry.cls e ∈ [retry.RetryableError; retry.TimeoutError;
                                retry.RateLimitError]).
Proof.
  unfold retry.should_retry, retry.isinstance.
  destruct e as [[] msg ra]; vm_compute; reflexivity.
Qed.

(** *** Closed instances *)

(** X14 at work: a [read_file] call with arguments that parse. *)
Lemma X14_answered_call_gets_one_tool_message_witness :
  let r :=
    ToolExecutor.execute_tool_call sample_host sample_executor sample_engine
      0%nat (sample_tool_call "tc_2" "read_file" "{}") "session_1" in
  ToolExecutor.raised r = None ∧
  ∃ result display confirmed arguments,
    ContextEngine._messages (ToolExecutor.engine r)
    = ContextEngine._messages sample_engine ++ [tool_message "tc_2" result] ∧
    last (ToolExecutor.events r)
    = Some (tool_done "tc_2" "read_file" result display confirmed arguments
              "session_1").
Proof.
  apply (X14_answered_call_gets_one_tool_message sample_host sample_executor
           sample_engine 0%nat (sample_tool_call "tc_2" "read_file" "{}")
           "session_1" "read_file").
  - vm_compute; reflexivity.
  - right. exists "{}", "{}". split; vm_compute; reflexivity.
Defined.

(** X15 at work: [edit_file] requires confirmation, and no callback is set. *)
Lemma X15_unconfirmed_tool_is_not_run_witness :
  let r :=
    ToolExecutor.execute_tool_call sample_host sample_careful_executor
      sample_engine 0%nat (sample_tool_call "tc_3" "edit_file" "{}")
      "session_1" in
  ToolExecutor.events r
  = [@tool_confirmation_required sample_host "tc_3" "edit_file" "{}"
       "session_1";
     @tool_done sample_host "tc_3" "edit_file"
       "Tool execution rejected by user: edit_file" None false (Some "{}")
       "session_1"] ∧
  ToolExecutor.world r = 0%nat.
Proof.
  destruct (X15_unconfirmed_tool_is_not_run sample_host
              sample_careful_executor sample_engine 0%nat
              (sample_tool_call "tc_3" "edit_file" "{}") "session_1"
              "edit_file" "{}" "{}" sample_edit_tool)
    as (He & _ & _ & _ & Hw);
    [vm_compute; reflexivity | vm_compute; reflexivity
    |vm_compute; reflexivity | vm_compute; reflexivity | reflexivity
    |reflexivity | reflexivity |].
  split; [exact He | exact (Hw eq_refl)].
Defined.

(** X16 at work: the same call in YOLO mode is run. *)
Lemma X16_yolo_runs_without_asking_witness :
  let r :=
    ToolExecutor.execute_tool_call sample_host sample_executor sample_engine
      0%nat (sample_tool_call "tc_3" "edit_file" "{}") "session_1" in
  ToolExecutor.events r
  = [@tool_start sample_host "tc_3" "edit_file" "{}" "session_1";
     @tool_done sample_host "tc_3" "edit_file"
       "Error: File not found: /ws/missing.txt"
       (Some "❌ File not found") true (Some "{}") "session_1"] ∧
  ToolExecutor.world r = 1%nat.
Proof.
  destruct (X16_yolo_runs_without_asking sample_host sample_executor
              sample_engine 0%nat (sample_tool_call "tc_3" "edit_file" "{}")
              "session_1" "edit_file" "{}" "{}" sample_edit_tool)
    as (He & Hw);
    [vm_compute; reflexivity | vm_compute; reflexivity
    |vm_compute; reflexivity | vm_compute; reflexivity
    |right; reflexivity |].
  split; [rewrite He | rewrite Hw]; vm_compute; reflexivity.
Defined.


(** X20 at work: the model times out and the cap is one iteration. *)
Lemma X20_llm_failure_ends_the_run_witness :
  1 <= AgentLoop.max_iterations (sample_loop_of sample_failing_llm 1) ∧
  AgentLoop.run sample_host (sample_loop_of sample_failing_llm 1) sample_state
    (Text "Show me a.txt") false
  = ([AgentEvent.llm_start 1 "session_1";
      AgentEvent.error "Request timed out" 1;
      AgentEvent.agent_done AgentLoop.sentinel 1 "session_1"],
     {| AgentLoop.context_engine :=
          ContextEngine.add_user_message sample_host
            (AgentLoop.context_engine sample_state) (Text "Show me a.txt");
        AgentLoop.tool_executor := sample_executor;
        AgentLoop.world := 1%nat |}).
Proof.
  assert (H : 1 <= AgentLoop.max_iterations (sample_loop_of sample_failing_llm 1))
    by (simpl; lia).
  split; [exact H|].
  exact (X20_llm_failure_ends_the_run sample_host
           (sample_loop_of sample_failing_llm 1) sample_state
           (Text "Show me a.txt") "Request timed out" 1%nat H eq_refl).
Defined.

(** X21 at work: the model answers "Hello". *)
Lemma X21_answer_without_tool_calls_ends_the_run_witness :
  1 <= AgentLoop.max_iterations (sample_loop_of sample_answering_llm 2) ∧
  (AgentLoop.run sample_host (sample_loop_of sample_answering_llm 2)
     sample_state (Text "Say hello") false).1
  = [AgentEvent.llm_start 1 "session_1";
     AgentEvent.llm_done "Hello" false [] "session_1";
     AgentEvent.agent_done "Hello" 1 "session_1"].
Proof.
  assert (H : 1 <= AgentLoop.max_iterations
                     (sample_loop_of sample_answering_llm 2))
    by (simpl; lia).
  split; [exact H|].
  rewrite (X21_answer_without_tool_calls_ends_the_run sample_host
             (sample_loop_of sample_answering_llm 2) sample_state
             (Text "Say hello")
             {| LLMResponse.content := "Hello";
                LLMResponse.tool_calls := [];
                LLMResponse.usage := None;
                LLMResponse.model := "sample-model";
                LLMResponse.finish_reason := "stop" |} 1%nat H eq_refl eq_refl).
  reflexivity.
Defined.

(** X22 at work with a cap of zero. *)
Lemma X22_no_iteration_without_budget_witness :
  AgentLoop.max_iterations (sample_loop_of sample_answering_llm 0) <= 0 ∧
  (AgentLoop.run sample_host (sample_loop_of sample_answering_llm 0)
     sample_state (Text "Say hello") true).1
  = [AgentEvent.agent_done AgentLoop.sentinel 0 "session_1"].
Proof.
  assert (H : AgentLoop.max_iterations (sample_loop_of sample_answering_llm 0)
              <= 0) by (simpl; lia).
  split; [exact H|].
  rewrite (X22_no_iteration_without_budget sample_host
             (sample_loop_of sample_answering_llm 0) sample_state
             (Text "Say hello") true H).
  reflexivity.
Defined.

(** X23 at work: "Hel" and "lo" arrive and "Hello" is returned. *)
Lemma X23_stream_is_assembled_in_order_witness :
  ∃ response,
    AgentLoop._handle_streaming_llm sample_host
      (sample_loop_of sample_answering_llm 2) [] "session_1" 0%nat
    = ([AgentEvent.llm_chunk "Hel"; AgentEvent.llm_chunk "lo";
        AgentEvent.llm_done "Hello" false [] "session_1"],
       inr response, 1%nat) ∧
    LLMResponse.content response = "Hello".
Proof.
  destruct (X23_stream_is_assembled_in_order sample_host
              (sample_loop_of sample_answering_llm 2) [] "session_1" 0%nat
              1%nat
              [chunk_content "Hel"; chunk_content "lo"; chunk_done None "stop"]
              eq_refl) as (response & Hr & Hc & Ht & _).
  exists response. split; [|exact Hc].
  rewrite Hr. unfold LLMResponse.has_tool_calls. rewrite Hc, Ht. reflexivity.
Defined.

(** X24 at work: no attempt with [max_retries = 0]. *)
Lemma X24_no_attempt_without_retries_witness :
  0 <= 0 ∧
  retry.wrapper sample_timeout_func sample_sleep 0 1 2 retry.default_retryable
    0%nat
  = (retry.ReturnedNone, [], 0%nat).
Proof.
  assert (H : 0 <= 0) by lia.
  split; [exact H|].
  exact (X24_no_attempt_without_retries sample_timeout_func sample_sleep 0 1 2
           retry.default_retryable 0%nat H).
Defined.

(** X25 at work on a call that always times out. *)
Lemma X25_three_failures_back_off_and_raise_witness :
  ∃ e1 e2 e3 w',
    retry.retry_on_failure_3 sample_timeout_func sample_sleep 0%nat
    = (retry.Raised e3,
       [retry.Called 0 (inl e1); retry.Slept (retry.Finite (1 * 2 ^ 0));
        retry.Called 1 (inl e2); retry.Slept (retry.Finite (1 * 2 ^ 1));
        retry.Called 2 (inl e3)], w').
Proof.
  apply (X25_three_failures_back_off_and_raise sample_timeout_func
           sample_sleep 0%nat).
  intros w0. exists sample_timeout, (S w0). repeat split.
Defined.

(** * Further properties of [edit_file] and of the executor's record *)

Section MoreEditFileExtras.
Context (os : OS) (workspace_root : string).
Import FileSystemToolMixin.

(** X27.  [edit_file] can empty the file.  When the new text cannot be
    encoded in the encoding the file was read with, the file has been
    opened for writing, and so truncated, before the encoder fails: the
    call returns the error "Failed to write file" and the file is left
    with no content. *)
Theorem X27_edit_file_encode_failure_empties_the_file
    (tracker : option (gset string)) (fs : gmap string node)
    (p old new b0 c0 encoding : string) (readable all : bool) :
  is_absolute p = true →
  relative_to_ok workspace_root (_resolve_path os p) = true →
  fs !! _resolve_path os p = Some (File b0 readable true) →
  EditFileTool.unread os tracker (_resolve_path os p) = false →
  _read_with_encoding_fallback os fs (_resolve_path os p)
  = inr (c0, encoding) →
  Py.expandtabs old ≠ Py.expandtabs new →
  Py.count (Py.expandtabs c0) (Py.expandtabs old) ≠ 0%nat →
  all = true ∨ Py.count (Py.expandtabs c0) (Py.expandtabs old) = 1%nat →
  let text :=
    Py.replace (Py.expandtabs c0) (Py.expandtabs old) (Py.expandtabs new)
      (if all then None else Some 1%nat) in
  _check_token_limit text MAX_TOKENS = None →
  encode os encoding text = None →
  EditFileTool.execute os workspace_root tracker fs p old new all
  = (_create_error_result ("Failed to write file: " +:+ p)
       ("Write failed: " +:+ strerror os "encode" encoding),
     <[_resolve_path os p := File "" readable true]> fs).
Proof.
  intros Ha Hw Hf Hu Hr Hne Hc Huniq text Ht He.
  unfold EditFileTool.execute.
  unfold _check_absolute_path, _check_within_workspace. rewrite Ha, Hw. simpl.
  unfold Fs.exists_, Fs.is_file. rewrite Hf. simpl.
  rewrite Hu, Hr.
  rewrite (bool_decide_eq_false_2 (Py.expandtabs old = Py.expandtabs new))
    by done.
  rewrite (bool_decide_eq_false_2 (Py.count _ _ = 0%nat)) by done.
  assert (bool_decide (1 < Py.count (Py.expandtabs c0) (Py.expandtabs old))%nat
          && negb all = false) as ->.
  { destruct Huniq as [->|Hone]; [apply andb_false_r|].
    rewrite bool_decide_eq_false_2 by lia. done. }
  assert ((if all
           then Py.replace (Py.expandtabs c0) (Py.expandtabs old)
                  (Py.expandtabs new) None
           else Py.replace (Py.expandtabs c0) (Py.expandtabs old)
                  (Py.expandtabs new) (Some 1%nat)) = text) as ->
    by (subst text; by destruct all).
  rewrite Ht. unfold Fs.write_text, Fs.open_w. rewrite Hf, He. done.
Qed.

(** X28.  Without [replace_all], [edit_file] succeeds only on a unique
    occurrence: when the call returns no error, [old_string] occurs exactly
    once in the file (both with tabs expanded), the text stored is the file
    content with that occurrence replaced, and the call reports one
    replacement. *)
Theorem X28_edit_file_replaces_a_unique_occurrence
    (tracker : option (gset string)) (fs : gmap string node)
    (p old new c0 encoding : string) :
  _read_with_encoding_fallback os fs (_resolve_path os p)
  = inr (c0, encoding) →
  is_error
    (EditFileTool.execute os workspace_root tracker fs p old new false).1
  = false →
  let r := EditFileTool.execute os workspace_root tracker fs p old new false in
  Py.count (Py.expandtabs c0) (Py.expandtabs old) = 1%nat ∧
  display r.1 = "✓ Edited " +:+ p +:+ " (1 replacement)" ∧
  ∃ b readable,
    encode os encoding
      (Py.replace (Py.expandtabs c0) (Py.expandtabs old) (Py.expandtabs new)
         (Some 1%nat)) = Some b ∧
    r.2 !! _resolve_path os p = Some (File b readable true).
Proof.
  intros Hr. unfold EditFileTool.execute.
  destruct (_check_absolute_path p); [done|].
  destruct (_check_within_workspace _ _); [done|].
  destruct (negb (Fs.exists_ _ _)); [done|].
  destruct (negb (Fs.is_file _ _)); [done|].
  destruct (EditFileTool.unread _ _ _); [done|].
  rewrite Hr.
  destruct (bool_decide (Py.expandtabs old = Py.expandtabs new)); [done|].
  destruct (bool_decide (Py.count _ _ = 0%nat)) eqn:H0; [done|].
  apply bool_decide_eq_false in H0.
  destruct (bool_decide (1 < Py.count _ _)%nat) eqn:H1; [done|].
  apply bool_decide_eq_false in H1. simpl.
  set (text := Py.replace _ _ _ _).
  destruct (_check_token_limit text MAX_TOKENS); [done|].
  unfold Fs.write_text, Fs.open_w.
  set (q := _resolve_path os p).
  destruct (fs !! q) as [[b0 r [|]|]|] eqn:E; simpl; try done.
  - destruct (encode os encoding text) as [b|] eqn:Hb; simpl; [|done].
    destruct (Py.split_head _ _); [|done].
    simpl.
    intros _. split; [lia|]. split; [done|].
    exists b, r. split; [done|].
    unfold Fs.set_bytes. rewrite lookup_insert_eq. by rewrite lookup_insert_eq.
  - destruct (encode os encoding text) as [b|] eqn:Hb; simpl; [|done].
    destruct (Py.split_head _ _); [|done].
    simpl.
    intros _. split; [lia|]. split; [done|].
    exists b, true. split; [done|].
    unfold Fs.set_bytes. rewrite lookup_insert_eq. by rewrite lookup_insert_eq.
Qed.

End MoreEditFileExtras.

Section RecordExtras.
Context (h : Host).
Import ContextEngine ToolExecutor.

(** X29.  With a remote executor, the local tool is not run, and the result
    is recorded as failed exactly when "Error:" occurs anywhere in its
    content or the cross mark anywhere in its display (a substring test,
    not a prefix test); the metric then carries the error
    "Tool execution reported failure". *)
Theorem X29_remote_result_is_judged_by_substring (self : ToolExecutor.t h)
    (ctx : ContextEngine.t h) (w w' : W h) (tool : @Tool h)
    (tool_call_id tool_name session_id : string) (arguments : J h)
    (confirmed : bool)
    (remote : string → J h → string → W h → ToolResult * W h)
    (tool_result : ToolResult) :
  remote_executor self = Some remote →
  remote tool_name arguments session_id w = (tool_result, w') →
  let r := _execute_and_record h self ctx w tool tool_call_id tool_name
             arguments confirmed session_id in
  let failed := Py.contains "Error:" (content tool_result)
                || Py.contains "❌" (display tool_result) in
  engine r
  = add_tool_result h ctx tool_call_id (content tool_result) (Some tool_name)
      (Some arguments) (negb failed) (Some (elapsed h w w')) ∧
  metrics_collector (executor r)
  = (λ l, l ++ [ {| metric_tool_call_id := tool_call_id;
                    metric_tool_name := tool_name;
                    metric_success := negb failed;
                    metric_error :=
                      if failed then Some "Tool execution reported failure"
                      else None |} ]) <$> metrics_collector self ∧
  world r = w'.
Proof.
  intros Hr He. unfold _execute_and_record, execute_tool. rewrite Hr, He.
  by destruct (_ || _).
Qed.

(** X30.  An exception raised by a local tool does not leave the executor:
    it is recorded as a failed tool result "Tool execution error: ..." and
    shown as "❌ Error: ...", and the metric carries the text of the
    exception. *)
Theorem X30_tool_exception_is_recorded (self : ToolExecutor.t h)
    (ctx : ContextEngine.t h) (w w' : W h) (tool : @Tool h)
    (tool_call_id tool_name session_id msg : string) (arguments : J h)
    (confirmed : bool) :
  remote_executor self = None →
  tool_execute tool arguments w = (Raises msg, w') →
  let r := _execute_and_record h self ctx w tool tool_call_id tool_name
             arguments confirmed session_id in
  raised r = None ∧
  events r
  = [tool_start tool_call_id tool_name arguments session_id;
     tool_done tool_call_id tool_name ("Tool execution error: " +:+ msg)
       (Some ("❌ Error: " +:+ msg)) confirmed (Some arguments) session_id] ∧
  engine r
  = add_tool_result h ctx tool_call_id ("Tool execution error: " +:+ msg)
      (Some tool_name) (Some arguments) false (Some (elapsed h w w')) ∧
  metrics_collector (executor r)
  = (λ l, l ++ [ {| metric_tool_call_id := tool_call_id;
                    metric_tool_name := tool_name;
                    metric_success := false;
                    metric_error := Some msg |} ]) <$> metrics_collector self.
Proof.
  intros Hr He. unfold _execute_and_record, execute_tool. rewrite Hr, He.
  done.
Qed.

End RecordExtras.

(** *** Closed instances *)

Import FileSystemToolMixin.

(** X27 at work: [/ws/latin.txt] holds the Latin-1 bytes of "é", a tab and
    "x"; they are no UTF-8, so the file is read as Latin-1.  With the tab
    expanded to seven spaces the old string occurs once; the new string is
    an arrow, which Latin-1 cannot encode: the edit fails and the file is
    empty. *)
Lemma X27_edit_file_encode_failure_empties_the_file_witness :
  _read_with_encoding_fallback sample_latin_os sample_latin_fs "/ws/latin.txt"
  = inr ("é" +:+ String Py.tab "x", "latin-1") ∧
  Py.replace (Py.expandtabs ("é" +:+ String Py.tab "x"))
    (Py.expandtabs "é       x") (Py.expandtabs "→") (Some 1%nat) = "→" ∧
  encode sample_latin_os "latin-1" "→" = None ∧
  EditFileTool.execute sample_latin_os "/ws" None sample_latin_fs
    "/ws/latin.txt" "é       x" "→" false
  = (_create_error_result "Failed to write file: /ws/latin.txt"
       "Write failed: encode: latin-1",
     <["/ws/latin.txt" := File "" true true]> sample_latin_fs).
Proof.
  split; [vm_compute; reflexivity|].
  split; [vm_compute; reflexivity|].
  split; [vm_compute; reflexivity|].
  apply (X27_edit_file_encode_failure_empties_the_file sample_latin_os "/ws"
           None sample_latin_fs "/ws/latin.txt" "é       x" "→"
           (String "233" (String Py.tab "x")) ("é" +:+ String Py.tab "x")
           "latin-1" true false).
  - reflexivity.
  - vm_compute; reflexivity.
  - vm_compute; reflexivity.
  - reflexivity.
  - vm_compute; reflexivity.
  - vm_compute; discriminate.
  - vm_compute; discriminate.
  - right. vm_compute; reflexivity.
  - vm_compute; reflexivity.
  - vm_compute; reflexivity.
Defined.

(** X28 at work on [/ws/tab.txt], which holds "é", a tab and "b": the "b"
    is replaced and the text is stored with seven spaces for the tab. *)
Lemma X28_edit_file_replaces_a_unique_occurrence_witness :
  Py.count (Py.expandtabs ("é" +:+ String Py.tab "b")) (Py.expandtabs "b")
  = 1%nat ∧
  display (EditFileTool.execute sample_os "/ws" None sample_tab_fs
             "/ws/tab.txt" "b" "c" false).1
  = "✓ Edited /ws/tab.txt (1 replacement)" ∧
  Py.replace (Py.expandtabs ("é" +:+ String Py.tab "b")) (Py.expandtabs "b")
    (Py.expandtabs "c") (Some 1%nat) = "é       c" ∧
  ∃ b readable,
    encode sample_os "utf-8" "é       c" = Some b ∧
    (EditFileTool.execute sample_os "/ws" None sample_tab_fs "/ws/tab.txt"
       "b" "c" false).2 !! "/ws/tab.txt" = Some (File b readable true).
Proof.
  destruct (X28_edit_file_replaces_a_unique_occurrence sample_os "/ws" None
              sample_tab_fs "/ws/tab.txt" "b" "c"
              ("é" +:+ String Py.tab "b") "utf-8")
    as (Hc & Hd & Hs);
    [vm_compute; reflexivity | vm_compute; reflexivity |].
  split; [exact Hc|]. split; [exact Hd|].
  split; [vm_compute; reflexivity|]. exact Hs.
Defined.

(** X29 at work: the remote result only mentions "Error:" and is recorded
    as a failure. *)
Lemma X29_remote_result_is_judged_by_substring_witness :
  Py.startswith (content (sample_remote "read_file" "{}" "session_1" 0%nat).1)
    "Error:" = false ∧
  ContextEngine._trajectory_writer
    (ToolExecutor.engine
       (ToolExecutor._execute_and_record sample_host sample_remote_executor
          sample_engine 0%nat sample_read_tool "tc_2" "read_file" "{}" true
          "session_1"))
  = Some [@ev_tool_result sample_host (Some "prompt_001") 1 "tc_2"
            "3 lines read; the log says Error: disk full" false
            (Some "read_file") None (Some 1%nat)].
Proof.
  split; [vm_compute; reflexivity|].
  destruct (X29_remote_result_is_judged_by_substring sample_host
              sample_remote_executor sample_engine 0%nat 1%nat
              sample_read_tool "tc_2" "read_file" "session_1" "{}" true
              sample_remote
              (mkToolResult "3 lines read; the log says Error: disk full"
                 (Some "✓ Read")) eq_refl eq_refl) as (He & _ & _).
  rewrite He. vm_compute. reflexivity.
Defined.

(** X30 at work on a tool that divides by zero. *)
Lemma X30_tool_exception_is_recorded_witness :
  ToolExecutor.events
    (ToolExecutor._execute_and_record sample_host sample_executor
       sample_engine 0%nat sample_raising_tool "tc_4" "divide" "{}" true
       "session_1")
  = [@tool_start sample_host "tc_4" "divide" "{}" "session_1";
     @tool_done sample_host "tc_4" "divide"
       "Tool execution error: division by zero"
       (Some "❌ Error: division by zero") true (Some "{}") "session_1"].
Proof.
  destruct (X30_tool_exception_is_recorded sample_host sample_executor
              sample_engine 0%nat 1%nat sample_raising_tool "tc_4" "divide"
              "session_1" "division by zero" "{}" true eq_refl eq_refl)
    as (_ & He & _).
  exact He.
Defined.
